(** * updateCursor: version model, audit ledger, version resolver and
      update orchestrator, embedded from the Go sources.

    Go strings are byte strings and are modelled by [string] (a list of
    8-bit [ascii]); Go's [int] is the 64-bit signed integer of the amd64
    build and is modelled by [Z] with its range written out. *)

From Stdlib Require Import ZArith NArith String Ascii List Bool Lia.
From stdpp Require Import base option list strings gmap sorting pretty.

Local Open Scope string_scope.
Local Open Scope list_scope.
Local Open Scope Z_scope.

#[local] Arguments String.append !s1 s2 : simpl nomatch.

(** ** Results and errors *)

Inductive result (E A : Type) : Type :=
| Ok (a : A)
| Err (e : E).
Arguments Ok {E A} a.
Arguments Err {E A} e.

(** * The parts of Go's standard library the program calls *)

Module Go.

(** ** Bytes *)

Definition byte_le (a b : ascii) : bool := (N_of_ascii a <=? N_of_ascii b)%N.

Definition is_digit (c : ascii) : bool := byte_le "0" c && byte_le c "9".

(** ** package strings *)

(** [s[n:]] when [prefix] starts [s] (strings.CutPrefix). *)
Fixpoint CutPrefix (s prefix : string) {struct prefix} : option string :=
  match prefix with
  | EmptyString => Some s
  | String p prefix' =>
      match s with
      | EmptyString => None
      | String c s' => if Ascii.eqb c p then CutPrefix s' prefix' else None
      end
  end.

Definition HasPrefix (s prefix : string) : bool :=
  match CutPrefix s prefix with Some _ => true | None => false end.

(** [s[:len(s)-len(suffix)]] when [suffix] ends [s] (strings.CutSuffix). *)
Fixpoint CutSuffix (s suffix : string) : option string :=
  if String.eqb s suffix then Some EmptyString
  else match s with
       | EmptyString => None
       | String c s' =>
           match CutSuffix s' suffix with
           | Some r => Some (String c r)
           | None => None
           end
       end.

Definition HasSuffix (s suffix : string) : bool :=
  match CutSuffix s suffix with Some _ => true | None => false end.

(** strings.Contains: [substr] occurs somewhere in [s]. *)
Fixpoint Contains (s substr : string) : bool :=
  HasPrefix s substr ||
  match s with
  | EmptyString => false
  | String _ s' => Contains s' substr
  end.

(** strings.Split with a one-byte separator: the pieces between the
    occurrences of [sep]; always at least one piece. *)
Fixpoint Split (s : string) (sep : ascii) : list string :=
  match s with
  | EmptyString => [EmptyString]
  | String c s' =>
      if Ascii.eqb c sep then EmptyString :: Split s' sep
      else match Split s' sep with
           | p :: ps => String c p :: ps
           | [] => [String c EmptyString]
           end
  end.

(** strings.ReplaceAll for a non-empty [old]: the non-overlapping
    occurrences of [old] are replaced from left to right.  The recursion
    is on [fuel], which [ReplaceAll] sets to the length of the string. *)
Fixpoint replace_all (fuel : nat) (s old new : string) : string :=
  match fuel with
  | O => s
  | S fuel' =>
      match CutPrefix s old with
      | Some rest => new +:+ replace_all fuel' rest old new
      | None =>
          match s with
          | EmptyString => EmptyString
          | String c s' => String c (replace_all fuel' s' old new)
          end
      end
  end.

Definition ReplaceAll (s old new : string) : string :=
  replace_all (String.length s) s old new.

(** ** package strconv *)

Inductive NumError := ErrSyntax | ErrRange.

Definition minInt : Z := - 2 ^ 63.
Definition maxInt : Z := 2 ^ 63 - 1.

Definition digit_value (c : ascii) : Z := Z.of_N (N_of_ascii c) - 48.

(** Value of a run of decimal digits, most significant first; [None]
    when a byte is not a digit. *)
Fixpoint parse_digits (acc : Z) (s : string) : option Z :=
  match s with
  | EmptyString => Some acc
  | String c s' =>
      if is_digit c then parse_digits (acc * 10 + digit_value c) s' else None
  end.

(** strconv.Atoi: an optional sign, then one or more decimal digits;
    the value has to fit an [int]. *)
Definition Atoi (s : string) : result NumError Z :=
  match s with
  | EmptyString => Err ErrSyntax
  | String c rest =>
      let neg := Ascii.eqb c "-" in
      let ds := if neg || Ascii.eqb c "+" then rest else s in
      match ds with
      | EmptyString => Err ErrSyntax
      | _ =>
          match parse_digits 0 ds with
          | None => Err ErrSyntax
          | Some n =>
              let v := if neg then - n else n in
              if (minInt <=? v) && (v <=? maxInt) then Ok v else Err ErrRange
          end
      end
  end.

(** ** Errors

    A Go [error] is modelled by the text of [err.Error()] and by what
    os.IsNotExist answers on it. *)

Record error : Type := { Error : string; IsNotExist : bool }.

(** fmt.Errorf (without the wrapping verb): a new error with the given text. *)
Definition Errorf (text : string) : error :=
  {| Error := text; IsNotExist := false |}.

(** Line feed, tab and carriage return. *)
Definition LF : ascii := "010".
Definition TAB : ascii := "009".
Definition CR : ascii := "013".
Definition nl : string := String LF "".
Definition tab : string := String TAB "".

(** ** Library functions taken as given

    time.Time is modelled by an instant, in nanoseconds since the Unix
    epoch (the location and the monotonic clock reading are dropped). *)

Definition Time : Type := Z.

Record Lib : Type := {
  (** t.UTC().Format(time.RFC3339) *)
  time_Format_RFC3339 : Time → string;
  (** time.Parse(time.RFC3339, s) *)
  time_Parse_RFC3339 : string → result error Time;
  (** strings.TrimFunc(s, unicode.IsSpace) and
      strings.TrimRightFunc(s, unicode.IsSpace), which strings.TrimSpace
      falls back on when it meets a byte outside ASCII *)
  TrimFunc_IsSpace : string → string;
  TrimRightFunc_IsSpace : string → string;
  (** filepath.Join(a, b), filepath.Dir(p) and filepath.Rel(base, targ) *)
  filepath_Join : string → string → string;
  filepath_Dir : string → string;
  filepath_Rel : string → string → result error string;
  (** hex.EncodeToString of the SHA-256 digest of the bytes *)
  sha256_hex : string → string;
}.

(** t.After(u) on instants. *)
Definition After (t u : Time) : bool := t >? u.

(** ** strings.TrimSpace *)

Definition asciiSpace (c : ascii) : bool :=
  Ascii.eqb c TAB || Ascii.eqb c LF || Ascii.eqb c "011" || Ascii.eqb c "012" ||
  Ascii.eqb c CR || Ascii.eqb c " ".

(** [c >= utf8.RuneSelf] *)
Definition notASCII (c : ascii) : bool := (128 <=? N_of_ascii c)%N.

(** The second loop of TrimSpace, on the bytes in reverse order. *)
Fixpoint trimSpaceRight (lib : Lib) (rev_s : list ascii) : string :=
  match rev_s with
  | [] => EmptyString
  | c :: rest =>
      if notASCII c
      then TrimRightFunc_IsSpace lib (string_of_list_ascii (rev rev_s))
      else if asciiSpace c then trimSpaceRight lib rest
      else string_of_list_ascii (rev rev_s)
  end.

Fixpoint TrimSpace (lib : Lib) (s : string) : string :=
  match s with
  | EmptyString => EmptyString
  | String c s' =>
      if notASCII c then TrimFunc_IsSpace lib s
      else if asciiSpace c then TrimSpace lib s'
      else trimSpaceRight lib (rev (list_ascii_of_string s))
  end.

(** ** bufio.Scanner with the default split function (ScanLines)

    The tokens are the lines of the input without their line feed and
    without one trailing carriage return; an empty last line is not a
    token.  A line of [MaxScanTokenSize] bytes or more does not fit the
    buffer: the scan stops there with ErrTooLong. *)

Definition MaxScanTokenSize : Z := 64 * 1024.

Definition ErrTooLong : error := Errorf "bufio.Scanner: token too long".

Fixpoint dropCR (line : string) : string :=
  match line with
  | EmptyString => EmptyString
  | String c rest =>
      match rest with
      | EmptyString => if Ascii.eqb c CR then EmptyString else line
      | _ => String c (dropCR rest)
      end
  end.

(** The raw lines of the input. *)
Definition rawLines (content : string) : list string :=
  let pieces := Split content LF in
  if String.eqb (List.last pieces "") "" then removelast pieces else pieces.

(** The tokens Scan delivers, and what Err reports afterwards. *)
Fixpoint scanTokens (lines : list string) : list string * option error :=
  match lines with
  | [] => ([], None)
  | line :: rest =>
      if MaxScanTokenSize <=? Z.of_nat (String.length line) then ([], Some ErrTooLong)
      else let '(tokens, err) := scanTokens rest in (dropCR line :: tokens, err)
  end.

Definition ScanLines (content : string) : list string * option error :=
  scanTokens (rawLines content).

(** ** filepath.Base *)

Fixpoint stripTrailingSlashes (path : string) : string :=
  match path with
  | EmptyString => EmptyString
  | String c rest =>
      let rest' := stripTrailingSlashes rest in
      if String.eqb rest' "" && Ascii.eqb c "/" then EmptyString
      else String c rest'
  end.

Definition Base (path : string) : string :=
  if String.eqb path "" then "."
  else
    let path := stripTrailingSlashes path in
    let path := List.last (Split path "/") "" in
    if String.eqb path "" then "/" else path.

(** ** os.UserHomeDir on Linux: $HOME when it is set and not empty;
    [environ] is what os.Getenv answers. *)
Definition UserHomeDir (environ : string → string) : result error string :=
  let v := environ "HOME" in
  if negb (String.eqb v "") then Ok v
  else Err (Errorf "$HOME is not defined").

End Go.

(** ** package regexp: the fragment used by the program

    Regular expressions over bytes, a derivative-based matcher, and the
    language each expression denotes ([Matches]). *)

Module Regexp.

Inductive regex : Type :=
| Fail                              (* matches nothing *)
| Eps                               (* the empty string *)
| Chr (c : ascii)                   (* one literal byte *)
| Range (lo hi : ascii)             (* [lo-hi] *)
| Cat (r1 r2 : regex)
| Alt (r1 r2 : regex)
| Star (r : regex).

(** [r+] *)
Definition Plus (r : regex) : regex := Cat r (Star r).

(** A literal string. *)
Fixpoint Lit (s : string) : regex :=
  match s with
  | EmptyString => Eps
  | String c s' => Cat (Chr c) (Lit s')
  end.

Inductive Matches : regex → string → Prop :=
| MEps : Matches Eps ""
| MChr c : Matches (Chr c) (String c "")
| MRange lo hi c :
    Go.byte_le lo c = true → Go.byte_le c hi = true →
    Matches (Range lo hi) (String c "")
| MCat r1 r2 s1 s2 :
    Matches r1 s1 → Matches r2 s2 → Matches (Cat r1 r2) (s1 +:+ s2)
| MAltL r1 r2 s : Matches r1 s → Matches (Alt r1 r2) s
| MAltR r1 r2 s : Matches r2 s → Matches (Alt r1 r2) s
| MStarNil r : Matches (Star r) ""
| MStarApp r s1 s2 :
    Matches r s1 → Matches (Star r) s2 → Matches (Star r) (s1 +:+ s2).

Fixpoint nullable (r : regex) : bool :=
  match r with
  | Fail => false
  | Eps => true
  | Chr _ => false
  | Range _ _ => false
  | Cat r1 r2 => nullable r1 && nullable r2
  | Alt r1 r2 => nullable r1 || nullable r2
  | Star _ => true
  end.

Fixpoint deriv (a : ascii) (r : regex) : regex :=
  match r with
  | Fail => Fail
  | Eps => Fail
  | Chr c => if Ascii.eqb a c then Eps else Fail
  | Range lo hi => if Go.byte_le lo a && Go.byte_le a hi then Eps else Fail
  | Cat r1 r2 =>
      if nullable r1 then Alt (Cat (deriv a r1) r2) (deriv a r2)
      else Cat (deriv a r1) r2
  | Alt r1 r2 => Alt (deriv a r1) (deriv a r2)
  | Star r1 => Cat (deriv a r1) (Star r1)
  end.

(** MatchString for an expression anchored at both ends. *)
Fixpoint MatchString (r : regex) (s : string) : bool :=
  match s with
  | EmptyString => nullable r
  | String a s' => MatchString (deriv a r) s'
  end.

End Regexp.

(** * package version (internal/version/version.go) *)

Module version.

Import Regexp.

(** The capture group of the file-name expression: [[0-9]+(\.[0-9]+)*]. *)
Definition digit : regex := Range "0" "9".
Definition dotNum : regex := Cat (Chr ".") (Plus digit).
Definition versionGroup : regex := Cat (Plus digit) (Star dotNum).

(** The expression compiled by SemverFromName, [^Cursor-(V)-x86_64\.AppImage$]
    with V the group above. *)
Definition cursorRe : regex :=
  Cat (Lit "Cursor-") (Cat versionGroup (Lit "-x86_64.AppImage")).

(** What the last iteration of the inner group [(\.[0-9]+)*] matched:
    the text from the last dot of the version on, empty when there was
    no iteration. *)
Fixpoint lastDotNum (v : string) : string :=
  match v with
  | EmptyString => EmptyString
  | String c v' =>
      if Go.Contains v' "." then lastDotNum v'
      else if Ascii.eqb c "." then v else EmptyString
  end.

(** re.FindStringSubmatch(filename) for [cursorRe]: nil (the empty list)
    when the file name does not match, else the whole match followed by
    the two groups.  Both literals are fixed and the expression is
    anchored, so the outer group can only be the text between them. *)
Definition FindStringSubmatch (filename : string) : list string :=
  match Go.CutPrefix filename "Cursor-" with
  | None => []
  | Some rest =>
      match Go.CutSuffix rest "-x86_64.AppImage" with
      | None => []
      | Some v =>
          if MatchString versionGroup v then [filename; v; lastDotNum v]
          else []
      end
  end.

(** SemverFromName extracts the semantic version from a Cursor filename. *)
Definition SemverFromName (filename : string) : string :=
  if String.eqb filename "" then ""
  else
    let matches := FindStringSubmatch filename in
    if (length matches <? 2)%nat then ""
    else nth 1 matches "".

Inductive ParseError : Type :=
| EmptyVersionString                (* "empty version string" *)
| ExpectedThreeParts (got : nat)    (* "invalid semver format: expected 3 parts, got %d" *)
| InvalidMajor (e : Go.NumError)    (* "invalid major version: %v" *)
| InvalidMinor (e : Go.NumError)    (* "invalid minor version: %v" *)
| InvalidPatch (e : Go.NumError).   (* "invalid patch version: %v" *)

(** ParseSemver parses a semantic version string and returns its major,
    minor and patch components. *)
Definition ParseSemver (version : string) : result ParseError (Z * Z * Z) :=
  if String.eqb version "" then Err EmptyVersionString
  else
    let parts := Go.Split version "." in
    match parts with
    | [p0; p1; p2] =>
        match Go.Atoi p0 with
        | Err e => Err (InvalidMajor e)
        | Ok major =>
            match Go.Atoi p1 with
            | Err e => Err (InvalidMinor e)
            | Ok minor =>
                match Go.Atoi p2 with
                | Err e => Err (InvalidPatch e)
                | Ok patch => Ok (major, minor, patch)
                end
            end
        end
    | _ => Err (ExpectedThreeParts (length parts))
    end.

(** LessThan compares two semantic versions and returns true if v1 < v2. *)
Definition LessThan (v1 v2 : string) : bool :=
  if String.eqb v1 "" || String.eqb v2 "" then false
  else
    match ParseSemver v1 with
    | Err _ => false
    | Ok (major1, minor1, patch1) =>
        match ParseSemver v2 with
        | Err _ => false
        | Ok (major2, minor2, patch2) =>
            if major1 <? major2 then true
            else if major1 >? major2 then false
            else if minor1 <? minor2 then true
            else if minor1 >? minor2 then false
            else patch1 <? patch2
        end
    end.

End version.

(** * package config (internal/config/config.go) *)

Module config.

Record Config : Type := {
  DownloadDir : string;
  FileNamePattern : string;
  LatestSymlink : string;
  LedgerPath : string;
}.

(** NewConfig creates a new config with default values. *)
Definition NewConfig : Config := {|
  DownloadDir := "~/Downloads/Cursor";
  FileNamePattern := "Cursor-<version>-x86_64.AppImage";
  LatestSymlink := "~/Downloads/Cursor/Cursor.AppImage";
  LedgerPath := "~/.config/updateCursor/cursor-versions.log";
|}.

(** GenerateFileName generates a filename based on the pattern and version. *)
Definition GenerateFileName (c : Config) (version : string) : string :=
  Go.ReplaceAll (FileNamePattern c) "<version>" version.

(** Validate checks if the configuration is valid. *)
Definition Validate (c : Config) : option Go.error :=
  if String.eqb (DownloadDir c) "" then Some (Go.Errorf "download_dir cannot be empty")
  else if String.eqb (FileNamePattern c) ""
  then Some (Go.Errorf "file_name_pattern cannot be empty")
  else if negb (Go.Contains (FileNamePattern c) "<version>")
  then Some (Go.Errorf "file_name_pattern must contain <version> placeholder")
  else if String.eqb (LatestSymlink c) ""
  then Some (Go.Errorf "latest_symlink cannot be empty")
  else if String.eqb (LedgerPath c) "" then Some (Go.Errorf "ledger_path cannot be empty")
  else None.

Section WithEnv.
Context (lib : Go.Lib) (environ : string → string).

(** expandHomeDir expands ~ to the user's home directory; with the
    error it returns the empty string. *)
Definition expandHomeDir (path : string) : string * option Go.error :=
  match path with
  | String c rest =>
      if Ascii.eqb c "~" then
        match Go.UserHomeDir environ with
        | Err err => ("", Some err)
        | Ok home => (Go.filepath_Join lib home rest, None)
        end
      else (path, None)
  | EmptyString => (path, None)
  end.

(** ExpandPaths expands all paths that contain ~ to absolute paths.
    Each field is assigned what expandHomeDir returned before the error
    is looked at. *)
Definition ExpandPaths (c : Config) : option Go.error * Config :=
  let '(path, err) := expandHomeDir (DownloadDir c) in
  let c := {| DownloadDir := path; FileNamePattern := FileNamePattern c;
              LatestSymlink := LatestSymlink c; LedgerPath := LedgerPath c |} in
  match err with
  | Some err => (Some (Go.Errorf ("failed to expand download_dir: " +:+ Go.Error err)), c)
  | None =>
      let '(path, err) := expandHomeDir (LatestSymlink c) in
      let c := {| DownloadDir := DownloadDir c; FileNamePattern := FileNamePattern c;
                  LatestSymlink := path; LedgerPath := LedgerPath c |} in
      match err with
      | Some err =>
          (Some (Go.Errorf ("failed to expand latest_symlink: " +:+ Go.Error err)), c)
      | None =>
          let '(path, err) := expandHomeDir (LedgerPath c) in
          let c := {| DownloadDir := DownloadDir c; FileNamePattern := FileNamePattern c;
                      LatestSymlink := LatestSymlink c; LedgerPath := path |} in
          match err with
          | Some err =>
              (Some (Go.Errorf ("failed to expand ledger_path: " +:+ Go.Error err)), c)
          | None => (None, c)
          end
      end
  end.

End WithEnv.

End config.


(** * The outside world

    The file system and the network are reached through the calls the
    program makes; what they answer is left to the instance. *)

(** ** package os *)

Module os.

(** What the program reads of a FileInfo. *)
Record FileInfo : Type := { Size : Z; IsDir : bool }.

(** What the program reads of a DirEntry. *)
Record DirEntry : Type := { Name : string; EntryIsDir : bool }.

(** The flags of OpenFile that matter to a writer. *)
Record OpenFlags : Type := { O_APPEND : bool; O_CREATE : bool; O_TRUNC : bool }.

(** An open file. *)
Record File : Type := { path : string; flags : OpenFlags }.

Class FileSystem (F : Type) : Type := {
  (** os.Stat follows symbolic links, os.Lstat does not *)
  Stat : string → F → result Go.error FileInfo;
  Lstat : string → F → result Go.error FileInfo;
  Readlink : string → F → result Go.error string;
  (** os.ReadDir: the entries of a directory in its listing order *)
  ReadDir : string → F → result Go.error (list DirEntry);
  (** os.Open and reading the file to its end: the bytes of the file *)
  Open : string → F → result Go.error string;
  Remove : string → F → option Go.error * F;
  Symlink : string → string → F → option Go.error * F;
  MkdirAll : string → F → option Go.error * F;
  OpenFile : string → OpenFlags → F → result Go.error File * F;
  (** file.Write / file.WriteString / io.Copy to the file *)
  Write : File → string → F → option Go.error * F;
  Chmod : string → F → option Go.error * F;
}.

Section Derived.
Context {F : Type} `{!FileSystem F}.

(** os.Create(name) *)
Definition Create (name : string) (f : F) : result Go.error File * F :=
  OpenFile name {| O_APPEND := false; O_CREATE := true; O_TRUNC := true |} f.

(** os.WriteFile(name, data, perm) *)
Definition WriteFile (name data : string) (f : F) : option Go.error * F :=
  let '(r, f) := OpenFile name {| O_APPEND := false; O_CREATE := true; O_TRUNC := true |} f in
  match r with
  | Err err => (Some err, f)
  | Ok file => Write file data f
  end.

End Derived.

End os.

(** ** package net/http *)

Module http.

Definition StatusOK : Z := 200.
Definition StatusMovedPermanently : Z := 301.
Definition StatusFound : Z := 302.

(** Progress of a transfer as the callback receives it (the two
    floating-point fields, percentage and speed, are left out). *)
Record ProgressUpdate : Type := { BytesDownloaded : Z; TotalBytes : Z }.

(** What the program reads of a response to GET: the status, the
    Location header, the content length, the bytes the body delivers,
    the error the body ends with (if any), and the progress reports
    made while the body is copied, which depend on how the transfer is
    chunked and timed. *)
Record Response : Type := {
  StatusCode : Z;
  Location : string;
  ContentLength : Z;
  Body : string;
  BodyErr : option Go.error;
  Progress : list ProgressUpdate;
}.

Class Network (N : Type) : Type := {
  (** client.Head(url) with a client that follows every redirect: the
      final URL, resp.Request.URL.String() *)
  Head : string → N → result Go.error string * N;
  (** http.Get(url) *)
  Get : string → N → result Go.error Response * N;
}.

End http.

(** ** The state of one run *)

(** The requests issued so far. *)
Inductive Request : Type :=
| HEAD (url : string)
| GET (url : string).

Record World (F N : Type) : Type := {
  fs : F;                       (* the file system *)
  net : N;                      (* the remote side *)
  requests : list Request;      (* requests issued, oldest first *)
  clock : nat → Go.Time;        (* what the successive calls of time.Now return *)
  ticks : nat;                  (* calls of time.Now so far *)
  environ : string → string;    (* os.Getenv *)
  stdout : list string;         (* what was printed, oldest first *)
  stderr : list string;
}.
Arguments fs {F N} w.
Arguments net {F N} w.
Arguments requests {F N} w.
Arguments clock {F N} w.
Arguments ticks {F N} w.
Arguments environ {F N} w.
Arguments stdout {F N} w.
Arguments stderr {F N} w.

Section WorldOps.
Context {F N : Type} `{!os.FileSystem F} `{!http.Network N}.

Definition set_fs (w : World F N) (f : F) : World F N :=
  {| fs := f; net := net w; requests := requests w; clock := clock w;
     ticks := ticks w; environ := environ w; stdout := stdout w; stderr := stderr w |}.

(** fmt.Printf / fmt.Println *)
Definition Printf (text : string) (w : World F N) : World F N :=
  {| fs := fs w; net := net w; requests := requests w; clock := clock w;
     ticks := ticks w; environ := environ w; stdout := stdout w ++ [text];
     stderr := stderr w |}.

(** fmt.Fprintf(os.Stderr, ...) *)
Definition Eprintf (text : string) (w : World F N) : World F N :=
  {| fs := fs w; net := net w; requests := requests w; clock := clock w;
     ticks := ticks w; environ := environ w; stdout := stdout w;
     stderr := stderr w ++ [text] |}.

(** time.Now() *)
Definition Now (w : World F N) : Go.Time * World F N :=
  (clock w (ticks w),
   {| fs := fs w; net := net w; requests := requests w; clock := clock w;
      ticks := S (ticks w); environ := environ w; stdout := stdout w;
      stderr := stderr w |}).

(** client.Head(url), following every redirect *)
Definition Head (url : string) (w : World F N) : result Go.error string * World F N :=
  let '(r, n) := http.Head url (net w) in
  (r, {| fs := fs w; net := n; requests := requests w ++ [HEAD url]; clock := clock w;
         ticks := ticks w; environ := environ w; stdout := stdout w;
         stderr := stderr w |}).

(** http.Get(url) *)
Definition Get (url : string) (w : World F N) : result Go.error http.Response * World F N :=
  let '(r, n) := http.Get url (net w) in
  (r, {| fs := fs w; net := n; requests := requests w ++ [GET url]; clock := clock w;
         ticks := ticks w; environ := environ w; stdout := stdout w;
         stderr := stderr w |}).

(** A call that changes the file system only. *)
Definition on_fs {A : Type} (op : F → A * F) (w : World F N) : A * World F N :=
  let '(a, f) := op (fs w) in (a, set_fs w f).

End WorldOps.

(** * package ledger (internal/ledger/ledger.go) *)

Module ledger.

(** Entry represents a single entry in the update ledger. *)
Record Entry : Type := {
  Timestamp : Go.Time;
  Version : string;
  InternalID : string;
  Filename : string;
  SHA256 : string;
  Action : string;
}.

(** Ledger manages the update history file. *)
Record Ledger : Type := { filepath : string }.

(** NewLedger creates a new ledger instance. *)
Definition NewLedger (filepath : string) : Ledger := {| filepath := filepath |}.

Section WithLib.
Context (lib : Go.Lib).

(** The TSV line Append formats for an entry:
    "%s\t%s\t%s\t%s\t%s\t%s\n". *)
Definition formatEntry (entry : Entry) : string :=
  Go.time_Format_RFC3339 lib (Timestamp entry) +:+ Go.tab +:+
  Version entry +:+ Go.tab +:+
  InternalID entry +:+ Go.tab +:+
  Filename entry +:+ Go.tab +:+
  SHA256 entry +:+ Go.tab +:+
  Action entry +:+ Go.nl.

(** parseEntry parses a TSV line into an Entry struct. *)
Definition parseEntry (line : string) : result Go.error Entry :=
  let parts := Go.Split line Go.TAB in
  match parts with
  | [p0; p1; p2; p3; p4; p5] =>
      match Go.time_Parse_RFC3339 lib p0 with
      | Err err => Err (Go.Errorf ("invalid timestamp format: " +:+ Go.Error err))
      | Ok timestamp =>
          Ok {| Timestamp := timestamp; Version := p1; InternalID := p2;
                Filename := p3; SHA256 := p4; Action := p5 |}
      end
  | _ =>
      Err (Go.Errorf ("invalid entry format: expected 6 parts, got " +:+
                      pretty (Z.of_nat (length parts))))
  end.

(** The loop of ReadAll over the lines the scanner delivers. *)
Fixpoint readLines (lines : list string) : list Entry :=
  match lines with
  | [] => []
  | text :: rest =>
      let line := Go.TrimSpace lib text in
      if String.eqb line "" then readLines rest
      else
        match parseEntry line with
        | Err _ => readLines rest          (* skip malformed lines but continue reading *)
        | Ok entry => entry :: readLines rest
        end
  end.

Context {F : Type} `{!os.FileSystem F}.

(** Append adds a new entry to the ledger. *)
Definition Append (l : Ledger) (entry : Entry) (f : F) : option Go.error * F :=
  let dir := Go.filepath_Dir lib (filepath l) in
  let '(err, f) := os.MkdirAll dir f in
  match err with
  | Some err => (Some (Go.Errorf ("failed to create directory: " +:+ Go.Error err)), f)
  | None =>
      let '(r, f) :=
        os.OpenFile (filepath l)
          {| os.O_APPEND := true; os.O_CREATE := true; os.O_TRUNC := false |} f in
      match r with
      | Err err => (Some (Go.Errorf ("failed to open ledger file: " +:+ Go.Error err)), f)
      | Ok file =>
          let line := formatEntry entry in
          let '(err, f) := os.Write file line f in
          match err with
          | Some err =>
              (Some (Go.Errorf ("failed to write to ledger file: " +:+ Go.Error err)), f)
          | None => (None, f)
          end
      end
  end.

(** ReadAll reads all entries from the ledger. *)
Definition ReadAll (l : Ledger) (f : F) : result Go.error (list Entry) :=
  if match os.Stat (filepath l) f with
     | Err err => Go.IsNotExist err
     | Ok _ => false
     end
  then Ok []
  else
    match os.Open (filepath l) f with
    | Err err => Err (Go.Errorf ("failed to open ledger file: " +:+ Go.Error err))
    | Ok content =>
        let '(lines, scanErr) := Go.ScanLines content in
        let entries := readLines lines in
        match scanErr with
        | Some err => Err (Go.Errorf ("error reading ledger file: " +:+ Go.Error err))
        | None => Ok entries
        end
    end.

(** The scan of GetLatestVersion: the running candidate is replaced by
    an entry whose timestamp is after the candidate's. *)
Definition latestOf (first : Entry) (rest : list Entry) : Entry :=
  fold_left
    (λ latest entry,
       if Go.After (Timestamp entry) (Timestamp latest) then entry else latest)
    rest first.

(** GetLatestVersion returns the most recent entry based on timestamp. *)
Definition GetLatestVersion (l : Ledger) (f : F) : result Go.error Entry :=
  match ReadAll l f with
  | Err err => Err err
  | Ok entries =>
      match entries with
      | [] => Err (Go.Errorf "no entries found in ledger")
      | first :: rest => Ok (latestOf first rest)
      end
  end.

(** FindByInternalID finds all entries with the given internal ID. *)
Definition FindByInternalID (l : Ledger) (id : string) (f : F)
  : result Go.error (list Entry) :=
  match ReadAll l f with
  | Err err => Err err
  | Ok entries => Ok (List.filter (λ entry, String.eqb (InternalID entry) id) entries)
  end.

End WithLib.

End ledger.

(** * package updater (internal/updater/updater.go) *)

Module updater.

(** ProgressCallback is a function type for progress updates; the
    callbacks of this program act on the standard output. *)
Definition ProgressCallback : Type := http.ProgressUpdate → list string → list string.

(** Updater manages Cursor downloads and version management. *)
Record Updater : Type := {
  downloadURL : string;
  workDir : string;
  launchLink : string;
  progressCallback : option ProgressCallback;
  config : option config.Config;
}.

(** WorkDir returns the working directory of the updater. *)
Definition WorkDir (u : Updater) : string := workDir u.

(** SetProgressCallback sets the callback function for progress updates. *)
Definition SetProgressCallback (u : Updater) (callback : ProgressCallback) : Updater :=
  {| downloadURL := downloadURL u; workDir := workDir u; launchLink := launchLink u;
     progressCallback := Some callback; config := config u |}.

(** GenerateFileName generates a filename based on config pattern and version. *)
Definition GenerateFileName (u : Updater) (version : string) : string :=
  match config u with
  | Some cfg => config.GenerateFileName cfg version
  | None => "Cursor-" +:+ version +:+ "-x86_64.AppImage"
  end.

Section WithLib.
Context (lib : Go.Lib).

(** NewUpdater creates a new updater instance. *)
Definition NewUpdater (downloadURL workDir : string) (cfg : option config.Config) : Updater :=
  {| downloadURL := downloadURL; workDir := workDir;
     launchLink := Go.filepath_Join lib workDir "Cursor.AppImage";
     progressCallback := None; config := cfg |}.

(** getDownloadPath returns the full path for a download file. *)
Definition getDownloadPath (u : Updater) (filename : string) : string :=
  match config u with
  | Some cfg => Go.filepath_Join lib (config.DownloadDir cfg) filename
  | None => Go.filepath_Join lib (workDir u) filename
  end.

(** getLedgerPath returns the ledger path from config. *)
Definition getLedgerPath (u : Updater) : string :=
  match config u with
  | Some cfg => config.LedgerPath cfg
  | None => Go.filepath_Join lib (workDir u) ".cursor-versions.log"
  end.

(** getLatestSymlinkPath returns the latest symlink path from config. *)
Definition getLatestSymlinkPath (u : Updater) : string :=
  match config u with
  | Some cfg => config.LatestSymlink cfg
  | None => launchLink u
  end.

Context {F N : Type} `{!os.FileSystem F} `{!http.Network N}.

(** ensureDirectories creates necessary directories. *)
Definition ensureDirectories (u : Updater) (f : F) : option Go.error * F :=
  let '(err, f) := os.MkdirAll (workDir u) f in
  match err with
  | Some err => (Some (Go.Errorf ("failed to create work directory: " +:+ Go.Error err)), f)
  | None =>
      match config u with
      | None => (None, f)
      | Some cfg =>
          let '(err, f) := os.MkdirAll (config.DownloadDir cfg) f in
          match err with
          | Some err =>
              (Some (Go.Errorf ("failed to create download directory: " +:+ Go.Error err)), f)
          | None =>
              let symlinkDir := Go.filepath_Dir lib (config.LatestSymlink cfg) in
              let '(err, f) := os.MkdirAll symlinkDir f in
              match err with
              | Some err =>
                  (Some (Go.Errorf ("failed to create symlink directory: " +:+ Go.Error err)), f)
              | None =>
                  let configDir := Go.filepath_Dir lib (config.LedgerPath cfg) in
                  let '(err, f) := os.MkdirAll configDir f in
                  match err with
                  | Some err =>
                      (Some (Go.Errorf ("failed to create config directory: " +:+ Go.Error err)), f)
                  | None => (None, f)
                  end
              end
          end
      end
  end.

(** GetRemoteVersion gets the remote version by following the download
    URL redirect. *)
Definition GetRemoteVersion (u : Updater) (w : World F N)
  : result Go.error string * World F N :=
  let '(r, w) := Head (downloadURL u) w in
  match r with
  | Err err => (Err (Go.Errorf ("failed to check redirect: " +:+ Go.Error err)), w)
  | Ok finalURL =>
      let version := version.SemverFromName (Go.Base finalURL) in
      if String.eqb version ""
      then (Err (Go.Errorf ("could not extract version from URL: " +:+ finalURL)), w)
      else (Ok version, w)
  end.

(** The loop of GetLocalVersion over the entries of the work directory. *)
Fixpoint scanFiles (u : Updater) (f : F) (stat : os.FileInfo) (files : list os.DirEntry)
  : string :=
  match files with
  | [] => ""                               (* could not determine version *)
  | file :: rest =>
      if os.EntryIsDir file then scanFiles u f stat rest
      else
        let filename := os.Name file in
        if match config u with
           | Some cfg =>
               if negb (Go.Contains (config.FileNamePattern cfg) "<version>") then true
               else negb (Go.Contains filename ".")
           | None =>
               negb (Go.HasPrefix filename "Cursor-") ||
               negb (Go.HasSuffix filename "-x86_64.AppImage")
           end
        then scanFiles u f stat rest       (* continue *)
        else
          let versionFilePath := Go.filepath_Join lib (workDir u) filename in
          match os.Stat versionFilePath f with
          | Ok versionStat =>
              if os.Size versionStat =? os.Size stat
              then version.SemverFromName filename
              else scanFiles u f stat rest
          | Err _ => scanFiles u f stat rest
          end
  end.

(** GetLocalVersion gets the current local version from the symlink or
    regular file. *)
Definition GetLocalVersion (u : Updater) (f : F) : result Go.error string :=
  if match os.Stat (launchLink u) f with
     | Err err => Go.IsNotExist err
     | Ok _ => false
     end
  then Ok ""
  else
    match os.Readlink (launchLink u) f with
    | Ok target => Ok (version.SemverFromName (Go.Base target))
    | Err _ =>
        match os.Stat (launchLink u) f with
        | Err err => Err (Go.Errorf ("failed to stat file: " +:+ Go.Error err))
        | Ok stat =>
            match os.ReadDir (workDir u) f with
            | Err err => Err (Go.Errorf ("failed to read work directory: " +:+ Go.Error err))
            | Ok files => Ok (scanFiles u f stat files)
            end
        end
    end.

(** SwitchToVersion switches the symlink to point to a specific version. *)
Definition SwitchToVersion (u : Updater) (version : string) (f : F) : option Go.error * F :=
  let filename := GenerateFileName u version in
  let filePath := getDownloadPath u filename in
  if match os.Stat filePath f with
     | Err err => Go.IsNotExist err
     | Ok _ => false
     end
  then (Some (Go.Errorf ("version file not found: " +:+ filename)), f)
  else
    let symlinkPath := getLatestSymlinkPath u in
    let '(rmErr, f) :=
      match os.Lstat symlinkPath f with
      | Ok _ => os.Remove symlinkPath f
      | Err _ => (None, f)
      end in
    match rmErr with
    | Some err => (Some (Go.Errorf ("failed to remove existing symlink: " +:+ Go.Error err)), f)
    | None =>
        let symlinkDir := Go.filepath_Dir lib symlinkPath in
        let relativePath :=
          match Go.filepath_Rel lib symlinkDir filePath with
          | Ok relativePath => relativePath
          | Err _ => filePath          (* fallback to absolute path *)
          end in
        let '(err, f) := os.Symlink relativePath symlinkPath f in
        match err with
        | Some err => (Some (Go.Errorf ("failed to create symlink: " +:+ Go.Error err)), f)
        | None => (None, f)
        end
    end.

(** CheckForUpdates checks if an update is available. *)
Definition CheckForUpdates (u : Updater) (w : World F N)
  : (bool * string * option Go.error) * World F N :=
  let '(r, w) := GetRemoteVersion u w in
  match r with
  | Err err => ((false, "", Some err), w)
  | Ok remoteVersion =>
      match GetLocalVersion u (fs w) with
      | Err err => ((false, "", Some err), w)
      | Ok localVersion =>
          if String.eqb localVersion "" then ((true, remoteVersion, None), w)
          else
            let needsUpdate := version.LessThan localVersion remoteVersion in
            ((needsUpdate, remoteVersion, None), w)
      end
  end.

(** io.Copy(file, progressReader): the body goes to the file, and the
    callback, when there is one, receives the progress reports. *)
Definition copyBody (u : Updater) (file : os.File) (resp : http.Response) (w : World F N)
  : option Go.error * World F N :=
  let w :=
    match progressCallback u with
    | None => w
    | Some callback =>
        fold_left
          (λ w update,
             {| fs := fs w; net := net w; requests := requests w; clock := clock w;
                ticks := ticks w; environ := environ w;
                stdout := callback update (stdout w); stderr := stderr w |})
          (http.Progress resp) w
    end in
  let '(err, w) := on_fs (os.Write file (http.Body resp)) w in
  match err with
  | Some err => (Some err, w)
  | None => (http.BodyErr resp, w)
  end.

(** DownloadCursor downloads the latest Cursor version and returns the
    filename. *)
Definition DownloadCursor (u : Updater) (w : World F N)
  : result Go.error string * World F N :=
  let '(r, w) := GetRemoteVersion u w in
  match r with
  | Err err => (Err (Go.Errorf ("failed to get remote version: " +:+ Go.Error err)), w)
  | Ok remoteVersion =>
      let filename := GenerateFileName u remoteVersion in
      let filepath := getDownloadPath u filename in
      match os.Stat filepath (fs w) with
      | Ok _ => (Ok filename, w)           (* the file already exists *)
      | Err _ =>
          let '(r, w) := Get (downloadURL u) w in
          match r with
          | Err err => (Err (Go.Errorf ("failed to download: " +:+ Go.Error err)), w)
          | Ok resp =>
              let '(r, w) :=
                if (http.StatusCode resp =? http.StatusFound) ||
                   (http.StatusCode resp =? http.StatusMovedPermanently)
                then
                  let location := http.Location resp in
                  if String.eqb location ""
                  then (Err (Go.Errorf "redirect location not found"), w)
                  else
                    let '(r, w) := Get location w in
                    match r with
                    | Err err =>
                        (Err (Go.Errorf ("failed to download from redirect: " +:+ Go.Error err)), w)
                    | Ok resp => (Ok resp, w)
                    end
                else (Ok resp, w) in
              match r with
              | Err err => (Err err, w)
              | Ok resp =>
                  if negb (http.StatusCode resp =? http.StatusOK)
                  then (Err (Go.Errorf ("download failed with status: " +:+
                                        pretty (http.StatusCode resp))), w)
                  else
                    let '(err, w) := on_fs (ensureDirectories u) w in
                    match err with
                    | Some err =>
                        (Err (Go.Errorf ("failed to ensure directories: " +:+ Go.Error err)), w)
                    | None =>
                        let '(r, w) := on_fs (os.Create filepath) w in
                        match r with
                        | Err err =>
                            (Err (Go.Errorf ("failed to create file: " +:+ Go.Error err)), w)
                        | Ok file =>
                            let '(err, w) := copyBody u file resp w in
                            match err with
                            | Some err =>
                                (Err (Go.Errorf ("failed to write file: " +:+ Go.Error err)), w)
                            | None =>
                                let '(err, w) := on_fs (os.Chmod filepath) w in
                                match err with
                                | Some err =>
                                    (Err (Go.Errorf ("failed to make file executable: " +:+
                                                     Go.Error err)), w)
                                | None => (Ok filename, w)
                                end
                            end
                        end
                    end
              end
          end
      end
  end.

(** CalculateSHA256 calculates the SHA256 hash of a file. *)
Definition CalculateSHA256 (filepath : string) (f : F) : result Go.error string :=
  match os.Open filepath f with
  | Err err => Err (Go.Errorf ("failed to open file: " +:+ Go.Error err))
  | Ok content => Ok (Go.sha256_hex lib content)
  end.

End WithLib.

End updater.

(** * package cli (internal/cli/run.go) *)

Module cli.

Definition defaultDownloadURL : string := "https://www.cursor.com/download/stable/linux-x64".
Definition versionFile : string := ".cursor-version".

Section WithLib.
Context (lib : Go.Lib).

(** The text displayProgress prints for an update with a known total:
    the progress bar, the sizes and the speed, all computed in floating
    point, are not modelled. *)
Context (progressText : http.ProgressUpdate → list string).

(** displayProgress shows a nice progress bar for downloads. *)
Definition displayProgress (update : http.ProgressUpdate) (out : list string) : list string :=
  if http.TotalBytes update <=? 0 then out
  else out ++ progressText update.

Context {F N : Type} `{!os.FileSystem F} `{!http.Network N}.

Definition updateVersionFile (version : string) (cfg : config.Config) (w : World F N)
  : World F N :=
  let workDir := config.DownloadDir cfg in
  let versionFilePath := Go.filepath_Join lib workDir versionFile in
  let content := "VERSION=" +:+ version +:+ Go.nl in
  let '(err, w) := on_fs (os.WriteFile versionFilePath content) w in
  match err with
  | Some err =>
      Eprintf ("Warning: Failed to update version file: " +:+ Go.Error err +:+ Go.nl) w
  | None => w
  end.

Definition executeUpdate (up : updater.Updater) (led : ledger.Ledger) (cfg : config.Config)
    (w : World F N) : option Go.error * World F N :=
  (* Check if update is needed *)
  let '((needsUpdate, remoteVersion, err), w) := updater.CheckForUpdates lib up w in
  match err with
  | Some err => (Some (Go.Errorf ("error checking for updates: " +:+ Go.Error err)), w)
  | None =>
      if negb needsUpdate then
        let localVersion :=
          match updater.GetLocalVersion lib up (fs w) with
          | Ok v => v
          | Err _ => ""
          end in
        let w := Printf ("✅ Already up to date (" +:+ localVersion +:+ ")." +:+ Go.nl) w in
        (None, w)
      else
        (* Check if we're in test mode *)
        let isTestMode := String.eqb (environ w "UPDATECURSOR_TEST_MODE") "true" in
        (* Set up progress tracking *)
        let w := Printf ("Downloading Cursor " +:+ remoteVersion +:+ "..." +:+ Go.nl) w in
        let w :=
          if isTestMode
          then Printf ("🔄 Test mode: Simulating download..." +:+ Go.nl) w
          else w in
        let up := updater.SetProgressCallback up displayProgress in
        (* Download the update *)
        let '(r, w) := updater.DownloadCursor lib up w in
        match r with
        | Err err => (Some (Go.Errorf ("error downloading Cursor: " +:+ Go.Error err)), w)
        | Ok filename =>
            (* Add spacing after download completion *)
            let w := Printf Go.nl w in
            (* Calculate SHA256 *)
            let filePath := Go.filepath_Join lib (updater.WorkDir up) filename in
            match updater.CalculateSHA256 lib filePath (fs w) with
            | Err err => (Some (Go.Errorf ("error calculating SHA256: " +:+ Go.Error err)), w)
            | Ok sha256 =>
                (* Switch to the new version *)
                let '(err, w) := on_fs (updater.SwitchToVersion lib up remoteVersion) w in
                match err with
                | Some err =>
                    (Some (Go.Errorf ("error switching to version: " +:+ Go.Error err)), w)
                | None =>
                    (* Log the update *)
                    let '(now, w) := Now w in
                    let entry :=
                      {| ledger.Timestamp := now; ledger.Version := remoteVersion;
                         ledger.InternalID := ""; ledger.Filename := filename;
                         ledger.SHA256 := sha256; ledger.Action := "update" |} in
                    let '(err, w) := on_fs (ledger.Append lib led entry) w in
                    let w :=
                      match err with
                      | Some err =>
                          Eprintf ("Warning: Failed to log update: " +:+ Go.Error err +:+ Go.nl) w
                      | None => w
                      end in
                    (* Update version file *)
                    let w := updateVersionFile remoteVersion cfg w in
                    let w := Printf ("Updated to version " +:+ remoteVersion +:+ Go.nl) w in
                    (None, w)
                end
            end
        end
  end.

Definition executeForce (up : updater.Updater) (led : ledger.Ledger) (cfg : config.Config)
    (w : World F N) : option Go.error * World F N :=
  (* Get remote version *)
  let '(r, w) := updater.GetRemoteVersion up w in
  match r with
  | Err err => (Some (Go.Errorf ("error getting remote version: " +:+ Go.Error err)), w)
  | Ok remoteVersion =>
      (* Remove existing file if it exists *)
      let filename := updater.GenerateFileName up remoteVersion in
      let filePath := Go.filepath_Join lib (updater.WorkDir up) filename in
      let w :=
        match os.Stat filePath (fs w) with
        | Ok _ =>
            let '(err, w) := on_fs (os.Remove filePath) w in
            match err with
            | Some err =>
                Eprintf ("Warning: Failed to remove existing file: " +:+ Go.Error err +:+ Go.nl) w
            | None => w
            end
        | Err _ => w
        end in
      (* Check if we're in test mode *)
      let isTestMode := String.eqb (environ w "UPDATECURSOR_TEST_MODE") "true" in
      (* Set up progress tracking *)
      let w := Printf ("Force downloading Cursor " +:+ remoteVersion +:+ "..." +:+ Go.nl) w in
      let w :=
        if isTestMode
        then Printf ("🔄 Test mode: Simulating force download..." +:+ Go.nl) w
        else w in
      let up := updater.SetProgressCallback up displayProgress in
      (* Download the update *)
      let '(r, w) := updater.DownloadCursor lib up w in
      match r with
      | Err err => (Some (Go.Errorf ("error downloading Cursor: " +:+ Go.Error err)), w)
      | Ok filename =>
          let w := Printf Go.nl w in
          (* Calculate SHA256 *)
          let filePath := Go.filepath_Join lib (updater.WorkDir up) filename in
          match updater.CalculateSHA256 lib filePath (fs w) with
          | Err err => (Some (Go.Errorf ("error calculating SHA256: " +:+ Go.Error err)), w)
          | Ok sha256 =>
              (* Switch to the new version *)
              let '(err, w) := on_fs (updater.SwitchToVersion lib up remoteVersion) w in
              match err with
              | Some err =>
                  (Some (Go.Errorf ("error switching to version: " +:+ Go.Error err)), w)
              | None =>
                  (* Log the update *)
                  let '(now, w) := Now w in
                  let entry :=
                    {| ledger.Timestamp := now; ledger.Version := remoteVersion;
                       ledger.InternalID := ""; ledger.Filename := filename;
                       ledger.SHA256 := sha256; ledger.Action := "force" |} in
                  let '(err, w) := on_fs (ledger.Append lib led entry) w in
                  let w :=
                    match err with
                    | Some err =>
                        Eprintf ("Warning: Failed to log update: " +:+ Go.Error err +:+ Go.nl) w
                    | None => w
                    end in
                  (* Update version file *)
                  let w := updateVersionFile remoteVersion cfg w in
                  let w := Printf ("Force updated to version " +:+ remoteVersion +:+ Go.nl) w in
                  (None, w)
              end
          end
      end
  end.

Definition executeSwitch (up : updater.Updater) (led : ledger.Ledger) (ver : string)
    (cfg : config.Config) (w : World F N) : option Go.error * World F N :=
  (* Validate version format *)
  if String.eqb (version.SemverFromName ("Cursor-" +:+ ver +:+ "-x86_64.AppImage")) ""
  then (Some (Go.Errorf ("invalid version format: " +:+ ver)), w)
  else
    (* Switch to the specified version *)
    let '(err, w) := on_fs (updater.SwitchToVersion lib up ver) w in
    match err with
    | Some err => (Some (Go.Errorf ("error switching to version: " +:+ Go.Error err)), w)
    | None =>
        (* Log the switch *)
        let '(now, w) := Now w in
        let entry :=
          {| ledger.Timestamp := now; ledger.Version := ver; ledger.InternalID := "";
             ledger.Filename := updater.GenerateFileName up ver; ledger.SHA256 := "";
             ledger.Action := "switch" |} in
        let '(err, w) := on_fs (ledger.Append lib led entry) w in
        let w :=
          match err with
          | Some err => Eprintf ("Warning: Failed to log switch: " +:+ Go.Error err +:+ Go.nl) w
          | None => w
          end in
        (* Update version file *)
        let w := updateVersionFile ver cfg w in
        let w := Printf ("Switched to version " +:+ ver +:+ Go.nl) w in
        (None, w)
    end.

Definition executeCheck (up : updater.Updater) (w : World F N)
  : option Go.error * World F N :=
  match updater.GetLocalVersion lib up (fs w) with
  | Err err => (Some (Go.Errorf ("error getting local version: " +:+ Go.Error err)), w)
  | Ok localVersion =>
      let '(r, w) := updater.GetRemoteVersion up w in
      match r with
      | Err err => (Some (Go.Errorf ("error getting remote version: " +:+ Go.Error err)), w)
      | Ok remoteVersion =>
          let w :=
            if String.eqb localVersion ""
            then Printf ("Local: (unknown)" +:+ Go.nl) w
            else Printf ("Local: " +:+ localVersion +:+ Go.nl) w in
          let w := Printf ("Remote: " +:+ remoteVersion +:+ Go.nl) w in
          (* Check if update is needed and show clear message *)
          if String.eqb localVersion "" || version.LessThan localVersion remoteVersion
          then
            let w :=
              Printf (Go.nl +:+ "🔄 Update needed: Local version is older than remote version"
                      +:+ Go.nl) w in
            (* Return error to indicate update is needed *)
            (Some (Go.Errorf "update needed"), w)
          else
            let w :=
              Printf (Go.nl +:+ "✅ No update needed: You have the latest version" +:+ Go.nl) w in
            (None, w)
      end
  end.

End WithLib.

End cli.

(** * package main (cmd/updatecursor/main.go) *)

Module main.

(** The exit status main gives for what cli.Run returned: 10 for the
    error whose text is "update needed", 1 for any other error, 0 for
    none. *)
Definition exitStatus (err : option Go.error) : Z :=
  match err with
  | Some err => if String.eqb (Go.Error err) "update needed" then 10 else 1
  | None => 0
  end.

End main.

(** * A reference environment

    A small file system, a remote side and an instance of the library
    functions taken as given, to run the program on concrete inputs.
    Paths are clean slash-separated strings. *)

Module Sim.

(** ** Paths *)

Definition Join (dir name : string) : string :=
  if String.eqb dir "" then name
  else if String.eqb dir "/" then "/" +:+ name
  else dir +:+ "/" +:+ name.

(** The path without its last element. *)
Definition Dir (path : string) : string :=
  let elems := Go.Split path "/" in
  match removelast elems with
  | [] => "."
  | [""] => "/"
  | dirs => String.concat "/" dirs
  end.

(** The relative path from [base] to a target below it.  For a target
    elsewhere filepath.Rel answers a path through "..", which this
    reference does not compute: it fails there.  What is proved with it
    is about layouts where the target is below [base]; statements about
    other layouts take the functions of path/filepath as given. *)
Definition Rel (base targ : string) : result Go.error string :=
  match Go.CutPrefix targ (Join base "") with
  | Some rest => Ok rest
  | None => Err (Go.Errorf ("Rel: can't make " +:+ targ +:+ " relative to " +:+ base))
  end.

(** ** Time: RFC 3339 in UTC, at whole seconds, years 0 to 9999 *)

Definition daysFromCivil (y m d : Z) : Z :=
  let y := if m <=? 2 then y - 1 else y in
  let era := y / 400 in
  let yoe := y - era * 400 in
  let doy := (153 * (m + (if 2 <? m then -3 else 9)) + 2) / 5 + d - 1 in
  let doe := yoe * 365 + yoe / 4 - yoe / 100 + doy in
  era * 146097 + doe - 719468.

Definition civilFromDays (z : Z) : Z * Z * Z :=
  let z := z + 719468 in
  let era := z / 146097 in
  let doe := z - era * 146097 in
  let yoe := (doe - doe / 1460 + doe / 36524 - doe / 146096) / 365 in
  let y := yoe + era * 400 in
  let doy := doe - (365 * yoe + yoe / 4 - yoe / 100) in
  let mp := (5 * doy + 2) / 153 in
  let d := doy - (153 * mp + 2) / 5 + 1 in
  let m := if mp <? 10 then mp + 3 else mp - 9 in
  (if m <=? 2 then y + 1 else y, m, d).

Definition pad2 (n : Z) : string :=
  if n <? 10 then "0" +:+ pretty n else pretty n.

Definition pad4 (n : Z) : string :=
  if n <? 10 then "000" +:+ pretty n
  else if n <? 100 then "00" +:+ pretty n
  else if n <? 1000 then "0" +:+ pretty n
  else pretty n.

Definition Format (t : Go.Time) : string :=
  let secs := t / 1000000000 in
  let '(y, m, d) := civilFromDays (secs / 86400) in
  let rem := secs mod 86400 in
  pad4 y +:+ "-" +:+ pad2 m +:+ "-" +:+ pad2 d +:+ "T" +:+
  pad2 (rem / 3600) +:+ ":" +:+ pad2 (rem mod 3600 / 60) +:+ ":" +:+ pad2 (rem mod 60) +:+ "Z".

Definition number (s : string) : option Z :=
  if String.eqb s "" then None else Go.parse_digits 0 s.

Definition daysIn (y m : Z) : Z :=
  if m =? 2 then
    if ((y mod 4 =? 0) && negb (y mod 100 =? 0)) || (y mod 400 =? 0) then 29 else 28
  else if (m =? 4) || (m =? 6) || (m =? 9) || (m =? 11) then 30
  else 31.

(** Accepts the form YYYY-MM-DDTHH:MM:SSZ only. *)
Definition Parse (s : string) : result Go.error Go.Time :=
  let bad := Err (Go.Errorf ("parsing time " +:+ s +:+ ": cannot parse as RFC 3339")) in
  if negb ((String.length s =? 20)%nat) then bad
  else if negb (String.eqb (String.substring 4 1 s) "-" &&
                String.eqb (String.substring 7 1 s) "-" &&
                String.eqb (String.substring 10 1 s) "T" &&
                String.eqb (String.substring 13 1 s) ":" &&
                String.eqb (String.substring 16 1 s) ":" &&
                String.eqb (String.substring 19 1 s) "Z") then bad
  else
    match number (String.substring 0 4 s), number (String.substring 5 2 s),
          number (String.substring 8 2 s), number (String.substring 11 2 s),
          number (String.substring 14 2 s), number (String.substring 17 2 s) with
    | Some y, Some m, Some d, Some hh, Some mm, Some ss =>
        if (1 <=? m) && (m <=? 12) && (1 <=? d) && (d <=? daysIn y m) &&
           (hh <? 24) && (mm <? 60) && (ss <? 60)
        then Ok ((daysFromCivil y m d * 86400 + hh * 3600 + mm * 60 + ss) * 1000000000)
        else bad
    | _, _, _, _, _, _ => bad
    end.

(** ** Trimming: bytes outside ASCII are taken for letters *)

Fixpoint trimLeft (s : string) : string :=
  match s with
  | EmptyString => EmptyString
  | String c s' => if Go.asciiSpace c then trimLeft s' else s
  end.

Fixpoint trimRight (rev_s : list ascii) : string :=
  match rev_s with
  | [] => EmptyString
  | c :: rest => if Go.asciiSpace c then trimRight rest else string_of_list_ascii (rev rev_s)
  end.

(** ** Digests: the SHA-256 of the contents used in the examples *)

Definition digest (content : string) : string :=
  if String.eqb content "mock cursor appimage content"
  then "2b331cf690556f53f6b3c31ccaf83be1839526c81ed101797e7177c8d20c2c01"
  else if String.eqb content "mock content"
  then "05db393b05821f1a536ec7e7a4094abc67c6293b6489db31d70defcfa60f6a8a"
  else "".

Definition lib : Go.Lib := {|
  Go.time_Format_RFC3339 := Format;
  Go.time_Parse_RFC3339 := Parse;
  Go.TrimFunc_IsSpace := λ s, trimRight (rev (list_ascii_of_string (trimLeft s)));
  Go.TrimRightFunc_IsSpace := λ s, trimRight (rev (list_ascii_of_string s));
  Go.filepath_Join := Join;
  Go.filepath_Dir := Dir;
  Go.filepath_Rel := Rel;
  Go.sha256_hex := digest;
|}.

(** ** A file system: a finite map from paths to nodes *)

Inductive Node : Type :=
| File (data : string)
| Link (target : string)
| Folder.

Abbreviation FS := (gmap string Node).

Definition pathError (op path text : string) (notExist : bool) : Go.error :=
  {| Go.Error := op +:+ " " +:+ path +:+ ": " +:+ text; Go.IsNotExist := notExist |}.

Definition ENOENT (op path : string) : Go.error :=
  pathError op path "no such file or directory" true.
Definition EEXIST (op path : string) : Go.error := pathError op path "file exists" false.
Definition ENOTDIR (op path : string) : Go.error := pathError op path "not a directory" false.
Definition EISDIR (op path : string) : Go.error := pathError op path "is a directory" false.
Definition EINVAL (op path : string) : Go.error := pathError op path "invalid argument" false.
Definition ELOOP (op path : string) : Go.error :=
  pathError op path "too many levels of symbolic links" false.
Definition ENOTEMPTY (op path : string) : Go.error :=
  pathError op path "directory not empty" false.
Definition EBADF (op path : string) : Go.error := pathError op path "bad file descriptor" false.

(** Where a link at [link] with target [target] points. *)
Definition pointsTo (link target : string) : string :=
  if Go.HasPrefix target "/" then target else Join (Dir link) target.

(** The node a path leads to, following links. *)
Fixpoint resolve (fuel : nat) (op path : string) (fs : FS) : result Go.error (string * Node) :=
  match fs !! path with
  | None => Err (ENOENT op path)
  | Some (Link target) =>
      match fuel with
      | O => Err (ELOOP op path)
      | S fuel' => resolve fuel' op (pointsTo path target) fs
      end
  | Some node => Ok (path, node)
  end.

Definition maxLinks : nat := 40.

Definition info (node : Node) : os.FileInfo :=
  match node with
  | File data => {| os.Size := Z.of_nat (String.length data); os.IsDir := false |}
  | Link target => {| os.Size := Z.of_nat (String.length target); os.IsDir := false |}
  | Folder => {| os.Size := 4096; os.IsDir := true |}
  end.

Definition Stat (path : string) (fs : FS) : result Go.error os.FileInfo :=
  match resolve maxLinks "stat" path fs with
  | Ok (_, node) => Ok (info node)
  | Err err => Err err
  end.

Definition Lstat (path : string) (fs : FS) : result Go.error os.FileInfo :=
  match fs !! path with
  | Some node => Ok (info node)
  | None => Err (ENOENT "lstat" path)
  end.

Definition Readlink (path : string) (fs : FS) : result Go.error string :=
  match fs !! path with
  | Some (Link target) => Ok target
  | Some _ => Err (EINVAL "readlink" path)
  | None => Err (ENOENT "readlink" path)
  end.

Definition isFolder (path : string) (fs : FS) : bool :=
  match resolve maxLinks "stat" path fs with
  | Ok (_, Folder) => true
  | _ => false
  end.

(** The entries directly below [dir], sorted by name. *)
Definition children (dir : string) (fs : FS) : list os.DirEntry :=
  let below :=
    omap (λ '(path, node),
            if String.eqb (Dir path) dir && negb (String.eqb path dir)
            then Some {| os.Name := Go.Base path;
                         os.EntryIsDir := match node with Folder => true | _ => false end |}
            else None)
         (map_to_list fs) in
  merge_sort (λ a b, String.le (os.Name a) (os.Name b)) below.

Definition ReadDir (dir : string) (fs : FS) : result Go.error (list os.DirEntry) :=
  match resolve maxLinks "open" dir fs with
  | Ok (dir', Folder) => Ok (children dir' fs)
  | Ok _ => Err (ENOTDIR "readdirent" dir)
  | Err err => Err err
  end.

Definition Open (path : string) (fs : FS) : result Go.error string :=
  match resolve maxLinks "open" path fs with
  | Ok (_, File data) => Ok data
  | Ok _ => Err (EISDIR "read" path)
  | Err err => Err err
  end.

Definition Remove (path : string) (fs : FS) : option Go.error * FS :=
  match fs !! path with
  | None => (Some (ENOENT "remove" path), fs)
  | Some Folder =>
      match children path fs with
      | [] => (None, delete path fs)
      | _ => (Some (ENOTEMPTY "remove" path), fs)
      end
  | Some _ => (None, delete path fs)
  end.

Definition Symlink (target link : string) (fs : FS) : option Go.error * FS :=
  match fs !! link with
  | Some _ => (Some (EEXIST "symlink" link), fs)
  | None =>
      if isFolder (Dir link) fs then (None, <[link := Link target]> fs)
      else (Some (ENOENT "symlink" link), fs)
  end.

Fixpoint mkdirAll (fuel : nat) (path : string) (fs : FS) : option Go.error * FS :=
  match resolve maxLinks "stat" path fs with
  | Ok (_, Folder) => (None, fs)
  | Ok _ => (Some (ENOTDIR "mkdir" path), fs)
  | Err err =>
      match fs !! path with
      | Some _ => (Some (EEXIST "mkdir" path), fs)       (* a dangling link *)
      | None =>
          match fuel with
          | O => (Some err, fs)
          | S fuel' =>
              if String.eqb (Dir path) path then (None, <[path := Folder]> fs)
              else
                let '(err, fs) := mkdirAll fuel' (Dir path) fs in
                match err with
                | Some err => (Some err, fs)
                | None => (None, <[path := Folder]> fs)
                end
          end
      end
  end.

Definition MkdirAll (path : string) (fs : FS) : option Go.error * FS :=
  mkdirAll (String.length path) path fs.

Definition OpenFile (path : string) (flags : os.OpenFlags) (fs : FS)
  : result Go.error os.File * FS :=
  match resolve maxLinks "open" path fs with
  | Ok (path', File data) =>
      (Ok {| os.path := path'; os.flags := flags |},
       if os.O_TRUNC flags then <[path' := File ""]> fs else fs)
  | Ok _ => (Err (EISDIR "open" path), fs)
  | Err err =>
      if Go.IsNotExist err && os.O_CREATE flags && isFolder (Dir path) fs
      then
        match fs !! path with
        | None => (Ok {| os.path := path; os.flags := flags |}, <[path := File ""]> fs)
        | Some _ => (Err err, fs)
        end
      else (Err err, fs)
  end.

(** One write through a fresh handle: at the end of the file when it
    was opened for appending, from its first byte otherwise. *)
Definition Write (file : os.File) (data : string) (fs : FS) : option Go.error * FS :=
  match fs !! os.path file with
  | Some (File old) =>
      let new :=
        if os.O_APPEND (os.flags file) then old +:+ data
        else data +:+ String.substring (String.length data)
                        (String.length old - String.length data) old in
      (None, <[os.path file := File new]> fs)
  | _ => (Some (EBADF "write" (os.path file)), fs)
  end.

(** Permissions are not part of a node: Chmod changes nothing, and
    fails only when the path does not lead to a node.  A failure of
    chmod on a file that is there (a file of another owner, a read-only
    file system) is not among the runs of this reference. *)
Definition Chmod (path : string) (fs : FS) : option Go.error * FS :=
  match resolve maxLinks "chmod" path fs with
  | Ok _ => (None, fs)
  | Err err => (Some err, fs)
  end.

#[global] Instance fileSystem : os.FileSystem FS := {|
  os.Stat := Stat;
  os.Lstat := Lstat;
  os.Readlink := Readlink;
  os.ReadDir := ReadDir;
  os.Open := Open;
  os.Remove := Remove;
  os.Symlink := Symlink;
  os.MkdirAll := MkdirAll;
  os.OpenFile := OpenFile;
  os.Write := Write;
  os.Chmod := Chmod;
|}.

(** ** A remote side: what each URL answers *)

Record Net : Type := {
  finalURL : gmap string string;        (* where HEAD ends after all redirects *)
  pages : gmap string http.Response;    (* what GET answers *)
}.

Definition unreachable (method url : string) : Go.error :=
  Go.Errorf (method +:+ " " +:+ url +:+ ": dial tcp: no such host").

#[global] Instance network : http.Network Net := {|
  http.Head := λ url n,
    (match finalURL n !! url with
     | Some final => Ok final
     | None => Err (unreachable "Head" url)
     end, n);
  http.Get := λ url n,
    (match pages n !! url with
     | Some resp => Ok resp
     | None => Err (unreachable "Get" url)
     end, n);
|}.

(** A world at its start: nothing requested, nothing printed. *)
Definition start (fs : FS) (remote : Net) (time : nat → Go.Time) : World FS Net := {|
  fs := fs; net := remote; requests := []; clock := time; ticks := 0%nat;
  environ := λ _, ""; stdout := []; stderr := [];
|}.

End Sim.
(** * Vocabulary of the statements *)

(** The byte [c] occurs in [s]. *)
Fixpoint has_byte (c : ascii) (s : string) : bool :=
  match s with
  | EmptyString => false
  | String a s' => Ascii.eqb a c || has_byte c s'
  end.

Fixpoint all_digits (s : string) : bool :=
  match s with
  | EmptyString => true
  | String c s' => Go.is_digit c && all_digits s'
  end.

(** A non-empty run of decimal digits. *)
Definition Digits (s : string) : Prop := s ≠ "" ∧ all_digits s = true.

(** The number a run of decimal digits denotes. *)
Definition decimal_value (s : string) : Z :=
  fold_left (λ acc c, acc * 10 + Go.digit_value c) (list_ascii_of_string s) 0.

Definition in_int_range (v : Z) : Prop := Go.minInt ≤ v ≤ Go.maxInt.

(** The literals strconv.Atoi accepts, with their values: decimal
    digits, optionally preceded by one sign, within the range of [int]. *)
Inductive IntLiteral : string → Z → Prop :=
| lit_unsigned ds :
    Digits ds → in_int_range (decimal_value ds) →
    IntLiteral ds (decimal_value ds)
| lit_plus ds :
    Digits ds → in_int_range (decimal_value ds) →
    IntLiteral ("+" +:+ ds) (decimal_value ds)
| lit_minus ds :
    Digits ds → in_int_range (- decimal_value ds) →
    IntLiteral ("-" +:+ ds) (- decimal_value ds).

(** One or more runs of decimal digits separated by single dots:
    1, 1.4, 1.4.5, 1.2.3.4, ... *)
Definition DottedDigits (v : string) : Prop :=
  ∃ parts : list string,
    parts ≠ [] ∧ Forall Digits parts ∧ v = String.concat "." parts.

(** Each part preceded by a dot. *)
Fixpoint dotted (parts : list string) : string :=
  match parts with
  | [] => ""
  | p :: ps => String "." (p +:+ dotted ps)
  end.

(** Lexicographic order on (major, minor, patch). *)
Definition triple_lt (a b : Z * Z * Z) : Prop :=
  let '(a1, a2, a3) := a in
  let '(b1, b2, b3) := b in
  a1 < b1 ∨ (a1 = b1 ∧ (a2 < b2 ∨ (a2 = b2 ∧ a3 < b3))).

(** ** The specification's reading of version extraction

    [spec_extractFromArtifactName name pattern] follows the words of the
    specification: the text of [name] at the position of the
    placeholder when the literal text around the placeholder in
    [pattern] matches, the empty string (NotFound) otherwise. *)

(** The text before and after the first occurrence of [sep] in [s]
    (strings.Cut). *)
Fixpoint cut (s sep : string) : option (string * string) :=
  match Go.CutPrefix s sep with
  | Some rest => Some (EmptyString, rest)
  | None =>
      match s with
      | EmptyString => None
      | String c s' =>
          match cut s' sep with
          | Some (before, after) => Some (String c before, after)
          | None => None
          end
      end
  end.

Definition spec_extractFromArtifactName (name pattern : string) : string :=
  match cut pattern "<version>" with
  | None => ""
  | Some (before, after) =>
      match Go.CutPrefix name before with
      | None => ""
      | Some rest =>
          match Go.CutSuffix rest after with
          | None => ""
          | Some v => v
          end
      end
  end.

(** The specification's valid version strings: exactly three
    dot-separated components, each a run of decimal digits without a
    sign. *)
Definition spec_validVersion (s : string) : bool :=
  match Go.Split s "." with
  | [a; b; c] =>
      negb (String.eqb a "") && all_digits a &&
      negb (String.eqb b "") && all_digits b &&
      negb (String.eqb c "") && all_digits c
  | _ => false
  end.

(** The versions the code can order, with their numbers: three
    literals of strconv.Atoi joined by dots. *)
Definition AtoiTriple (s : string) (t : Z * Z * Z) : Prop :=
  ∃ a b c : string,
    s = a +:+ "." +:+ b +:+ "." +:+ c ∧
    IntLiteral a t.1.1 ∧ IntLiteral b t.1.2 ∧ IntLiteral c t.2.

(** The specification's Version Model: a valid version string denotes
    the triple of the numbers of its components, whatever their size,
    and versions compare lexicographically on (major, minor, patch). *)
Definition spec_version (s : string) : option (Z * Z * Z) :=
  if spec_validVersion s then
    match Go.Split s "." with
    | [a; b; c] => Some (decimal_value a, decimal_value b, decimal_value c)
    | _ => None
    end
  else None.

Definition spec_isOlderThan (a b : string) : bool :=
  match spec_version a, spec_version b with
  | Some (a1, a2, a3), Some (b1, b2, b3) =>
      (a1 <? b1) || ((a1 =? b1) && ((a2 <? b2) || ((a2 =? b2) && (a3 <? b3))))
  | _, _ => false
  end.

(** needsUpdate(local, remote): true when local is unknown or strictly
    less than remote per the Version Model's ordering. *)
Definition spec_needsUpdate (local remote : string) : bool :=
  String.eqb local "" || spec_isOlderThan local remote.

(** The three numbers are within the range of [int]. *)
Definition within_int (t : Z * Z * Z) : Prop :=
  t.1.1 ≤ Go.maxInt ∧ t.1.2 ≤ Go.maxInt ∧ t.2 ≤ Go.maxInt.

(** The custom user setup of the configuration guide (CONFIG.md), also
    used by the updater's configuration tests. *)
Definition customConfig : config.Config := {|
  config.DownloadDir := "~/Applications/Cursor";
  config.FileNamePattern := "Cursor_<version>.AppImage";
  config.LatestSymlink := "~/.local/bin/Cursor.AppImage";
  config.LedgerPath := "~/.config/updateCursor/cursor-versions.log";
|}.

(** ** Local-version resolution *)

Section Candidates.
Context (lib : Go.Lib) {F : Type} `{!os.FileSystem F}.






End Candidates.

(** ** Ledger lines *)

Section LedgerLines.
Context (lib : Go.Lib).

(** What ReadAll makes of one line of the file: the line is trimmed of
    surrounding white space and gives an entry when it then has exactly
    six tab-separated fields, the first of which parses as a time. *)
Definition entryOfLine (text : string) : option ledger.Entry :=
  match Go.Split (Go.TrimSpace lib text) Go.TAB with
  | [p0; p1; p2; p3; p4; p5] =>
      match Go.time_Parse_RFC3339 lib p0 with
      | Ok timestamp =>
          Some {| ledger.Timestamp := timestamp; ledger.Version := p1;
                  ledger.InternalID := p2; ledger.Filename := p3;
                  ledger.SHA256 := p4; ledger.Action := p5 |}
      | Err _ => None
      end
  | _ => None
  end.

(** The specification's well-formed lines: the line itself has exactly
    six tab-separated fields and its first field parses as a time. *)
Definition spec_wellFormedLine (line : string) : bool :=
  match Go.Split line Go.TAB with
  | [p0; _; _; _; _; _] =>
      match Go.time_Parse_RFC3339 lib p0 with
      | Ok _ => true
      | Err _ => false
      end
  | _ => false
  end.

(** No line reaches the size of the scanner's buffer. *)
Definition linesFit (content : string) : bool :=
  forallb (λ line, Z.of_nat (String.length line) <? Go.MaxScanTokenSize)
          (Go.rawLines content).

End LedgerLines.

(** ** Entries that survive the round trip through the file *)

Section RoundTrip.
Context (lib : Go.Lib).

(** A field without tab and without line feed. *)
Definition plainField (s : string) : bool :=
  negb (has_byte Go.TAB s) && negb (has_byte Go.LF s).

(** An ASCII byte that is not white space. *)
Definition solidByte (c : ascii) : bool := negb (Go.notASCII c) && negb (Go.asciiSpace c).

Definition startsSolid (s : string) : bool :=
  match s with
  | EmptyString => false
  | String c _ => solidByte c
  end.

Fixpoint endsSolid (s : string) : bool :=
  match s with
  | EmptyString => false
  | String c rest =>
      match rest with
      | EmptyString => solidByte c
      | _ => endsSolid rest
      end
  end.

(** The line of an entry without its line feed. *)
Definition entryLine (e : ledger.Entry) : string :=
  Go.time_Format_RFC3339 lib (ledger.Timestamp e) +:+ Go.tab +:+
  ledger.Version e +:+ Go.tab +:+
  ledger.InternalID e +:+ Go.tab +:+
  ledger.Filename e +:+ Go.tab +:+
  ledger.SHA256 e +:+ Go.tab +:+
  ledger.Action e.

(** The entry can be read back from its line: the timestamp as
    formatted and the five texts hold no tab and no line feed; the line
    starts and ends with an ASCII byte that is not white space (so the
    timestamp as formatted and the action are not empty); the timestamp
    as formatted parses back to the timestamp (it is at a whole second);
    and the line fits the scanner's buffer. *)
Definition survives (e : ledger.Entry) : bool :=
  plainField (Go.time_Format_RFC3339 lib (ledger.Timestamp e)) &&
  plainField (ledger.Version e) && plainField (ledger.InternalID e) &&
  plainField (ledger.Filename e) && plainField (ledger.SHA256 e) &&
  plainField (ledger.Action e) &&
  startsSolid (Go.time_Format_RFC3339 lib (ledger.Timestamp e)) &&
  endsSolid (ledger.Action e) &&
  match Go.time_Parse_RFC3339 lib (Go.time_Format_RFC3339 lib (ledger.Timestamp e)) with
  | Ok t => t =? ledger.Timestamp e
  | Err _ => false
  end &&
  (Z.of_nat (String.length (entryLine e)) <? Go.MaxScanTokenSize).

(** The line of the entry can be read: as [survives], but the timestamp
    as formatted need only parse; the timestamp itself may lie between
    two seconds, as the readings of the clock do. *)
Definition readable (e : ledger.Entry) : bool :=
  plainField (Go.time_Format_RFC3339 lib (ledger.Timestamp e)) &&
  plainField (ledger.Version e) && plainField (ledger.InternalID e) &&
  plainField (ledger.Filename e) && plainField (ledger.SHA256 e) &&
  plainField (ledger.Action e) &&
  startsSolid (Go.time_Format_RFC3339 lib (ledger.Timestamp e)) &&
  endsSolid (ledger.Action e) &&
  match Go.time_Parse_RFC3339 lib (Go.time_Format_RFC3339 lib (ledger.Timestamp e)) with
  | Ok _ => true
  | Err _ => false
  end &&
  (Z.of_nat (String.length (entryLine e)) <? Go.MaxScanTokenSize).

(** [r] is [e] as it is read back: the five texts of [e], and the
    instant that the RFC 3339 text of [e]'s timestamp denotes. *)
Definition readsBackAs (e r : ledger.Entry) : Prop :=
  Go.time_Parse_RFC3339 lib (Go.time_Format_RFC3339 lib (ledger.Timestamp e)) =
    Ok (ledger.Timestamp r) ∧
  ledger.Version r = ledger.Version e ∧
  ledger.InternalID r = ledger.InternalID e ∧
  ledger.Filename r = ledger.Filename e ∧
  ledger.SHA256 r = ledger.SHA256 e ∧
  ledger.Action r = ledger.Action e.

Context {F : Type} `{!os.FileSystem F}.

(** Appending the entries one by one, up to the first failure. *)
Fixpoint appendAll (l : ledger.Ledger) (entries : list ledger.Entry) (f : F)
  : option Go.error * F :=
  match entries with
  | [] => (None, f)
  | entry :: rest =>
      let '(err, f) := ledger.Append lib l entry f in
      match err with
      | Some err => (Some err, f)
      | None => appendAll l rest f
      end
  end.

End RoundTrip.

(** In the reference file system: [fs'] has the nodes of [fs] and
    possibly more directories. *)
Definition grows (fs fs' : gmap string Sim.Node) : Prop :=
  ∀ p, fs' !! p = fs !! p ∨ (fs !! p = None ∧ fs' !! p = Some Sim.Folder).

(** ** Vocabulary of the further properties *)

(** The number of replacements [Go.replace_all] makes. *)
Fixpoint occurrences (fuel : nat) (s old : string) : nat :=
  match fuel with
  | O => O
  | S fuel' =>
      match Go.CutPrefix s old with
      | Some rest => S (occurrences fuel' rest old)
      | None =>
          match s with
          | EmptyString => O
          | String _ s' => occurrences fuel' s' old
          end
      end
  end.

(** The path starts with a tilde. *)
Definition startsWithTilde (path : string) : bool :=
  match path with
  | String c _ => Ascii.eqb c "~"
  | EmptyString => false
  end.

(** The path with a leading tilde replaced by [home]. *)
Definition expanded (lib : Go.Lib) (home path : string) : string :=
  match path with
  | String c rest => if Ascii.eqb c "~" then Go.filepath_Join lib home rest else path
  | EmptyString => path
  end.

(** The answer is not that the path is missing. *)
Definition found {A : Type} (r : result Go.error A) : bool :=
  match r with
  | Ok _ => true
  | Err err => negb (Go.IsNotExist err)
  end.

(** The layout of the program's defaults in the reference file system:
    without a configuration, or with one whose download directory is the
    work directory [d], whose current reference is Cursor.AppImage in
    it and whose file-name pattern is the default one. *)
Definition standardLayout (d : string) (cfg : option config.Config) : Prop :=
  match cfg with
  | None => True
  | Some cfg =>
      config.DownloadDir cfg = d ∧
      config.LatestSymlink cfg = Sim.Join d "Cursor.AppImage" ∧
      config.FileNamePattern cfg = "Cursor-<version>-x86_64.AppImage"
  end.

(** In the reference file system: [fs'] has every node of [fs], links
    with their targets, files possibly with other content. *)
Definition keeps (fs fs' : gmap string Sim.Node) : Prop :=
  ∀ p,
    match fs !! p with
    | Some (Sim.Link target) => fs' !! p = Some (Sim.Link target)
    | Some (Sim.File _) => ∃ data, fs' !! p = Some (Sim.File data)
    | Some Sim.Folder => fs' !! p = Some Sim.Folder
    | None => True
    end.

(** * Scenarios in the reference environment *)

Module Scenario.

(** The default configuration with its paths expanded. *)
Definition cfg : config.Config := {|
  config.DownloadDir := "/d";
  config.FileNamePattern := "Cursor-<version>-x86_64.AppImage";
  config.LatestSymlink := "/d/Cursor.AppImage";
  config.LedgerPath := "/cfg/cursor-versions.log";
|}.

Definition up : updater.Updater :=
  updater.NewUpdater Sim.lib cli.defaultDownloadURL "/d" (Some cfg).

Definition led : ledger.Ledger := ledger.NewLedger (config.LedgerPath cfg).

(** The remote side serves version [v]. *)
Definition serves (v : string) : Sim.Net := {|
  Sim.finalURL :=
    {[ cli.defaultDownloadURL :=
         "https://downloads.cursor.com/production/linux/x64/Cursor-" +:+ v +:+
         "-x86_64.AppImage" ]};
  Sim.pages :=
    {[ cli.defaultDownloadURL :=
         {| http.StatusCode := 200; http.Location := ""; http.ContentLength := 28;
            http.Body := "mock cursor appimage content"; http.BodyErr := None;
            http.Progress := [ {| http.BytesDownloaded := 28; http.TotalBytes := 28 |} ] |} ]};
|}.

(** 2024-01-01T12:00:00Z, then one second per reading (up to five). *)
Definition after (seconds : Z) : Go.Time := (1704110400 + seconds) * 1000000000.
Definition time (n : nat) : Go.Time :=
  nth n [after 0; after 1; after 2; after 3] (after 4).

(** Version 1.0.0 is installed and linked. *)
Definition installed : gmap string Sim.Node :=
  list_to_map
    [ ("/", Sim.Folder); ("/d", Sim.Folder); ("/cfg", Sim.Folder);
      ("/d/Cursor-1.0.0-x86_64.AppImage", Sim.File "mock content");
      ("/d/Cursor.AppImage", Sim.Link "Cursor-1.0.0-x86_64.AppImage") ].

(** Nothing is installed yet. *)
Definition fresh : gmap string Sim.Node :=
  list_to_map [ ("/", Sim.Folder); ("/d", Sim.Folder); ("/cfg", Sim.Folder) ].



(** Nothing is installed, and where the ledger should be there is a
    directory, so that no entry can be appended. *)
Definition ledgerBlocked : gmap string Sim.Node :=
  list_to_map
    [ ("/", Sim.Folder); ("/d", Sim.Folder); ("/cfg", Sim.Folder);
      ("/cfg/cursor-versions.log", Sim.Folder) ].

(** An artifact named for the two-component version 1.4. *)
Definition twoComponents : gmap string Sim.Node :=
  list_to_map
    [ ("/", Sim.Folder); ("/d", Sim.Folder); ("/cfg", Sim.Folder);
      ("/d/Cursor-1.4-x86_64.AppImage", Sim.File "mock content") ].

(** A ledger file with the given content. *)
Definition ledgerWith (content : string) : gmap string Sim.Node :=
  list_to_map
    [ ("/", Sim.Folder); ("/cfg", Sim.Folder);
      ("/cfg/cursor-versions.log", Sim.File content) ].

(** Six fields joined by tabs. *)
Definition tsv (p0 p1 p2 p3 p4 p5 : string) : string :=
  p0 +:+ Go.tab +:+ p1 +:+ Go.tab +:+ p2 +:+ Go.tab +:+ p3 +:+ Go.tab +:+ p4 +:+
  Go.tab +:+ p5.

Definition entry1 : ledger.Entry := {|
  ledger.Timestamp := after 0; ledger.Version := "1.0.0"; ledger.InternalID := "12345";
  ledger.Filename := "Cursor-1.0.0-x86_64.AppImage"; ledger.SHA256 := "abc123def456";
  ledger.Action := "download" |}.

Definition entry2 : ledger.Entry := {|
  ledger.Timestamp := after 86400; ledger.Version := "1.1.0"; ledger.InternalID := "67890";
  ledger.Filename := "Cursor-1.1.0-x86_64.AppImage"; ledger.SHA256 := "def456ghi789";
  ledger.Action := "download" |}.

(** Logged in the same second as [entry2]. *)
Definition entry3 : ledger.Entry := {|
  ledger.Timestamp := after 86400; ledger.Version := "1.0.0"; ledger.InternalID := "";
  ledger.Filename := "Cursor-1.0.0-x86_64.AppImage"; ledger.SHA256 := "";
  ledger.Action := "switch" |}.

(** [entry1] logged half a second later. *)
Definition entryHalfSecond : ledger.Entry := {|
  ledger.Timestamp := after 0 + 500000000; ledger.Version := "1.0.0";
  ledger.InternalID := "12345"; ledger.Filename := "Cursor-1.0.0-x86_64.AppImage";
  ledger.SHA256 := "abc123def456"; ledger.Action := "download" |}.

(** An update logged with a correlation id that holds a tab. *)
Definition entryTabbedId : ledger.Entry := {|
  ledger.Timestamp := after 0; ledger.Version := "1.0.0";
  ledger.InternalID := "12" +:+ Go.tab +:+ "345";
  ledger.Filename := "Cursor-1.0.0-x86_64.AppImage"; ledger.SHA256 := "abc123def456";
  ledger.Action := "update" |}.

(** The ledger after [entry1], [entry2] and [entry3] were appended. *)
Definition threeEntries : string :=
  ledger.formatEntry Sim.lib entry1 +:+ ledger.formatEntry Sim.lib entry2 +:+
  ledger.formatEntry Sim.lib entry3.

(** A good line, a line of five fields, a line of seven fields, a line
    whose time does not parse, and a good line. *)
Definition corrupted : string :=
  tsv "2024-01-01T12:00:00Z" "1.0.0" "12345" "Cursor-1.0.0-x86_64.AppImage"
      "abc123def456" "download" +:+ Go.nl +:+
  "2024-01-01T12:00:00Z" +:+ Go.tab +:+ "1.0.0" +:+ Go.tab +:+ "12345" +:+ Go.tab +:+
  "abc" +:+ Go.tab +:+ "download" +:+ Go.nl +:+
  tsv "2024-01-01T12:00:00Z" "1.0.0" "12345" "Cursor-1.0.0-x86_64.AppImage"
      "abc123def456" "download" +:+ Go.tab +:+ "extra" +:+ Go.nl +:+
  tsv "yesterday" "1.0.0" "12345" "Cursor-1.0.0-x86_64.AppImage"
      "abc123def456" "download" +:+ Go.nl +:+
  tsv "2024-01-02T12:00:00Z" "1.1.0" "67890" "Cursor-1.1.0-x86_64.AppImage"
      "def456ghi789" "download" +:+ Go.nl.

(** A line of seven fields, the last one empty, and a line of six
    fields, the last one empty. *)
Definition trailingTabs : string :=
  tsv "2024-01-01T12:00:00Z" "1.0.0" "12345" "Cursor-1.0.0-x86_64.AppImage"
      "abc123def456" "download" +:+ Go.tab +:+ Go.nl +:+
  tsv "2024-01-02T12:00:00Z" "1.1.0" "67890" "Cursor-1.1.0-x86_64.AppImage"
      "def456ghi789" "" +:+ Go.nl.

Definition noProgressText (update : http.ProgressUpdate) : list string := [].

End Scenario.

(** ** A transfer that breaks off *)

Module Incident.

(** The remote side announces version [v]; the transfer of the artifact
    breaks off after eight of its twenty-eight bytes. *)
Definition breaksOff (v : string) : Sim.Net := {|
  Sim.finalURL :=
    {[ cli.defaultDownloadURL :=
         "https://downloads.cursor.com/production/linux/x64/Cursor-" +:+ v +:+
         "-x86_64.AppImage" ]};
  Sim.pages :=
    {[ cli.defaultDownloadURL :=
         {| http.StatusCode := 200; http.Location := ""; http.ContentLength := 28;
            http.Body := "mock cur"; http.BodyErr := Some (Go.Errorf "unexpected EOF");
            http.Progress := [] |} ]};
|}.

End Incident.

(** * Properties *)

(** ** Strings *)

Lemma sapp_nil_r (s : string) : s +:+ "" = s.
Proof. induction s as [|c s IH]; simpl; [done | by rewrite IH]. Qed.

Lemma sapp_assoc (a b c : string) : (a +:+ b) +:+ c = a +:+ b +:+ c.
Proof. induction a as [|x a IH]; simpl; [done | by rewrite IH]. Qed.

Lemma sapp_length (a b : string) :
  String.length (a +:+ b) = (String.length a + String.length b)%nat.
Proof. induction a as [|x a IH]; simpl; [done | by rewrite IH]. Qed.

Lemma sapp_eq_nil (a b : string) : a +:+ b = "" → a = "" ∧ b = "".
Proof. destruct a; simpl; [done | discriminate]. Qed.

Lemma sapp_cancel_r (a b c : string) : a +:+ c = b +:+ c → a = b.
Proof.
  revert b. induction a as [|x a IH]; intros [|y b] H; simpl in *.
  - done.
  - apply (f_equal String.length) in H. simpl in H. rewrite sapp_length in H. lia.
  - apply (f_equal String.length) in H. simpl in H. rewrite sapp_length in H. lia.
  - injection H as -> H. f_equal. by apply IH.
Qed.

Lemma CutPrefix_spec (s p r : string) : Go.CutPrefix s p = Some r ↔ s = p +:+ r.
Proof.
  revert s. induction p as [|c p IH]; intros s; simpl.
  - split; [by intros [= ->] | by intros ->].
  - destruct s as [|x s]; [split; discriminate |].
    destruct (Ascii.eqb_spec x c) as [->|Hne].
    + rewrite IH. split; [by intros -> | by intros [= ->]].
    + split; [discriminate | intros [= ? _]; done].
Qed.

Lemma CutPrefix_app (p r : string) : Go.CutPrefix (p +:+ r) p = Some r.
Proof. by apply CutPrefix_spec. Qed.

Lemma CutSuffix_unfold (s suf : string) :
  Go.CutSuffix s suf =
  if String.eqb s suf then Some EmptyString
  else match s with
       | EmptyString => None
       | String c s' =>
           match Go.CutSuffix s' suf with
           | Some r => Some (String c r)
           | None => None
           end
       end.
Proof. by destruct s. Qed.

Lemma CutSuffix_spec (s suf r : string) : Go.CutSuffix s suf = Some r ↔ s = r +:+ suf.
Proof.
  revert r. induction s as [|c s IH]; intros r; rewrite CutSuffix_unfold.
  - destruct (String.eqb_spec "" suf) as [<-|Hne].
    + split; intros H.
      * injection H as <-. done.
      * symmetry in H. apply sapp_eq_nil in H as [-> _]. done.
    + split; [discriminate |]. intros H. symmetry in H.
      apply sapp_eq_nil in H as [_ ->]. done.
  - destruct (String.eqb_spec (String c s) suf) as [<-|Hne].
    + split; intros H.
      * injection H as <-. done.
      * f_equal. destruct r as [|x r]; [done |]. exfalso.
        apply (f_equal String.length) in H. simpl in H.
        rewrite sapp_length in H. simpl in H. lia.
    + destruct (Go.CutSuffix s suf) as [r'|] eqn:E.
      * pose proof (proj1 (IH r') eq_refl) as ->. split; intros H.
        -- injection H as <-. done.
        -- destruct r as [|x r]; simpl in H; [by destruct Hne |].
           injection H as <- H. apply sapp_cancel_r in H. by subst.
      * split; [discriminate |]. destruct r as [|x r]; simpl; intros H.
        -- by destruct Hne.
        -- injection H as <- H. apply IH in H. discriminate.
Qed.

Lemma has_byte_app c (a b : string) :
  has_byte c (a +:+ b) = has_byte c a || has_byte c b.
Proof.
  induction a as [|x a IH]; simpl; [done |]. rewrite IH. by rewrite orb_assoc.
Qed.

(** [Split] cuts at the first separator. *)
Lemma Split_app (a rest : string) (sep : ascii) :
  has_byte sep a = false →
  Go.Split (a +:+ String sep rest) sep = a :: Go.Split rest sep.
Proof.
  induction a as [|x a IH]; simpl; intros H.
  - by rewrite Ascii.eqb_refl.
  - apply orb_false_iff in H as [Hx Ha]. rewrite Hx, (IH Ha). done.
Qed.

Lemma Split_no_sep (a : string) (sep : ascii) :
  has_byte sep a = false → Go.Split a sep = [a].
Proof.
  induction a as [|x a IH]; simpl; intros H; [done |].
  apply orb_false_iff in H as [Hx Ha]. by rewrite Hx, (IH Ha).
Qed.

Lemma Split_nonempty (s : string) (sep : ascii) : Go.Split s sep ≠ [].
Proof.
  induction s as [|c s IH]; simpl; [done |].
  destruct (Ascii.eqb c sep); [done |]. by destruct (Go.Split s sep).
Qed.

(** The pieces hold no separator, and joining them gives the string back. *)
Lemma Split_inv (s : string) (sep : ascii) :
  Forall (λ p, has_byte sep p = false) (Go.Split s sep) ∧
  String.concat (String sep "") (Go.Split s sep) = s.
Proof.
  induction s as [|c s IH]; simpl.
  - split; [by constructor | done].
  - destruct IH as [IH1 IH2].
    pose proof (Split_nonempty s sep) as Hne.
    destruct (Go.Split s sep) as [|p ps]; [done |].
    destruct (Ascii.eqb c sep) eqn:Ec.
    + apply Ascii.eqb_eq in Ec as ->. split; [by constructor |].
      simpl in *. by rewrite IH2.
    + inversion IH1; subst. split.
      * constructor; [simpl; by rewrite Ec | done].
      * by destruct ps.
Qed.

(** ** strconv.Atoi *)

Lemma parse_digits_spec (s : string) (acc : Z) :
  Go.parse_digits acc s =
  if all_digits s
  then Some (fold_left (λ a c, a * 10 + Go.digit_value c) (list_ascii_of_string s) acc)
  else None.
Proof.
  revert acc. induction s as [|c s IH]; intros acc; simpl; [done |].
  destruct (Go.is_digit c); simpl; [apply IH | done].
Qed.

Lemma is_digit_not_sign (c : ascii) :
  Go.is_digit c = true → Ascii.eqb c "-" = false ∧ Ascii.eqb c "+" = false ∧ Ascii.eqb c "." = false.
Proof.
  intros H. repeat split; apply Ascii.eqb_neq; intros ->; vm_compute in H; discriminate H.
Qed.

Lemma all_digits_no_dot (s : string) : all_digits s = true → has_byte "." s = false.
Proof.
  induction s as [|c s IH]; simpl; [done |]. intros [Hc Hs]%andb_true_iff.
  destruct (is_digit_not_sign c Hc) as (_ & _ & ->). by apply IH.
Qed.

Lemma Atoi_spec (s : string) (v : Z) : Go.Atoi s = Ok v ↔ IntLiteral s v.
Proof.
  assert (Hrange : ∀ n : Z, (Go.minInt <=? n) && (n <=? Go.maxInt) = true ↔ in_int_range n).
  { intros n. unfold in_int_range. rewrite andb_true_iff. lia. }
  split.
  - destruct s as [|c rest]; [discriminate |]. unfold Go.Atoi.
    destruct (Ascii.eqb_spec c "-") as [->|Hm]; cbn [orb].
    + destruct rest as [|d rest]; [discriminate |].
      rewrite parse_digits_spec. destruct (all_digits (String d rest)) eqn:Hd; [|discriminate].
      destruct (_ && _) eqn:Hr; [|discriminate]. intros [= <-].
      apply Hrange in Hr. by apply (lit_minus (String d rest)).
    + destruct (Ascii.eqb_spec c "+") as [->|Hp]; cbn [orb].
      * destruct rest as [|d rest]; [discriminate |].
        rewrite parse_digits_spec. destruct (all_digits (String d rest)) eqn:Hd; [|discriminate].
        destruct (_ && _) eqn:Hr; [|discriminate]. intros [= <-].
        apply Hrange in Hr. by apply (lit_plus (String d rest)).
      * rewrite parse_digits_spec. destruct (all_digits (String c rest)) eqn:Hd; [|discriminate].
        destruct (_ && _) eqn:Hr; [|discriminate]. intros [= <-].
        apply Hrange in Hr. by apply (lit_unsigned (String c rest)).
  - intros [ds [Hne Hd] Hr | ds [Hne Hd] Hr | ds [Hne Hd] Hr];
      apply Hrange in Hr; (destruct ds as [|c rest]; [done |]); unfold Go.Atoi.
    + pose proof Hd as Hd'. simpl in Hd'. apply andb_true_iff in Hd' as [Hc _].
      destruct (is_digit_not_sign c Hc) as (-> & -> & _). cbn [orb].
      rewrite parse_digits_spec, Hd. fold (decimal_value (String c rest)).
      by rewrite Hr.
    + cbn [String.append]. change (Ascii.eqb "+" "-") with false.
      change (Ascii.eqb "+" "+") with true. cbn [orb].
      rewrite parse_digits_spec, Hd. fold (decimal_value (String c rest)).
      by rewrite Hr.
    + cbn [String.append]. change (Ascii.eqb "-" "-") with true. cbn [orb].
      rewrite parse_digits_spec, Hd. fold (decimal_value (String c rest)).
      by rewrite Hr.
Qed.

Lemma IntLiteral_no_dot (s : string) (v : Z) : IntLiteral s v → has_byte "." s = false.
Proof.
  intros [ds [_ Hd] _ | ds [_ Hd] _ | ds [_ Hd] _]; simpl; by apply all_digits_no_dot.
Qed.

(** ** ParseSemver and LessThan *)

Lemma ParseSemver_Ok (s : string) (M m p : Z) :
  version.ParseSemver s = Ok (M, m, p) ↔
  ∃ a b c : string,
    s = a +:+ "." +:+ b +:+ "." +:+ c ∧
    IntLiteral a M ∧ IntLiteral b m ∧ IntLiteral c p.
Proof.
  unfold version.ParseSemver. split.
  - destruct (String.eqb s ""); [discriminate |].
    destruct (Split_inv s ".") as [Hno Hcat].
    destruct (Go.Split s ".") as [|a [|b [|c [|d l]]]]; try discriminate.
    destruct (Go.Atoi a) as [M'|] eqn:Ea; [|discriminate].
    destruct (Go.Atoi b) as [m'|] eqn:Eb; [|discriminate].
    destruct (Go.Atoi c) as [p'|] eqn:Ec; [|discriminate].
    intros [= -> -> ->]. exists a, b, c.
    rewrite <- !Atoi_spec. by rewrite <- Hcat.
  - intros (a & b & c & -> & Ha & Hb & Hc).
    pose proof (IntLiteral_no_dot _ _ Ha) as Na.
    pose proof (IntLiteral_no_dot _ _ Hb) as Nb.
    pose proof (IntLiteral_no_dot _ _ Hc) as Nc.
    apply Atoi_spec in Ha, Hb, Hc.
    destruct (String.eqb_spec (a +:+ "." +:+ b +:+ "." +:+ c) "") as [E|_].
    { apply sapp_eq_nil in E as [_ E]. discriminate E. }
    change ("." +:+ b +:+ "." +:+ c) with (String "." (b +:+ String "." c)).
    rewrite (Split_app a _ "." Na), (Split_app b _ "." Nb), (Split_no_sep c "." Nc).
    by rewrite Ha, Hb, Hc.
Qed.

Lemma triple_lt_dec (a1 a2 a3 b1 b2 b3 : Z) :
  (if a1 <? b1 then true
   else if a1 >? b1 then false
   else if a2 <? b2 then true
   else if a2 >? b2 then false
   else a3 <? b3) = true ↔ triple_lt (a1, a2, a3) (b1, b2, b3).
Proof.
  unfold triple_lt.
  destruct (Z.ltb_spec a1 b1); [intuition lia |].
  destruct (Z.gtb_spec a1 b1); [intuition (discriminate || lia) |].
  destruct (Z.ltb_spec a2 b2); [intuition lia |].
  destruct (Z.gtb_spec a2 b2); [intuition (discriminate || lia) |].
  rewrite Z.ltb_lt. intuition lia.
Qed.

Lemma LessThan_spec (v1 v2 : string) :
  version.LessThan v1 v2 = true ↔
  ∃ t1 t2, version.ParseSemver v1 = Ok t1 ∧ version.ParseSemver v2 = Ok t2 ∧
           triple_lt t1 t2.
Proof.
  unfold version.LessThan.
  destruct (String.eqb_spec v1 "") as [->|_]; cbn [orb].
  { split; [discriminate | by intros (? & ? & [=] & _)]. }
  destruct (String.eqb_spec v2 "") as [->|_]; cbn [orb].
  { split; [discriminate | by intros (? & ? & _ & [=] & _)]. }
  destruct (version.ParseSemver v1) as [[[a1 a2] a3]|e1].
  2: { split; [discriminate | by intros (? & ? & [=] & _)]. }
  destruct (version.ParseSemver v2) as [[[b1 b2] b3]|e2].
  2: { split; [discriminate | by intros (? & ? & _ & [=] & _)]. }
  rewrite triple_lt_dec. split.
  - intros H. by exists (a1, a2, a3), (b1, b2, b3).
  - by intros (? & ? & [= <-] & [= <-] & H).
Qed.

(** ** The matcher decides the language of an expression *)

Section RegexpFacts.
Import Regexp.

Lemma Matches_Eps_inv (s : string) : Matches Eps s ↔ s = "".
Proof. split; [by inversion 1 | intros ->; constructor]. Qed.

Lemma Matches_Chr_inv (c : ascii) (s : string) : Matches (Chr c) s ↔ s = String c "".
Proof. split; [by inversion 1 | intros ->; constructor]. Qed.

Lemma Matches_Range_inv (lo hi : ascii) (s : string) :
  Matches (Range lo hi) s ↔
  ∃ c, s = String c "" ∧ Go.byte_le lo c = true ∧ Go.byte_le c hi = true.
Proof.
  split.
  - inversion 1; subst. eauto.
  - intros (c & -> & H1 & H2). by constructor.
Qed.

Lemma Matches_Cat_inv (r1 r2 : regex) (s : string) :
  Matches (Cat r1 r2) s ↔
  ∃ s1 s2, s = s1 +:+ s2 ∧ Matches r1 s1 ∧ Matches r2 s2.
Proof.
  split.
  - inversion 1; subst. eauto.
  - intros (s1 & s2 & -> & H1 & H2). by constructor.
Qed.

Lemma Matches_Alt_inv (r1 r2 : regex) (s : string) :
  Matches (Alt r1 r2) s ↔ Matches r1 s ∨ Matches r2 s.
Proof.
  split.
  - inversion 1; subst; eauto.
  - intros [H|H]; [by apply MAltL | by apply MAltR].
Qed.

Lemma Matches_Star_cons (r : regex) (a : ascii) (s : string) :
  Matches (Star r) (String a s) ↔
  ∃ s1 s2, s = s1 +:+ s2 ∧ Matches r (String a s1) ∧ Matches (Star r) s2.
Proof.
  split.
  - intros H. remember (Star r) as R eqn:ER. remember (String a s) as t eqn:Et.
    revert s Et. induction H as [| | | | | | |r' s1 s2 H1 _ H2 IH2]; intros s' Et;
      try discriminate.
    injection ER as ->. destruct s1 as [|x s1]; simpl in Et.
    + by apply IH2.
    + injection Et as -> <-. eauto.
  - intros (s1 & s2 & -> & H1 & H2).
    change (String a (s1 +:+ s2)) with (String a s1 +:+ s2). by constructor.
Qed.

Lemma nullable_spec (r : regex) : nullable r = true ↔ Matches r "".
Proof.
  induction r as [| | | |r1 IH1 r2 IH2|r1 IH1 r2 IH2|r IH]; simpl.
  - split; [discriminate | inversion 1].
  - split; [constructor | done].
  - split; [discriminate | inversion 1].
  - split; [discriminate | inversion 1].
  - rewrite andb_true_iff, IH1, IH2, Matches_Cat_inv. split.
    + intros [H1 H2]. by exists "", "".
    + intros (s1 & s2 & E & H1 & H2). symmetry in E.
      apply sapp_eq_nil in E as [-> ->]. done.
  - rewrite orb_true_iff, IH1, IH2, Matches_Alt_inv. done.
  - split; [constructor | done].
Qed.

Lemma deriv_spec (r : regex) (a : ascii) (s : string) :
  Matches (deriv a r) s ↔ Matches r (String a s).
Proof.
  revert s. induction r as [| | | |r1 IH1 r2 IH2|r1 IH1 r2 IH2|r IH]; intros s; simpl.
  - split; inversion 1.
  - split; inversion 1.
  - rewrite Matches_Chr_inv. destruct (Ascii.eqb_spec a c) as [->|Hne].
    + rewrite Matches_Eps_inv. split; [by intros -> | by intros [= ->]].
    + split; [inversion 1 | intros [= ? _]; done].
  - rewrite Matches_Range_inv. destruct (_ && _) eqn:E.
    + apply andb_true_iff in E as [E1 E2]. rewrite Matches_Eps_inv. split.
      * intros ->. eauto.
      * by intros (c & [= _ ->] & _).
    + split; [inversion 1 |]. intros (c & [= -> ->] & H1 & H2).
      rewrite H1, H2 in E. discriminate E.
  - assert (Hcat : Matches (Cat (deriv a r1) r2) s ↔
                   ∃ s1 s2, s = s1 +:+ s2 ∧ Matches r1 (String a s1) ∧ Matches r2 s2).
    { rewrite Matches_Cat_inv. split; intros (s1 & s2 & E & H1 & H2);
        exists s1, s2; by rewrite ?IH1 in *. }
    rewrite (Matches_Cat_inv r1 r2). destruct (nullable r1) eqn:N.
    + rewrite Matches_Alt_inv, Hcat, IH2. apply nullable_spec in N. split.
      * intros [(s1 & s2 & -> & H1 & H2) | H].
        -- by exists (String a s1), s2.
        -- by exists "", (String a s).
      * intros (s1 & s2 & E & H1 & H2). destruct s1 as [|x s1]; simpl in E.
        -- right. by subst.
        -- left. injection E as <- ->. eauto.
    + rewrite Hcat. split.
      * intros (s1 & s2 & -> & H1 & H2). by exists (String a s1), s2.
      * intros (s1 & s2 & E & H1 & H2). destruct s1 as [|x s1]; simpl in E.
        -- apply nullable_spec in H1. congruence.
        -- injection E as <- ->. eauto.
  - rewrite !Matches_Alt_inv, IH1, IH2. done.
  - rewrite Matches_Star_cons, Matches_Cat_inv.
    split; intros (s1 & s2 & E & H1 & H2); exists s1, s2; by rewrite ?IH in *.
Qed.

Lemma MatchString_spec (r : regex) (s : string) :
  MatchString r s = true ↔ Matches r s.
Proof.
  revert r. induction s as [|a s IH]; intros r; simpl.
  - apply nullable_spec.
  - rewrite IH. apply deriv_spec.
Qed.

End RegexpFacts.

(** ** The language of the file-name expression *)

Section FileNameExpression.
Import Regexp.

Lemma Matches_Lit (l s : string) : Matches (Lit l) s ↔ s = l.
Proof.
  revert s. induction l as [|c l IH]; intros s; simpl.
  - apply Matches_Eps_inv.
  - rewrite Matches_Cat_inv. split.
    + intros (s1 & s2 & -> & H1%Matches_Chr_inv & H2%IH). by subst.
    + intros ->. exists (String c ""), l. by rewrite Matches_Chr_inv, IH.
Qed.

Lemma Matches_digit (s : string) :
  Matches version.digit s ↔ ∃ c, s = String c "" ∧ Go.is_digit c = true.
Proof.
  unfold version.digit, Go.is_digit. rewrite Matches_Range_inv.
  split; intros (c & -> & H); exists c; (split; [done |]).
  - by apply andb_true_iff.
  - by apply andb_true_iff in H.
Qed.

Lemma Matches_Star_digit (s : string) :
  Matches (Star version.digit) s ↔ all_digits s = true.
Proof.
  induction s as [|a s IH]; simpl.
  - split; [done | constructor].
  - rewrite Matches_Star_cons, andb_true_iff, <- IH. split.
    + intros (s1 & s2 & -> & (c & [= <- ->] & Hc)%Matches_digit & H2). done.
    + intros [Ha Hs]. exists "", s. rewrite Matches_digit. eauto.
Qed.

Lemma Matches_Plus_digit (s : string) : Matches (Plus version.digit) s ↔ Digits s.
Proof.
  unfold Plus, Digits. rewrite Matches_Cat_inv. split.
  - intros (s1 & s2 & -> & (c & -> & Hc)%Matches_digit & H2%Matches_Star_digit).
    simpl. by rewrite Hc, H2.
  - intros [Hne Hd]. destruct s as [|c s]; [done |]. simpl in Hd.
    apply andb_true_iff in Hd as [Hc Hs].
    exists (String c ""), s. rewrite Matches_digit, Matches_Star_digit. eauto.
Qed.

Lemma Matches_dotNum (s : string) :
  Matches version.dotNum s ↔ ∃ d, s = String "." d ∧ Digits d.
Proof.
  unfold version.dotNum. rewrite Matches_Cat_inv. split.
  - intros (s1 & s2 & -> & ->%Matches_Chr_inv & H2%Matches_Plus_digit). eauto.
  - intros (d & -> & Hd). exists ".", d. by rewrite Matches_Chr_inv, Matches_Plus_digit.
Qed.

Lemma concat_dotted (d : string) (parts : list string) :
  String.concat "." (d :: parts) = d +:+ dotted parts.
Proof.
  revert d. induction parts as [|p ps IH]; intros d.
  - simpl. by rewrite sapp_nil_r.
  - change (String.concat "." (d :: p :: ps))
      with (d +:+ "." +:+ String.concat "." (p :: ps)).
    by rewrite IH.
Qed.

Lemma Matches_Star_dotNum (t : string) :
  Matches (Star version.dotNum) t ↔ ∃ parts, Forall Digits parts ∧ t = dotted parts.
Proof.
  split.
  - intros H. remember (Star version.dotNum) as R eqn:ER.
    induction H as [| | | | | | |r s1 s2 H1 _ H2 IH2]; try discriminate.
    + by exists [].
    + injection ER as ->. destruct (IH2 eq_refl) as (parts & HF & ->).
      apply Matches_dotNum in H1 as (d & -> & Hd).
      exists (d :: parts). split; [by constructor | done].
  - intros (parts & HF & ->). induction HF as [|p ps Hp _ IH]; simpl.
    + constructor.
    + change (String "." (p +:+ dotted ps)) with (String "." p +:+ dotted ps).
      constructor; [|done]. apply Matches_dotNum. eauto.
Qed.

Lemma Matches_versionGroup (v : string) :
  Matches version.versionGroup v ↔ DottedDigits v.
Proof.
  unfold version.versionGroup, DottedDigits. rewrite Matches_Cat_inv. split.
  - intros (d & t & -> & Hd%Matches_Plus_digit & (parts & HF & ->)%Matches_Star_dotNum).
    exists (d :: parts). split; [done |]. split; [by constructor |].
    symmetry. apply concat_dotted.
  - intros (parts & Hne & HF & ->). destruct parts as [|d parts]; [done |].
    inversion HF; subst. exists d, (dotted parts).
    rewrite Matches_Plus_digit, Matches_Star_dotNum, concat_dotted. eauto.
Qed.

Lemma Matches_cursorRe (s : string) :
  Matches version.cursorRe s ↔
  ∃ v, s = "Cursor-" +:+ v +:+ "-x86_64.AppImage" ∧ DottedDigits v.
Proof.
  unfold version.cursorRe. rewrite Matches_Cat_inv. split.
  - intros (s1 & s2 & -> & ->%Matches_Lit & (v & s3 & -> & Hv & ->%Matches_Lit)%Matches_Cat_inv).
    exists v. by rewrite <- Matches_versionGroup.
  - intros (v & -> & Hv). exists "Cursor-", (v +:+ "-x86_64.AppImage").
    rewrite Matches_Lit, Matches_Cat_inv. split; [done |]. split; [done |].
    exists v, "-x86_64.AppImage". by rewrite Matches_Lit, Matches_versionGroup.
Qed.

Lemma DottedDigits_nonempty (v : string) : DottedDigits v → v ≠ "".
Proof.
  intros (parts & Hne & HF & ->). destruct parts as [|d parts]; [done |].
  inversion HF as [|? ? [Hd _] _]; subst. rewrite concat_dotted.
  by destruct d.
Qed.

(** The model of FindStringSubmatch agrees with the expression: it
    answers exactly on the strings of its language, with the text
    between the two literals as first group. *)
Lemma FindStringSubmatch_spec (filename : string) :
  (∀ v, filename = "Cursor-" +:+ v +:+ "-x86_64.AppImage" → DottedDigits v →
        version.FindStringSubmatch filename = [filename; v; version.lastDotNum v]) ∧
  (¬ Matches version.cursorRe filename → version.FindStringSubmatch filename = []).
Proof.
  unfold version.FindStringSubmatch. split.
  - intros v -> Hv. rewrite CutPrefix_app.
    rewrite (proj2 (CutSuffix_spec _ _ v) eq_refl).
    apply Matches_versionGroup, MatchString_spec in Hv. by rewrite Hv.
  - intros Hno.
    destruct (Go.CutPrefix filename "Cursor-") as [rest|] eqn:E1; [|done].
    destruct (Go.CutSuffix rest "-x86_64.AppImage") as [v|] eqn:E2; [|done].
    destruct (MatchString version.versionGroup v) eqn:E3; [|done].
    exfalso. apply Hno, Matches_cursorRe. exists v.
    apply CutPrefix_spec in E1 as ->. apply CutSuffix_spec in E2 as ->.
    by rewrite <- Matches_versionGroup, <- MatchString_spec.
Qed.

End FileNameExpression.

(** ** C5: the update-needed decision *)

Section Decision.
Context (lib : Go.Lib) {F N : Type} `{!os.FileSystem F} `{!http.Network N}.

Lemma LessThan_unparsable (v1 v2 : string) :
  (∃ e, version.ParseSemver v1 = Err e) ∨ (∃ e, version.ParseSemver v2 = Err e) →
  version.LessThan v1 v2 = false.
Proof.
  intros Hbad. destruct (version.LessThan v1 v2) eqn:E; [|done].
  apply LessThan_spec in E as (t1 & t2 & E1 & E2 & _).
  destruct Hbad as [[e He]|[e He]]; congruence.
Qed.

Lemma ParseSemver_AtoiTriple (s : string) (t : Z * Z * Z) :
  version.ParseSemver s = Ok t ↔ AtoiTriple s t.
Proof. destruct t as [[M m] p]. apply ParseSemver_Ok. Qed.

Lemma LessThan_AtoiTriple (v1 v2 : string) :
  version.LessThan v1 v2 = true ↔
  ∃ t1 t2, AtoiTriple v1 t1 ∧ AtoiTriple v2 t2 ∧ triple_lt t1 t2.
Proof.
  rewrite LessThan_spec. split; intros (t1 & t2 & H1 & H2 & Hlt); exists t1, t2.
  - by rewrite <- !ParseSemver_AtoiTriple.
  - by rewrite !ParseSemver_AtoiTriple.
Qed.

Lemma digit_value_nonneg (c : ascii) : Go.is_digit c = true → 0 ≤ Go.digit_value c.
Proof.
  destruct c as [[] [] [] [] [] [] [] []]; intros Hc; vm_compute in Hc; try discriminate Hc;
    vm_compute; discriminate.
Qed.

Lemma decimal_fold_nonneg (s : string) (acc : Z) :
  all_digits s = true → 0 ≤ acc →
  0 ≤ fold_left (λ a c, a * 10 + Go.digit_value c) (list_ascii_of_string s) acc.
Proof.
  revert acc. induction s as [|c s IH]; intros acc Hs Hacc; simpl; [done |].
  simpl in Hs. apply andb_true_iff in Hs as [Hc Hs].
  apply IH; [done |]. pose proof (digit_value_nonneg c Hc). lia.
Qed.

Lemma decimal_value_nonneg (s : string) : all_digits s = true → 0 ≤ decimal_value s.
Proof. intros Hd. by apply decimal_fold_nonneg. Qed.

Lemma spec_version_AtoiTriple (s : string) (t : Z * Z * Z) :
  spec_version s = Some t → within_int t → AtoiTriple s t.
Proof.
  unfold spec_version, spec_validVersion.
  destruct (Split_inv s ".") as [_ Hcat].
  destruct (Go.Split s ".") as [|a [|b [|c [|d l]]]]; try discriminate.
  destruct (_ && _) eqn:E; [|discriminate]. intros [= <-] (Ha & Hb & Hc).
  cbn [fst snd] in Ha, Hb, Hc.
  repeat (apply andb_true_iff in E as [E ?]).
  exists a, b, c. split; [by rewrite <- Hcat |]. cbn [fst snd].
  assert (Hlit : ∀ x, negb (String.eqb x "") = true → all_digits x = true →
                      decimal_value x ≤ Go.maxInt → IntLiteral x (decimal_value x)).
  { intros x Hne Hd Hmax. apply lit_unsigned.
    - split; [|done]. intros ->. discriminate Hne.
    - split; [|done]. pose proof (decimal_value_nonneg x Hd).
      assert (Go.minInt ≤ 0) by (vm_compute; discriminate). lia. }
  repeat split; by apply Hlit.
Qed.

Lemma AtoiTriple_unique (s : string) (t t' : Z * Z * Z) :
  AtoiTriple s t → AtoiTriple s t' → t = t'.
Proof. rewrite <- !ParseSemver_AtoiTriple. congruence. Qed.

Lemma spec_isOlderThan_triple_lt (v1 v2 : string) (t1 t2 : Z * Z * Z) :
  spec_version v1 = Some t1 → spec_version v2 = Some t2 →
  spec_isOlderThan v1 v2 = true ↔ triple_lt t1 t2.
Proof.
  intros H1 H2. unfold spec_isOlderThan. rewrite H1, H2.
  destruct t1 as [[a1 a2] a3], t2 as [[b1 b2] b3]. unfold triple_lt.
  rewrite !orb_true_iff, !andb_true_iff, !orb_true_iff, !andb_true_iff,
    !Z.ltb_lt, !Z.eqb_eq. done.
Qed.

Lemma LessThan_spec_isOlderThan (v1 v2 : string) (t1 t2 : Z * Z * Z) :
  spec_version v1 = Some t1 → spec_version v2 = Some t2 →
  within_int t1 → within_int t2 →
  version.LessThan v1 v2 = spec_isOlderThan v1 v2.
Proof.
  intros H1 H2 W1 W2.
  pose proof (spec_version_AtoiTriple _ _ H1 W1) as A1.
  pose proof (spec_version_AtoiTriple _ _ H2 W2) as A2.
  apply eq_true_iff_eq. rewrite (spec_isOlderThan_triple_lt _ _ _ _ H1 H2).
  rewrite LessThan_AtoiTriple. split.
  - intros (s1 & s2 & P1 & P2 & Hlt).
    by rewrite (AtoiTriple_unique _ _ _ A1 P1), (AtoiTriple_unique _ _ _ A2 P2).
  - intros Hlt. by exists t1, t2.
Qed.

(** C5 (as the code has it).  When the remote version resolves to
    [remoteV] and the local one to [localV], CheckForUpdates answers
    that an update is needed exactly when [localV] is empty (unknown),
    or both are three literals of strconv.Atoi joined by dots (decimal
    digits, an optional sign, a value in the range of int) and the
    numbers of [localV] are below those of [remoteV] in the
    lexicographic order of (major, minor, patch).  This is the answer
    of the Version Model, needsUpdate(local, remote), when the local
    version is unknown or both are valid versions whose components are
    within the range of int.  LessThan is true exactly in the case of
    the three literals: it is false, not an error, as soon as one side
    is not of that form, be it a valid version one component of which
    is beyond the range of int. *)
Theorem CheckForUpdates_decision (u : updater.Updater) (w w' : World F N)
    (localV remoteV : string) :
  updater.GetRemoteVersion u w = (Ok remoteV, w') →
  updater.GetLocalVersion lib u (fs w') = Ok localV →
  (∃ needsUpdate : bool,
     updater.CheckForUpdates lib u w = ((needsUpdate, remoteV, None), w') ∧
     (needsUpdate = true ↔
      localV = "" ∨
      ∃ t1 t2, AtoiTriple localV t1 ∧ AtoiTriple remoteV t2 ∧ triple_lt t1 t2) ∧
     (localV = "" ∨
      (∃ t1 t2, spec_version localV = Some t1 ∧ spec_version remoteV = Some t2 ∧
                within_int t1 ∧ within_int t2) →
      needsUpdate = spec_needsUpdate localV remoteV)) ∧
  (∀ v1 v2 : string,
     (version.LessThan v1 v2 = true ↔
      ∃ t1 t2, AtoiTriple v1 t1 ∧ AtoiTriple v2 t2 ∧ triple_lt t1 t2) ∧
     ((∀ t, ¬ AtoiTriple v1 t) ∨ (∀ t, ¬ AtoiTriple v2 t) →
      version.LessThan v1 v2 = false)).
Proof.
  intros Hr Hl. split.
  - unfold updater.CheckForUpdates, spec_needsUpdate. rewrite Hr, Hl.
    destruct (String.eqb_spec localV "") as [->|Hne].
    + exists true. split; [done |]. split; [|done]. split; [by left | done].
    + exists (version.LessThan localV remoteV). split; [done |]. split.
      * rewrite LessThan_AtoiTriple. split; [by right | by intros [? | ?]].
      * intros [? | (t1 & t2 & H1 & H2 & W1 & W2)]; [done |]. cbn [orb].
        by apply (LessThan_spec_isOlderThan _ _ t1 t2).
  - intros v1 v2. split; [apply LessThan_AtoiTriple |].
    intros Hbad. destruct (version.LessThan v1 v2) eqn:E; [|done].
    apply LessThan_AtoiTriple in E as (t1 & t2 & H1 & H2 & _).
    destruct Hbad as [Hbad|Hbad]; [by destruct (Hbad t1) | by destruct (Hbad t2)].
Qed.

End Decision.

(** C5 on a run: 1.0.0 is linked, the remote side serves 1.1.0. *)
Lemma CheckForUpdates_decision_witness :
  ∃ needsUpdate : bool,
    updater.CheckForUpdates Sim.lib Scenario.up
      (Sim.start Scenario.installed (Scenario.serves "1.1.0") Scenario.time) =
    ((needsUpdate, "1.1.0", None),
     (updater.GetRemoteVersion Scenario.up
        (Sim.start Scenario.installed (Scenario.serves "1.1.0") Scenario.time)).2) ∧
    (needsUpdate = true ↔
     "1.0.0" = "" ∨
     ∃ t1 t2, AtoiTriple "1.0.0" t1 ∧ AtoiTriple "1.1.0" t2 ∧ triple_lt t1 t2) ∧
    ("1.0.0" = "" ∨
     (∃ t1 t2, spec_version "1.0.0" = Some t1 ∧ spec_version "1.1.0" = Some t2 ∧
               within_int t1 ∧ within_int t2) →
     needsUpdate = spec_needsUpdate "1.0.0" "1.1.0").
Proof.
  refine (proj1 (CheckForUpdates_decision Sim.lib Scenario.up _ _ "1.0.0" "1.1.0" _ _)).
  - vm_compute. reflexivity.
  - vm_compute. reflexivity.
Defined.

Example CheckForUpdates_run :
  (updater.CheckForUpdates Sim.lib Scenario.up
     (Sim.start Scenario.installed (Scenario.serves "1.1.0") Scenario.time)).1 =
    (true, "1.1.0", None) ∧
  spec_needsUpdate "1.0.0" "1.1.0" = true ∧
  spec_version "1.0.0" = Some (1, 0, 0) ∧ spec_version "1.1.0" = Some (1, 1, 0) ∧
  within_int (1, 0, 0) ∧ within_int (1, 1, 0) ∧
  AtoiTriple "1.0.0" (1, 0, 0) ∧ AtoiTriple "1.1.0" (1, 1, 0) ∧
  triple_lt (1, 0, 0) (1, 1, 0).
Proof.
  split; [vm_compute; reflexivity |]. split; [vm_compute; reflexivity |].
  split; [vm_compute; reflexivity |]. split; [vm_compute; reflexivity |].
  split; [by vm_compute |]. split; [by vm_compute |].
  assert (H0 : IntLiteral "0" 0) by (apply (lit_unsigned "0"); by vm_compute).
  assert (H1 : IntLiteral "1" 1) by (apply (lit_unsigned "1"); by vm_compute).
  split; [by exists "1", "0", "0" |]. split; [by exists "1", "1", "0" |].
  unfold triple_lt. lia.
Qed.

(** C5 (as stated) fails.  With 1.0.0 linked and a remote side that
    serves 99999999999999999999.0.0, a valid version of the Version
    Model above 1.0.0, needsUpdate is true in the Version Model and
    CheckForUpdates answers that no update is needed: the component is
    beyond the range of int and ParseSemver rejects it.  And LessThan
    answers true on -1.0.0, which the Version Model does not count as
    a version and for which isOlderThan is false. *)
Lemma CheckForUpdates_overflow_counterexample :
  updater.GetLocalVersion Sim.lib Scenario.up Scenario.installed = Ok "1.0.0" ∧
  spec_validVersion "99999999999999999999.0.0" = true ∧
  spec_needsUpdate "1.0.0" "99999999999999999999.0.0" = true ∧
  (updater.CheckForUpdates Sim.lib Scenario.up
     (Sim.start Scenario.installed (Scenario.serves "99999999999999999999.0.0")
        Scenario.time)).1 = (false, "99999999999999999999.0.0", None) ∧
  spec_validVersion "-1.0.0" = false ∧
  spec_isOlderThan "-1.0.0" "0.0.0" = false ∧
  version.LessThan "-1.0.0" "0.0.0" = true.
Proof. vm_compute. repeat split. Qed.

(** ** Version extraction from file names *)

Example SemverFromName_test1 :
  version.SemverFromName "Cursor-1.4.5-x86_64.AppImage" = "1.4.5".
Proof. reflexivity. Qed.

Example SemverFromName_test2 :
  version.SemverFromName "Cursor-x86_64.AppImage" = "" ∧
  version.SemverFromName "invalid-name.AppImage" = "".
Proof. split; reflexivity. Qed.

Example FindStringSubmatch_test :
  version.FindStringSubmatch "Cursor-1.4.5-x86_64.AppImage" =
  ["Cursor-1.4.5-x86_64.AppImage"; "1.4.5"; ".5"].
Proof. reflexivity. Qed.

Lemma GenerateFileName_default (v : string) :
  config.GenerateFileName config.NewConfig v = "Cursor-" +:+ v +:+ "-x86_64.AppImage".
Proof. reflexivity. Qed.

Lemma SemverFromName_generated (v : string) :
  DottedDigits v → version.SemverFromName ("Cursor-" +:+ v +:+ "-x86_64.AppImage") = v.
Proof.
  intros Hv. unfold version.SemverFromName.
  rewrite (proj1 (FindStringSubmatch_spec _) v eq_refl Hv). done.
Qed.

Lemma SemverFromName_nonempty (filename v : string) :
  version.SemverFromName filename = v → v ≠ "" →
  filename = "Cursor-" +:+ v +:+ "-x86_64.AppImage" ∧ DottedDigits v.
Proof.
  unfold version.SemverFromName, version.FindStringSubmatch.
  destruct (String.eqb filename ""); [congruence |].
  destruct (Go.CutPrefix filename "Cursor-") as [rest|] eqn:E1; [|simpl; congruence].
  destruct (Go.CutSuffix rest "-x86_64.AppImage") as [v'|] eqn:E2; [|simpl; congruence].
  destruct (Regexp.MatchString version.versionGroup v') eqn:E3; [|simpl; congruence].
  simpl. intros <- _. apply CutPrefix_spec in E1 as ->. apply CutSuffix_spec in E2 as ->.
  by rewrite <- Matches_versionGroup, <- MatchString_spec.
Qed.

(** C1 (as the code has it).  SemverFromName takes the file name only and
    matches it against the default shape: it returns [v], non-empty,
    exactly when the file name is Cursor-[v]-x86_64.AppImage with [v] one
    or more runs of decimal digits separated by dots, and the empty
    string in every other case.  In particular extraction succeeds on
    the file names generated from the default pattern for such [v]. *)
Theorem SemverFromName_default_shape (filename v : string) :
  (version.SemverFromName filename = v ∧ v ≠ "" ↔
   filename = "Cursor-" +:+ v +:+ "-x86_64.AppImage" ∧ DottedDigits v) ∧
  (version.SemverFromName (config.GenerateFileName config.NewConfig v) = v ∧ v ≠ "" ↔
   DottedDigits v).
Proof.
  split; split.
  - intros [H1 H2]. by apply SemverFromName_nonempty.
  - intros [-> Hv]. split; [by apply SemverFromName_generated |].
    by apply DottedDigits_nonempty.
  - intros [H1 H2]. by apply SemverFromName_nonempty in H1 as [_ Hv].
  - intros Hv. rewrite GenerateFileName_default.
    split; [by apply SemverFromName_generated | by apply DottedDigits_nonempty].
Qed.

(** C1 (as stated) fails: with the configured pattern
    Cursor_<version>.AppImage of the configuration guide, the file name
    generated for 1.4.5 has the literal text of the pattern around
    1.4.5, yet SemverFromName finds no version in it. *)
Lemma SemverFromName_configured_pattern_counterexample :
  config.GenerateFileName customConfig "1.4.5" = "Cursor_1.4.5.AppImage" ∧
  spec_extractFromArtifactName "Cursor_1.4.5.AppImage"
    (config.FileNamePattern customConfig) = "1.4.5" ∧
  version.SemverFromName "Cursor_1.4.5.AppImage" = "".
Proof. repeat split. Qed.

(** ** C3: what ParseSemver accepts *)

Example ParseSemver_test1 :
  version.ParseSemver "1.2.3" = Ok (1, 2, 3) ∧ version.ParseSemver "0.1.0" = Ok (0, 1, 0).
Proof. split; reflexivity. Qed.

Example ParseSemver_test2 :
  version.ParseSemver "1.2" = Err (version.ExpectedThreeParts 2) ∧
  version.ParseSemver "" = Err version.EmptyVersionString ∧
  version.ParseSemver "a.b.c" = Err (version.InvalidMajor Go.ErrSyntax).
Proof. repeat split. Qed.

(** C3 (as the code has it).  ParseSemver succeeds, with the values
    (M, m, p), exactly on the strings a.b.c whose three components are
    literals of strconv.Atoi: decimal digits, optionally preceded by one
    '+' or '-' sign, with a value in the range of int.  On every other
    string it returns an error. *)
Theorem ParseSemver_accepts_exactly (s : string) :
  (∀ M m p : Z,
     version.ParseSemver s = Ok (M, m, p) ↔
     ∃ a b c : string,
       s = a +:+ "." +:+ b +:+ "." +:+ c ∧
       IntLiteral a M ∧ IntLiteral b m ∧ IntLiteral c p) ∧
  ((∃ e, version.ParseSemver s = Err e) ↔
   ¬ ∃ (a b c : string) (M m p : Z),
       s = a +:+ "." +:+ b +:+ "." +:+ c ∧
       IntLiteral a M ∧ IntLiteral b m ∧ IntLiteral c p).
Proof.
  split; [intros; apply ParseSemver_Ok |]. split.
  - intros [e He] (a & b & c & M & m & p & H).
    assert (version.ParseSemver s = Ok (M, m, p)) as H' by (apply ParseSemver_Ok; eauto).
    congruence.
  - intros Hno. destruct (version.ParseSemver s) as [[[M m] p]|e] eqn:E; [|eauto].
    exfalso. apply Hno. apply ParseSemver_Ok in E as (a & b & c & H).
    by exists a, b, c, M, m, p.
Qed.

(** C3 (as stated) fails in both directions: a signed component is
    accepted, and a run of digits beyond the range of int is rejected. *)
Lemma ParseSemver_signed_counterexample :
  version.ParseSemver "+1.-2.3" = Ok (1, -2, 3) ∧
  spec_validVersion "+1.-2.3" = false ∧
  version.ParseSemver "9223372036854775808.0.0" = Err (version.InvalidMajor Go.ErrRange) ∧
  spec_validVersion "9223372036854775808.0.0" = true.
Proof. repeat split. Qed.

(** ** The library models on examples *)

Example Base_test :
  Go.Base "http://h/download/Cursor-1.2.3-x86_64.AppImage" = "Cursor-1.2.3-x86_64.AppImage" ∧
  (Go.Base "/a/b//", Go.Base "///", Go.Base "", Go.Base "abc") = ("b", "/", ".", "abc").
Proof. split; reflexivity. Qed.

Example ScanLines_test :
  Go.ScanLines ("a" +:+ Go.nl +:+ String Go.CR Go.nl +:+ Go.nl +:+ "b") =
    (["a"; ""; ""; "b"], None) ∧
  Go.ScanLines "" = ([], None) ∧ Go.ScanLines Go.nl = ([""], None).
Proof. repeat split. Qed.

Example Sim_time_test :
  Sim.Format 1704110400000000000 = "2024-01-01T12:00:00Z" ∧
  Sim.Parse "2024-01-01T12:00:00Z" = Ok 1704110400000000000 ∧
  (Sim.Format 0, Sim.Format 951782400000000000, Sim.Format (-1000000000)) =
  ("1970-01-01T00:00:00Z", "2000-02-29T00:00:00Z", "1969-12-31T23:59:59Z").
Proof. vm_compute. repeat split. Qed.

Example Sim_path_test :
  (Sim.Dir "/a/b/c", Sim.Dir "/a", Sim.Dir "a", Sim.Join "/a" "b", Sim.Rel "/a" "/a/b/c") =
  ("/a/b", "/", ".", "/a/b", Ok "b/c").
Proof. vm_compute. reflexivity. Qed.

(** ** C2: local-version resolution *)

Section LocalVersion.
Context (lib : Go.Lib) {F : Type} `{!os.FileSystem F}.



End LocalVersion.



(** ** C4: switching to a version on disk *)

Lemma valid_format_iff (ver : string) :
  String.eqb (version.SemverFromName ("Cursor-" +:+ ver +:+ "-x86_64.AppImage")) "" = false ↔
  DottedDigits ver.
Proof.
  rewrite String.eqb_neq. split.
  - intros Hne.
    destruct (SemverFromName_nonempty _ _ eq_refl Hne) as [E Hv].
    apply (inj (String.append "Cursor-")) in E. apply sapp_cancel_r in E.
    by rewrite E.
  - intros Hv. rewrite (SemverFromName_generated ver Hv). by apply DottedDigits_nonempty.
Qed.

Section Switch.
Context (lib : Go.Lib) {F N : Type} `{!os.FileSystem F} `{!http.Network N}.

Lemma set_fs_same (w : World F N) : set_fs w (fs w) = w.
Proof. by destruct w. Qed.

(** C4 (as the code has it).  executeSwitch succeeds only if the target
    is one or more runs of decimal digits separated by dots (the syntax
    of versions in artifact names, with any number of components) and
    os.Stat does not report the artifact named for it as missing.  When
    the target has that form and the artifact is missing it fails with
    "version file not found", and when the target has not that form it
    fails with "invalid version format"; in both cases the world is left
    as it was: no ledger entry is appended and the current reference is
    unchanged. *)
Theorem executeSwitch_contract (up : updater.Updater) (led : ledger.Ledger)
    (ver : string) (cfg : config.Config) (w : World F N) :
  (∀ w', cli.executeSwitch lib up led ver cfg w = (None, w') →
     DottedDigits ver ∧
     ¬ ∃ err, os.Stat (updater.getDownloadPath lib up (updater.GenerateFileName up ver))
                (fs w) = Err err ∧ Go.IsNotExist err = true) ∧
  (DottedDigits ver →
   ∀ err, os.Stat (updater.getDownloadPath lib up (updater.GenerateFileName up ver))
            (fs w) = Err err →
          Go.IsNotExist err = true →
          cli.executeSwitch lib up led ver cfg w =
          (Some (Go.Errorf ("error switching to version: version file not found: " +:+
                            updater.GenerateFileName up ver)), w)) ∧
  (¬ DottedDigits ver →
   cli.executeSwitch lib up led ver cfg w =
   (Some (Go.Errorf ("invalid version format: " +:+ ver)), w)).
Proof.
  unfold cli.executeSwitch. split; [|split].
  - intros w' Hrun. destruct (String.eqb _ "") eqn:Ev; [discriminate |].
    split; [by apply valid_format_iff |]. intros (err & Es & En).
    revert Hrun. unfold on_fs, updater.SwitchToVersion. rewrite Es, En. discriminate.
  - intros Hv err Es En. apply valid_format_iff in Hv as ->.
    unfold on_fs, updater.SwitchToVersion. rewrite Es, En. by rewrite set_fs_same.
  - intros Hv. destruct (String.eqb _ "") eqn:Ev; [done |].
    by apply valid_format_iff in Ev.
Qed.

End Switch.

(** C4 on the scenario of the specification: switch to 9.9.9 when no
    artifact is named for it. *)
Lemma executeSwitch_contract_witness :
  cli.executeSwitch Sim.lib Scenario.up Scenario.led "9.9.9" Scenario.cfg
    (Sim.start Scenario.installed (Scenario.serves "1.1.0") Scenario.time) =
  (Some (Go.Errorf ("error switching to version: version file not found: " +:+
                    "Cursor-9.9.9-x86_64.AppImage")),
   Sim.start Scenario.installed (Scenario.serves "1.1.0") Scenario.time).
Proof.
  refine (proj1 (proj2 (executeSwitch_contract Sim.lib Scenario.up Scenario.led "9.9.9"
                          Scenario.cfg _)) _
            (Sim.ENOENT "stat" "/d/Cursor-9.9.9-x86_64.AppImage") _ _).
  - apply valid_format_iff. vm_compute. reflexivity.
  - vm_compute. reflexivity.
  - reflexivity.
Defined.

(** C4 (as stated) fails: 1.4 does not parse as a version, yet with an
    artifact named for it on disk the switch succeeds, repoints the
    current reference and logs the switch. *)
Lemma executeSwitch_two_components_counterexample :
  version.ParseSemver "1.4" = Err (version.ExpectedThreeParts 2) ∧
  (cli.executeSwitch Sim.lib Scenario.up Scenario.led "1.4" Scenario.cfg
     (Sim.start Scenario.twoComponents (Scenario.serves "1.1.0") Scenario.time)).1 = None ∧
  os.Readlink "/d/Cursor.AppImage"
    (fs (cli.executeSwitch Sim.lib Scenario.up Scenario.led "1.4" Scenario.cfg
           (Sim.start Scenario.twoComponents (Scenario.serves "1.1.0") Scenario.time)).2) =
    Ok "Cursor-1.4-x86_64.AppImage" ∧
  os.Open "/cfg/cursor-versions.log"
    (fs (cli.executeSwitch Sim.lib Scenario.up Scenario.led "1.4" Scenario.cfg
           (Sim.start Scenario.twoComponents (Scenario.serves "1.1.0") Scenario.time)).2) =
    Ok ("2024-01-01T12:00:00Z" +:+ Go.tab +:+ "1.4" +:+ Go.tab +:+ Go.tab +:+
        "Cursor-1.4-x86_64.AppImage" +:+ Go.tab +:+ Go.tab +:+ "switch" +:+ Go.nl).
Proof. vm_compute. repeat split. Qed.

(** ** C6: update when the local version is current *)

Section Update.
Context (lib : Go.Lib) (progressText : http.ProgressUpdate → list string).
Context {F N : Type} `{!os.FileSystem F} `{!http.Network N}.

(** Resolving the remote version issues one HEAD request and touches
    nothing else. *)
Lemma GetRemoteVersion_world (u : updater.Updater) (w w1 : World F N)
    (r : result Go.error string) :
  updater.GetRemoteVersion u w = (r, w1) →
  fs w1 = fs w ∧ requests w1 = requests w ++ [HEAD (updater.downloadURL u)] ∧
  stdout w1 = stdout w ∧ stderr w1 = stderr w ∧
  clock w1 = clock w ∧ ticks w1 = ticks w ∧ environ w1 = environ w.
Proof.
  unfold updater.GetRemoteVersion, Head.
  destruct (http.Head (updater.downloadURL u) (net w)) as [[finalURL|err] n].
  - destruct (String.eqb _ ""); intros [= _ <-]; done.
  - intros [= _ <-]. done.
Qed.

Lemma CheckForUpdates_world (u : updater.Updater) (w w1 : World F N)
    (r : bool * string * option Go.error) :
  updater.CheckForUpdates lib u w = (r, w1) →
  fs w1 = fs w ∧ requests w1 = requests w ++ [HEAD (updater.downloadURL u)] ∧
  stdout w1 = stdout w ∧ stderr w1 = stderr w ∧
  clock w1 = clock w ∧ ticks w1 = ticks w ∧ environ w1 = environ w.
Proof.
  unfold updater.CheckForUpdates.
  destruct (updater.GetRemoteVersion u w) as [rr w0] eqn:Er.
  apply GetRemoteVersion_world in Er.
  destruct rr as [remoteVersion|err]; [|by intros [= _ <-]].
  destruct (updater.GetLocalVersion lib u (fs w0)) as [localVersion|err];
    [|by intros [= _ <-]].
  destruct (String.eqb localVersion ""); by intros [= _ <-].
Qed.

(** C6.  When CheckForUpdates answers that no update is needed,
    executeUpdate succeeds and leaves behind the world it started from
    but for one HEAD request (the resolution of the remote version; no
    GET is issued) and one line on the standard output, "Already up to
    date": the file system, hence every artifact, the current reference
    and the ledger, is unchanged.  A successful download, by contrast,
    ends with the line "Updated to version". *)
Theorem executeUpdate_already_current (up : updater.Updater) (led : ledger.Ledger)
    (cfg : config.Config) (w : World F N) :
  (∀ remoteVersion w1,
     updater.CheckForUpdates lib up w = ((false, remoteVersion, None), w1) →
     ∃ localVersion w',
       cli.executeUpdate lib progressText up led cfg w = (None, w') ∧
       fs w' = fs w ∧
       requests w' = requests w ++ [HEAD (updater.downloadURL up)] ∧
       stdout w' =
         stdout w ++ ["✅ Already up to date (" +:+ localVersion +:+ ")." +:+ Go.nl] ∧
       stderr w' = stderr w) ∧
  (∀ remoteVersion w1 w',
     updater.CheckForUpdates lib up w = ((true, remoteVersion, None), w1) →
     cli.executeUpdate lib progressText up led cfg w = (None, w') →
     ∃ out, stdout w' = out ++ ["Updated to version " +:+ remoteVersion +:+ Go.nl]).
Proof.
  split.
  - intros remoteVersion w1 Hc. pose proof (CheckForUpdates_world _ _ _ _ Hc) as Hw.
    destruct Hw as (Hfs & Hrq & Hout & Herr & _).
    unfold cli.executeUpdate. rewrite Hc. cbn [negb].
    eexists _, _. split; [reflexivity |]. simpl. by rewrite Hfs, Hrq, Hout, Herr.
  - intros remoteVersion w1 w' Hc. unfold cli.executeUpdate. rewrite Hc. cbn [negb].
    destruct (updater.DownloadCursor _ _ _) as [[filename|err] w3]; [|discriminate].
    destruct (updater.CalculateSHA256 _ _ _) as [sha256|err]; [|discriminate].
    destruct (on_fs (updater.SwitchToVersion _ _ _) _) as [[err|] w4]; [discriminate |].
    destruct (Now w4) as [now w5].
    destruct (on_fs (ledger.Append _ _ _) w5) as [err w6].
    intros [= <-]. eexists. reflexivity.
Qed.

End Update.

(** C6 on the scenario of the specification: the current reference
    points at 1.0.0 and the remote side serves 1.0.0. *)
Lemma executeUpdate_already_current_witness :
  ∃ localVersion w',
    cli.executeUpdate Sim.lib Scenario.noProgressText Scenario.up Scenario.led Scenario.cfg
      (Sim.start Scenario.installed (Scenario.serves "1.0.0") Scenario.time) = (None, w') ∧
    fs w' = Scenario.installed ∧
    requests w' = [] ++ [HEAD cli.defaultDownloadURL] ∧
    stdout w' = [] ++ ["✅ Already up to date (" +:+ localVersion +:+ ")." +:+ Go.nl] ∧
    stderr w' = [].
Proof.
  refine (proj1 (executeUpdate_already_current Sim.lib Scenario.noProgressText Scenario.up
                   Scenario.led Scenario.cfg
                   (Sim.start Scenario.installed (Scenario.serves "1.0.0") Scenario.time))
            "1.0.0" _ _).
  vm_compute. reflexivity.
Defined.

Example executeUpdate_already_current_run :
  (cli.executeUpdate Sim.lib Scenario.noProgressText Scenario.up Scenario.led Scenario.cfg
     (Sim.start Scenario.installed (Scenario.serves "1.0.0") Scenario.time)).1 = None ∧
  stdout (cli.executeUpdate Sim.lib Scenario.noProgressText Scenario.up Scenario.led
            Scenario.cfg
            (Sim.start Scenario.installed (Scenario.serves "1.0.0") Scenario.time)).2 =
  ["✅ Already up to date (1.0.0)." +:+ Go.nl].
Proof. vm_compute. split; reflexivity. Qed.

(** ** C9: a failing ledger append *)

Section LedgerFailure.
Context (lib : Go.Lib) (progressText : http.ProgressUpdate → list string).
Context {F N : Type} `{!os.FileSystem F} `{!http.Network N}.

Lemma stderr_Printf (text : string) (w : World F N) : stderr (Printf text w) = stderr w.
Proof. done. Qed.

Lemma stderr_updateVersionFile (v : string) (cfg : config.Config) (w : World F N) :
  ∃ more, stderr (cli.updateVersionFile lib v cfg w) = stderr w ++ more.
Proof.
  unfold cli.updateVersionFile, on_fs.
  destruct (os.WriteFile _ _ (fs w)) as [[err|] f]; simpl.
  - by eexists [_].
  - exists []. by rewrite app_nil_r.
Qed.

(** C9.  Once the artifact is downloaded, its digest computed and the
    current reference switched, executeUpdate and executeForce report
    success whatever ledger.Append answers; when Append fails with
    [err], the only trace is the warning "Warning: Failed to log
    update: [err]" on the standard error. *)
Theorem ledger_failure_is_not_fatal (up : updater.Updater) (led : ledger.Ledger)
    (cfg : config.Config) (w : World F N) :
  (∀ remoteVersion w1 filename w3 sha256 w4,
     updater.CheckForUpdates lib up w = ((true, remoteVersion, None), w1) →
     updater.DownloadCursor lib
       (updater.SetProgressCallback up (cli.displayProgress progressText))
       (if String.eqb (environ w1 "UPDATECURSOR_TEST_MODE") "true"
        then Printf ("🔄 Test mode: Simulating download..." +:+ Go.nl)
               (Printf ("Downloading Cursor " +:+ remoteVersion +:+ "..." +:+ Go.nl) w1)
        else Printf ("Downloading Cursor " +:+ remoteVersion +:+ "..." +:+ Go.nl) w1) =
       (Ok filename, w3) →
     updater.CalculateSHA256 lib
       (Go.filepath_Join lib (updater.workDir up) filename) (fs w3) = Ok sha256 →
     on_fs (updater.SwitchToVersion lib
              (updater.SetProgressCallback up (cli.displayProgress progressText))
              remoteVersion) (Printf Go.nl w3) = (None, w4) →
     ∃ w',
       cli.executeUpdate lib progressText up led cfg w = (None, w') ∧
       ∀ err f,
         ledger.Append lib led
           {| ledger.Timestamp := clock w4 (ticks w4); ledger.Version := remoteVersion;
              ledger.InternalID := ""; ledger.Filename := filename;
              ledger.SHA256 := sha256; ledger.Action := "update" |} (fs w4) =
         (Some err, f) →
         ∃ more,
           stderr w' =
           stderr w4 ++ ["Warning: Failed to log update: " +:+ Go.Error err +:+ Go.nl] ++ more) ∧
  (∀ remoteVersion w1 w2 filename w3 sha256 w4,
     updater.GetRemoteVersion up w = (Ok remoteVersion, w1) →
     w2 = match os.Stat (Go.filepath_Join lib (updater.workDir up)
                           (updater.GenerateFileName up remoteVersion)) (fs w1) with
          | Ok _ =>
              let '(err, w) :=
                on_fs (os.Remove (Go.filepath_Join lib (updater.workDir up)
                                    (updater.GenerateFileName up remoteVersion))) w1 in
              match err with
              | Some err =>
                  Eprintf ("Warning: Failed to remove existing file: " +:+ Go.Error err +:+
                           Go.nl) w
              | None => w
              end
          | Err _ => w1
          end →
     updater.DownloadCursor lib
       (updater.SetProgressCallback up (cli.displayProgress progressText))
       (if String.eqb (environ w2 "UPDATECURSOR_TEST_MODE") "true"
        then Printf ("🔄 Test mode: Simulating force download..." +:+ Go.nl)
               (Printf ("Force downloading Cursor " +:+ remoteVersion +:+ "..." +:+ Go.nl) w2)
        else Printf ("Force downloading Cursor " +:+ remoteVersion +:+ "..." +:+ Go.nl) w2) =
       (Ok filename, w3) →
     updater.CalculateSHA256 lib
       (Go.filepath_Join lib (updater.workDir up) filename) (fs w3) = Ok sha256 →
     on_fs (updater.SwitchToVersion lib
              (updater.SetProgressCallback up (cli.displayProgress progressText))
              remoteVersion) (Printf Go.nl w3) = (None, w4) →
     ∃ w',
       cli.executeForce lib progressText up led cfg w = (None, w') ∧
       ∀ err f,
         ledger.Append lib led
           {| ledger.Timestamp := clock w4 (ticks w4); ledger.Version := remoteVersion;
              ledger.InternalID := ""; ledger.Filename := filename;
              ledger.SHA256 := sha256; ledger.Action := "force" |} (fs w4) =
         (Some err, f) →
         ∃ more,
           stderr w' =
           stderr w4 ++ ["Warning: Failed to log update: " +:+ Go.Error err +:+ Go.nl] ++ more).
Proof.
  split.
  - intros remoteVersion w1 filename w3 sha256 w4 Hc Hd Hs Hsw.
    unfold cli.executeUpdate. rewrite Hc. cbn [negb]. cbv zeta.
    rewrite Hd. cbn [updater.WorkDir updater.SetProgressCallback updater.workDir].
    change (fs (Printf Go.nl w3)) with (fs w3). rewrite Hs, Hsw.
    unfold Now, on_fs at 1. cbn [fs].
    destruct (ledger.Append lib led _ (fs w4)) as [aerr f'] eqn:Ea.
    eexists. split; [reflexivity |].
    intros err f [= -> ->]. rewrite stderr_Printf.
    match goal with
    | |- context [cli.updateVersionFile lib ?v ?c ?W] =>
        destruct (stderr_updateVersionFile v c W) as [more Hmore]
    end.
    exists more. rewrite Hmore. simpl. by rewrite <- app_assoc.
  - intros remoteVersion w1 w2 filename w3 sha256 w4 Hr Hw2 Hd Hs Hsw.
    unfold cli.executeForce. rewrite Hr. cbv zeta. unfold updater.WorkDir.
    rewrite <- Hw2, Hd. cbn [updater.SetProgressCallback updater.workDir].
    change (fs (Printf Go.nl w3)) with (fs w3). rewrite Hs, Hsw.
    unfold Now, on_fs at 1. cbn [fs].
    destruct (ledger.Append lib led _ (fs w4)) as [aerr f'] eqn:Ea.
    eexists. split; [reflexivity |].
    intros err f [= -> ->]. rewrite stderr_Printf.
    match goal with
    | |- context [cli.updateVersionFile lib ?v ?c ?W] =>
        destruct (stderr_updateVersionFile v c W) as [more Hmore]
    end.
    exists more. rewrite Hmore. simpl. by rewrite <- app_assoc.
Qed.

End LedgerFailure.

Example executeUpdate_blocked_ledger_run :
  (cli.executeUpdate Sim.lib Scenario.noProgressText Scenario.up Scenario.led Scenario.cfg
     (Sim.start Scenario.ledgerBlocked (Scenario.serves "1.1.0") Scenario.time)).1 = None ∧
  stderr (cli.executeUpdate Sim.lib Scenario.noProgressText Scenario.up Scenario.led
            Scenario.cfg
            (Sim.start Scenario.ledgerBlocked (Scenario.serves "1.1.0") Scenario.time)).2 =
  ["Warning: Failed to log update: failed to open ledger file: " +:+
   "open /cfg/cursor-versions.log: is a directory" +:+ Go.nl] ∧
  stdout (cli.executeUpdate Sim.lib Scenario.noProgressText Scenario.up Scenario.led
            Scenario.cfg
            (Sim.start Scenario.ledgerBlocked (Scenario.serves "1.1.0") Scenario.time)).2 =
  ["Downloading Cursor 1.1.0..." +:+ Go.nl; Go.nl; "Updated to version 1.1.0" +:+ Go.nl] ∧
  requests (cli.executeUpdate Sim.lib Scenario.noProgressText Scenario.up Scenario.led
            Scenario.cfg
            (Sim.start Scenario.ledgerBlocked (Scenario.serves "1.1.0") Scenario.time)).2 =
  [HEAD cli.defaultDownloadURL; HEAD cli.defaultDownloadURL; GET cli.defaultDownloadURL] ∧
  os.Readlink "/d/Cursor.AppImage"
    (fs (cli.executeUpdate Sim.lib Scenario.noProgressText Scenario.up Scenario.led
            Scenario.cfg
            (Sim.start Scenario.ledgerBlocked (Scenario.serves "1.1.0") Scenario.time)).2) =
  Ok "Cursor-1.1.0-x86_64.AppImage".
Proof. vm_compute. repeat split. Qed.

(** C9 on a run: nothing is installed, the remote side serves 1.1.0,
    and the ledger cannot be opened because a directory has its name. *)
Lemma ledger_failure_is_not_fatal_witness :
  ∃ w',
    cli.executeUpdate Sim.lib Scenario.noProgressText Scenario.up Scenario.led Scenario.cfg
      (Sim.start Scenario.ledgerBlocked (Scenario.serves "1.1.0") Scenario.time) =
    (None, w') ∧
    ∃ more,
      stderr w' =
      [] ++ ["Warning: Failed to log update: " +:+
             "failed to open ledger file: open /cfg/cursor-versions.log: is a directory" +:+
             Go.nl] ++ more.
Proof.
  pose (w0 := Sim.start Scenario.ledgerBlocked (Scenario.serves "1.1.0") Scenario.time).
  pose (w1 := (updater.CheckForUpdates Sim.lib Scenario.up w0).2).
  pose (up' := updater.SetProgressCallback Scenario.up
                 (cli.displayProgress Scenario.noProgressText)).
  pose (w3 := (updater.DownloadCursor Sim.lib up'
                 (Printf ("Downloading Cursor " +:+ "1.1.0" +:+ "..." +:+ Go.nl) w1)).2).
  pose (w4 := (on_fs (updater.SwitchToVersion Sim.lib up' "1.1.0") (Printf Go.nl w3)).2).
  destruct (proj1 (ledger_failure_is_not_fatal Sim.lib Scenario.noProgressText Scenario.up
                     Scenario.led Scenario.cfg w0)
              "1.1.0" w1 "Cursor-1.1.0-x86_64.AppImage" w3
              "2b331cf690556f53f6b3c31ccaf83be1839526c81ed101797e7177c8d20c2c01" w4)
    as (w' & Hrun & Hwarn).
  - vm_compute. reflexivity.
  - vm_compute. reflexivity.
  - vm_compute. reflexivity.
  - vm_compute. reflexivity.
  - exists w'. split; [exact Hrun |].
    destruct (Hwarn (Go.Errorf ("failed to open ledger file: " +:+
                                "open /cfg/cursor-versions.log: is a directory"))
                (fs w4)) as [more Hmore].
    + vm_compute. reflexivity.
    + exists more. rewrite Hmore. vm_compute. reflexivity.
Defined.

(** ** C7: reading the ledger *)

Section ReadLedger.
Context (lib : Go.Lib) {F : Type} `{!os.FileSystem F}.

Lemma readLines_omap (lines : list string) :
  ledger.readLines lib lines = omap (entryOfLine lib) lines.
Proof.
  induction lines as [|text rest IH]; [done |].
  cbn [ledger.readLines omap list_omap]. unfold entryOfLine at 1, ledger.parseEntry.
  destruct (String.eqb_spec (Go.TrimSpace lib text) "") as [->|Hne]; [exact IH |].
  destruct (Go.Split (Go.TrimSpace lib text) Go.TAB)
    as [|p0 [|p1 [|p2 [|p3 [|p4 [|p5 [|p6 l]]]]]]]; try exact IH.
  destruct (Go.time_Parse_RFC3339 lib p0); [by rewrite IH | exact IH].
Qed.

Lemma entryOfLine_Some (text : string) (e : ledger.Entry) :
  entryOfLine lib text = Some e ↔
  ∃ p0 p1 p2 p3 p4 p5 timestamp,
    Go.Split (Go.TrimSpace lib text) Go.TAB = [p0; p1; p2; p3; p4; p5] ∧
    Go.time_Parse_RFC3339 lib p0 = Ok timestamp ∧
    e = {| ledger.Timestamp := timestamp; ledger.Version := p1; ledger.InternalID := p2;
           ledger.Filename := p3; ledger.SHA256 := p4; ledger.Action := p5 |}.
Proof.
  unfold entryOfLine. split.
  - destruct (Go.Split (Go.TrimSpace lib text) Go.TAB)
      as [|p0 [|p1 [|p2 [|p3 [|p4 [|p5 [|p6 l]]]]]]]; try discriminate.
    destruct (Go.time_Parse_RFC3339 lib p0) as [timestamp|] eqn:Et; [|discriminate].
    intros [= <-]. by exists p0, p1, p2, p3, p4, p5, timestamp.
  - intros (p0 & p1 & p2 & p3 & p4 & p5 & timestamp & -> & -> & ->). done.
Qed.

Lemma scanTokens_fit (lines : list string) :
  forallb (λ line, Z.of_nat (String.length line) <? Go.MaxScanTokenSize) lines = true →
  Go.scanTokens lines = (map Go.dropCR lines, None).
Proof.
  induction lines as [|line rest IH]; [done |]. cbn [forallb Go.scanTokens map].
  intros [Hl Hr]%andb_true_iff. rewrite (IH Hr).
  apply Z.ltb_lt in Hl. destruct (Z.leb_spec Go.MaxScanTokenSize (Z.of_nat (String.length line)));
    [lia | done].
Qed.

(** C7 (as the code has it).  ReadAll answers the empty sequence, not
    an error, when os.Stat reports the ledger file as missing.
    Otherwise, on a file that opens and whose lines all fit the
    scanner's buffer (fewer than 64 KiB each), it answers without error
    the entries of the lines, in order, where a line gives an entry
    exactly when, trimmed of surrounding white space, it has six
    tab-separated fields the first of which parses as a time: any other
    line is skipped, and the lines before and after it still give their
    entries. *)
Theorem ReadAll_skips_malformed_lines (l : ledger.Ledger) (f : F) :
  (∀ err, os.Stat (ledger.filepath l) f = Err err → Go.IsNotExist err = true →
     ledger.ReadAll lib l f = Ok []) ∧
  (∀ content,
     (∀ err, os.Stat (ledger.filepath l) f = Err err → Go.IsNotExist err = false) →
     os.Open (ledger.filepath l) f = Ok content →
     linesFit content = true →
     ledger.ReadAll lib l f =
     Ok (omap (entryOfLine lib) (map Go.dropCR (Go.rawLines content)))) ∧
  (∀ before text after,
     omap (entryOfLine lib) (before ++ text :: after) =
     omap (entryOfLine lib) before ++
     match entryOfLine lib text with Some e => [e] | None => [] end ++
     omap (entryOfLine lib) after) ∧
  (∀ text e,
     entryOfLine lib text = Some e ↔
     ∃ p0 p1 p2 p3 p4 p5 timestamp,
       Go.Split (Go.TrimSpace lib text) Go.TAB = [p0; p1; p2; p3; p4; p5] ∧
       Go.time_Parse_RFC3339 lib p0 = Ok timestamp ∧
       e = {| ledger.Timestamp := timestamp; ledger.Version := p1; ledger.InternalID := p2;
              ledger.Filename := p3; ledger.SHA256 := p4; ledger.Action := p5 |}).
Proof.
  split; [|split; [|split]].
  - intros err Es En. unfold ledger.ReadAll. by rewrite Es, En.
  - intros content Hex Ho Hfit. unfold ledger.ReadAll. rewrite Ho.
    assert (match os.Stat (ledger.filepath l) f with
            | Ok _ => false
            | Err err => Go.IsNotExist err
            end = false) as ->.
    { destruct (os.Stat (ledger.filepath l) f) as [|err] eqn:Es; [done | by apply Hex]. }
    unfold Go.ScanLines. rewrite (scanTokens_fit _ Hfit). by rewrite readLines_omap.
  - intros before text after. rewrite omap_app. cbn [omap list_omap].
    by destruct (entryOfLine lib text).
  - apply entryOfLine_Some.
Qed.

End ReadLedger.

(** C7 on two states: no ledger file; a ledger file with three
    malformed lines between two good ones. *)
Lemma ReadAll_skips_malformed_lines_witness :
  ledger.ReadAll Sim.lib Scenario.led Scenario.fresh = Ok [] ∧
  ledger.ReadAll Sim.lib Scenario.led (Scenario.ledgerWith Scenario.corrupted) =
  Ok [Scenario.entry1; Scenario.entry2].
Proof.
  split.
  - refine (proj1 (ReadAll_skips_malformed_lines Sim.lib Scenario.led Scenario.fresh)
              (Sim.ENOENT "stat" "/cfg/cursor-versions.log") _ _); vm_compute; reflexivity.
  - refine (eq_trans
              (proj1 (proj2 (ReadAll_skips_malformed_lines Sim.lib Scenario.led
                               (Scenario.ledgerWith Scenario.corrupted)))
                 Scenario.corrupted _ _ _) _).
    + intros err. vm_compute. discriminate.
    + vm_compute. reflexivity.
    + vm_compute. reflexivity.
    + vm_compute. reflexivity.
Defined.

(** C7 (as stated) fails: the first line below has seven tab-separated
    fields, the last one empty, and is returned as an entry; the second
    has six, the last one empty, with a time that parses, and is
    skipped.  ReadAll trims every line before it counts the fields. *)
Lemma ReadAll_trailing_tab_counterexample :
  Go.rawLines Scenario.trailingTabs =
    [ Scenario.tsv "2024-01-01T12:00:00Z" "1.0.0" "12345" "Cursor-1.0.0-x86_64.AppImage"
        "abc123def456" "download" +:+ Go.tab;
      Scenario.tsv "2024-01-02T12:00:00Z" "1.1.0" "67890" "Cursor-1.1.0-x86_64.AppImage"
        "def456ghi789" "" ] ∧
  map (spec_wellFormedLine Sim.lib) (Go.rawLines Scenario.trailingTabs) = [false; true] ∧
  ledger.ReadAll Sim.lib Scenario.led (Scenario.ledgerWith Scenario.trailingTabs) =
  Ok [Scenario.entry1].
Proof. vm_compute. repeat split. Qed.

(** ** C10: the latest entry *)

(** The scan keeps the first entry of greatest timestamp. *)
Lemma latestOf_scan (rest pre : list ledger.Entry) (cur : ledger.Entry) (i : nat) :
  pre !! i = Some cur →
  (∀ j e, pre !! j = Some e → ledger.Timestamp e ≤ ledger.Timestamp cur) →
  (∀ j e, (j < i)%nat → pre !! j = Some e → ledger.Timestamp e < ledger.Timestamp cur) →
  ∃ k, (pre ++ rest) !! k = Some (ledger.latestOf cur rest) ∧
       (∀ j e, (pre ++ rest) !! j = Some e →
               ledger.Timestamp e ≤ ledger.Timestamp (ledger.latestOf cur rest)) ∧
       (∀ j e, (j < k)%nat → (pre ++ rest) !! j = Some e →
               ledger.Timestamp e < ledger.Timestamp (ledger.latestOf cur rest)).
Proof.
  revert pre cur i. induction rest as [|x rest IH]; intros pre cur i Hi Hmax Hfirst.
  - rewrite app_nil_r. exists i. eauto.
  - unfold ledger.latestOf. cbn [fold_left]. fold (ledger.latestOf
      (if Go.After (ledger.Timestamp x) (ledger.Timestamp cur) then x else cur) rest).
    replace (pre ++ x :: rest) with ((pre ++ [x]) ++ rest) by (by rewrite <- app_assoc).
    unfold Go.After. destruct (Z.gtb_spec (ledger.Timestamp x) (ledger.Timestamp cur)) as [Hgt|Hle].
    + apply (IH (pre ++ [x]) x (length pre)).
      * rewrite lookup_app_r by lia. by rewrite Nat.sub_diag.
      * intros j e Hj. apply lookup_app_Some in Hj as [Hj | [_ Hj]].
        -- specialize (Hmax j e Hj). lia.
        -- destruct (j - length pre)%nat; [|done]. injection Hj as <-. lia.
      * intros j e Hlt Hj. rewrite lookup_app_l in Hj by lia.
        specialize (Hmax j e Hj). lia.
    + apply (IH (pre ++ [x]) cur i).
      * apply lookup_app_l_Some. exact Hi.
      * intros j e Hj. apply lookup_app_Some in Hj as [Hj | [_ Hj]].
        -- by apply (Hmax j).
        -- destruct (j - length pre)%nat; [|done]. injection Hj as <-. lia.
      * intros j e Hlt Hj. apply lookup_lt_Some in Hi.
        rewrite lookup_app_l in Hj by lia. by apply (Hfirst j).
Qed.

Section Latest.
Context (lib : Go.Lib) {F : Type} `{!os.FileSystem F}.

(** C10.  When ReadAll gives at least one entry, GetLatestVersion
    answers the entry at some position [i] of that sequence such that no
    entry has a later timestamp and every entry before position [i] has
    a strictly earlier one: the first of the entries of greatest
    timestamp. *)
Theorem GetLatestVersion_first_of_latest (l : ledger.Ledger) (f : F)
    (entries : list ledger.Entry) :
  ledger.ReadAll lib l f = Ok entries →
  entries ≠ [] →
  ∃ (i : nat) (latest : ledger.Entry),
    ledger.GetLatestVersion lib l f = Ok latest ∧
    entries !! i = Some latest ∧
    (∀ j e, entries !! j = Some e → ledger.Timestamp e ≤ ledger.Timestamp latest) ∧
    (∀ j e, (j < i)%nat → entries !! j = Some e →
            ledger.Timestamp e < ledger.Timestamp latest).
Proof.
  intros Hread Hne. unfold ledger.GetLatestVersion. rewrite Hread.
  destruct entries as [|first rest]; [done |].
  destruct (latestOf_scan rest [first] first 0) as (k & Hk & Hmax & Hfirst).
  - done.
  - intros [|j] e Hj; [|done]. injection Hj as <-. lia.
  - intros j e Hlt. lia.
  - exists k, (ledger.latestOf first rest). eauto.
Qed.

End Latest.

(** C10 on a ledger whose second and third entries share the greatest
    timestamp: the second is the answer. *)
Lemma GetLatestVersion_first_of_latest_witness :
  ∃ (i : nat) (latest : ledger.Entry),
    ledger.GetLatestVersion Sim.lib Scenario.led (Scenario.ledgerWith Scenario.threeEntries) =
      Ok latest ∧
    [Scenario.entry1; Scenario.entry2; Scenario.entry3] !! i = Some latest ∧
    (∀ j e, [Scenario.entry1; Scenario.entry2; Scenario.entry3] !! j = Some e →
            ledger.Timestamp e ≤ ledger.Timestamp latest) ∧
    (∀ j e, (j < i)%nat →
            [Scenario.entry1; Scenario.entry2; Scenario.entry3] !! j = Some e →
            ledger.Timestamp e < ledger.Timestamp latest).
Proof.
  refine (GetLatestVersion_first_of_latest Sim.lib Scenario.led
            (Scenario.ledgerWith Scenario.threeEntries)
            [Scenario.entry1; Scenario.entry2; Scenario.entry3] _ _).
  - vm_compute. reflexivity.
  - discriminate.
Defined.

Example GetLatestVersion_tie :
  ledger.GetLatestVersion Sim.lib Scenario.led (Scenario.ledgerWith Scenario.threeEntries) =
  Ok Scenario.entry2.
Proof. vm_compute. reflexivity. Qed.

(** ** The reference file system: appending to a file *)

Section SimFacts.
Import Sim.

Lemma grows_refl (fs : gmap string Node) : grows fs fs.
Proof. intros p. by left. Qed.

Lemma grows_trans (fs1 fs2 fs3 : gmap string Node) :
  grows fs1 fs2 → grows fs2 fs3 → grows fs1 fs3.
Proof.
  intros H12 H23 p. destruct (H12 p) as [E12|[N1 E2]], (H23 p) as [E23|[N2 E3]].
  - left. congruence.
  - right. split; congruence.
  - right. split; congruence.
  - congruence.
Qed.

Lemma grows_mkdir (fs : gmap string Node) (path : string) :
  fs !! path = None ∨ fs !! path = Some Folder → grows fs (<[path := Folder]> fs).
Proof.
  intros Hp p. destruct (decide (path = p)) as [<-|Hne].
  - rewrite lookup_insert_eq. destruct Hp as [Hp|Hp]; [by right | by left].
  - left. by rewrite lookup_insert_ne.
Qed.

Lemma mkdirAll_grows (fuel : nat) (path : string) (fs fs' : gmap string Node)
    (err : option Go.error) :
  mkdirAll fuel path fs = (err, fs') → grows fs fs'.
Proof.
  revert path fs fs' err. induction fuel as [|fuel IH]; intros path fs fs' err;
    cbn [mkdirAll].
  - destruct (resolve maxLinks "stat" path fs) as [[q [d|t|]]|e];
      try (intros [= _ <-]; apply grows_refl).
    destruct (fs !! path); intros [= _ <-]; apply grows_refl.
  - destruct (resolve maxLinks "stat" path fs) as [[q [d|t|]]|e];
      try (intros [= _ <-]; apply grows_refl).
    destruct (fs !! path) eqn:Ep; [intros [= _ <-]; apply grows_refl |].
    destruct (String.eqb (Dir path) path).
    + intros [= _ <-]. apply grows_mkdir. by left.
    + destruct (mkdirAll fuel (Dir path) fs) as [[e'|] fs1] eqn:Em.
      * intros [= _ <-]. by apply IH in Em.
      * intros [= _ <-]. apply IH in Em. eapply grows_trans; [exact Em |].
        apply grows_mkdir. destruct (Em path) as [E|[_ E]]; [left; congruence | by right].
Qed.

Lemma resolve_grows (fs fs' : gmap string Node) (fuel : nat) (op path : string)
    (x : string * Node) :
  grows fs fs' → resolve fuel op path fs = Ok x → resolve fuel op path fs' = Ok x.
Proof.
  intros Hg. revert path. induction fuel as [|fuel IH]; intros path; simpl.
  - destruct (Hg path) as [->|[-> _]]; [done | discriminate].
  - destruct (Hg path) as [->|[-> _]]; [|discriminate].
    destruct (fs !! path) as [[d|t|]|]; try done. apply IH.
Qed.

(** A file found after the growth was there before. *)
Lemma resolve_grows_file (fs fs' : gmap string Node) (fuel : nat) (op path q d : string) :
  grows fs fs' → resolve fuel op path fs' = Ok (q, File d) →
  resolve fuel op path fs = Ok (q, File d).
Proof.
  intros Hg. revert path. induction fuel as [|fuel IH]; intros path; simpl.
  - destruct (Hg path) as [->|[_ ->]]; [done | discriminate].
  - destruct (Hg path) as [->|[_ ->]]; [|discriminate].
    destruct (fs !! path) as [[d'|t|]|]; try done. apply IH.
Qed.

Lemma resolve_lookup (fs : gmap string Node) (fuel : nat) (op path q : string) (node : Node) :
  resolve fuel op path fs = Ok (q, node) →
  fs !! q = Some node ∧ ∀ t, node ≠ Link t.
Proof.
  revert path. induction fuel as [|fuel IH]; intros path; simpl.
  - destruct (fs !! path) as [[d|t|]|] eqn:E; try discriminate; intros [= <- <-]; by rewrite E.
  - destruct (fs !! path) as [[d|t|]|] eqn:E; try discriminate;
      try (intros [= <- <-]; by rewrite E). apply IH.
Qed.

(** The answers of [resolve] do not depend on the name of the call. *)
Lemma resolve_op (fs : gmap string Node) (fuel : nat) (op op' path : string) :
  match resolve fuel op path fs with
  | Ok x => resolve fuel op' path fs = Ok x
  | Err e => ∃ e', resolve fuel op' path fs = Err e' ∧ Go.IsNotExist e' = Go.IsNotExist e
  end.
Proof.
  revert path. induction fuel as [|fuel IH]; intros path; simpl.
  - destruct (fs !! path) as [[d|t|]|]; try done; by eexists.
  - destruct (fs !! path) as [[d|t|]|]; try done; [apply IH | by eexists].
Qed.

Lemma resolve_write (fs : gmap string Node) (fuel : nat) (op path q old new : string) :
  resolve fuel op path fs = Ok (q, File old) →
  resolve fuel op path (<[q := File new]> fs) = Ok (q, File new).
Proof.
  intros Hr. pose proof (resolve_lookup _ _ _ _ _ _ Hr) as [Hq _].
  revert path Hr. induction fuel as [|fuel IH]; intros path; simpl.
  - destruct (fs !! path) as [[d|t|]|] eqn:E; try discriminate.
    intros [= <- _]. by rewrite lookup_insert_eq.
  - destruct (fs !! path) as [[d|t|]|] eqn:E; try discriminate.
    + intros [= <- _]. by rewrite lookup_insert_eq.
    + intros Hr. rewrite lookup_insert_ne by congruence. rewrite E. by apply IH.
Qed.

End SimFacts.

Section SimAppend.
Import Sim.
Context (lib : Go.Lib).

Lemma Stat_resolve (path : string) (fs : gmap string Node) :
  os.Stat path fs =
  match resolve maxLinks "stat" path fs with
  | Ok (_, node) => Ok (info node)
  | Err err => Err err
  end.
Proof. done. Qed.

Lemma Open_resolve (path : string) (fs : gmap string Node) :
  os.Open path fs =
  match resolve maxLinks "open" path fs with
  | Ok (_, File data) => Ok data
  | Ok _ => Err (EISDIR "read" path)
  | Err err => Err err
  end.
Proof. done. Qed.

(** Appending to a ledger file that exists adds the line at its end. *)
Lemma Append_existing (l : ledger.Ledger) (e : ledger.Entry) (fs fs' : gmap string Node)
    (q old : string) :
  resolve maxLinks "open" (ledger.filepath l) fs = Ok (q, File old) →
  ledger.Append lib l e fs = (None, fs') →
  resolve maxLinks "open" (ledger.filepath l) fs' =
  Ok (q, File (old +:+ ledger.formatEntry lib e)).
Proof.
  intros Hr. unfold ledger.Append, os.MkdirAll, os.OpenFile, os.Write, fileSystem, MkdirAll.
  destruct (mkdirAll _ _ fs) as [[err|] fs1] eqn:Em; [discriminate |].
  apply mkdirAll_grows in Em. pose proof (resolve_grows _ _ _ _ _ _ Em Hr) as Hr1.
  unfold OpenFile. rewrite Hr1. cbn [os.O_TRUNC]. unfold Write. cbn [os.path os.flags os.O_APPEND].
  destruct (resolve_lookup _ _ _ _ _ _ Hr1) as [-> _].
  intros [= <-]. by apply resolve_write with (old := old).
Qed.

(** The first append creates the ledger file with the line in it. *)
Lemma Append_missing (l : ledger.Ledger) (e : ledger.Entry) (fs fs' : gmap string Node)
    (err : Go.error) :
  os.Stat (ledger.filepath l) fs = Err err →
  ledger.Append lib l e fs = (None, fs') →
  resolve maxLinks "open" (ledger.filepath l) fs' =
  Ok (ledger.filepath l, File (ledger.formatEntry lib e)).
Proof.
  rewrite Stat_resolve. intros Hs.
  unfold ledger.Append, os.MkdirAll, os.OpenFile, os.Write, fileSystem, MkdirAll.
  destruct (mkdirAll _ _ fs) as [[err1|] fs1] eqn:Em; [discriminate |].
  apply mkdirAll_grows in Em. unfold OpenFile.
  destruct (resolve maxLinks "open" (ledger.filepath l) fs1) as [[q [d|t|]]|err2] eqn:Hr1.
  - apply (resolve_grows_file _ _ _ _ _ _ _ Em) in Hr1.
    pose proof (resolve_op fs maxLinks "open" "stat" (ledger.filepath l)) as Hop.
    rewrite Hr1 in Hop. rewrite Hop in Hs. discriminate.
  - discriminate.
  - discriminate.
  - destruct (_ && _); [|discriminate].
    destruct (fs1 !! ledger.filepath l) eqn:E1; [discriminate |].
    unfold Write. cbn [os.path os.flags os.O_APPEND]. rewrite lookup_insert_eq.
    intros [= <-]. rewrite insert_insert_eq. unfold maxLinks. cbn [resolve].
    by rewrite lookup_insert_eq.
Qed.

Lemma appendAll_existing (l : ledger.Ledger) (entries : list ledger.Entry)
    (fs fs' : gmap string Node) (q old : string) :
  resolve maxLinks "open" (ledger.filepath l) fs = Ok (q, File old) →
  appendAll lib l entries fs = (None, fs') →
  resolve maxLinks "open" (ledger.filepath l) fs' =
  Ok (q, File (old +:+ String.concat "" (map (ledger.formatEntry lib) entries))).
Proof.
  revert fs old. induction entries as [|e rest IH]; intros fs old Hr; cbn [appendAll map].
  - intros [= <-]. simpl. by rewrite sapp_nil_r.
  - destruct (ledger.Append lib l e fs) as [[err|] fs1] eqn:Ea; [discriminate |].
    intros Hrest. pose proof (Append_existing _ _ _ _ _ _ Hr Ea) as Hr1.
    rewrite (IH _ _ Hr1 Hrest). rewrite sapp_assoc. do 3 f_equal.
    destruct rest; simpl; [by rewrite sapp_nil_r | done].
Qed.

End SimAppend.

(** ** Reading back the lines of entries *)

Section Lines.
Context (lib : Go.Lib).

Lemma formatEntry_line (e : ledger.Entry) :
  ledger.formatEntry lib e = entryLine lib e +:+ Go.nl.
Proof. unfold ledger.formatEntry, entryLine. by rewrite !sapp_assoc. Qed.

Lemma plainField_inv (s : string) :
  plainField s = true → has_byte Go.TAB s = false ∧ has_byte Go.LF s = false.
Proof.
  unfold plainField. rewrite andb_true_iff, !negb_true_iff. done.
Qed.

Lemma solidByte_inv (c : ascii) :
  solidByte c = true → Go.notASCII c = false ∧ Go.asciiSpace c = false ∧ c ≠ Go.CR.
Proof.
  unfold solidByte. rewrite andb_true_iff, !negb_true_iff. intros [H1 H2].
  repeat split; [done.. |]. intros ->. vm_compute in H2. discriminate H2.
Qed.

Lemma endsSolid_app (a b : string) : endsSolid b = true → endsSolid (a +:+ b) = true.
Proof.
  intros Hb. induction a as [|c a IH]; [done |]. cbn [String.append endsSolid].
  destruct (a +:+ b) eqn:E; [discriminate IH | exact IH].
Qed.

Lemma endsSolid_rev (s : string) :
  endsSolid s = true →
  ∃ c rest, rev (list_ascii_of_string s) = c :: rest ∧ solidByte c = true.
Proof.
  induction s as [|a s IH]; [discriminate |]. cbn [endsSolid list_ascii_of_string rev].
  destruct s as [|b s].
  - intros Ha. by exists a, [].
  - intros (c & rest & -> & Hc)%IH. by exists c, (rest ++ [a]).
Qed.

Lemma dropCR_solid (s : string) : endsSolid s = true → Go.dropCR s = s.
Proof.
  induction s as [|a s IH]; [done |]. cbn [endsSolid Go.dropCR].
  destruct s as [|b s].
  - intros [_ [_ Ha]]%solidByte_inv. by apply Ascii.eqb_neq in Ha as ->.
  - intros Hs. by rewrite (IH Hs).
Qed.

Lemma TrimSpace_solid (s : string) :
  startsSolid s = true → endsSolid s = true → Go.TrimSpace lib s = s.
Proof.
  destruct s as [|a s]; [discriminate |]. cbn [startsSolid Go.TrimSpace].
  intros (-> & -> & _)%solidByte_inv (c & rest & Hrev & Hc)%endsSolid_rev.
  rewrite Hrev. cbn [Go.trimSpaceRight].
  apply solidByte_inv in Hc as (-> & -> & _).
  rewrite <- Hrev, rev_involutive. apply string_of_list_ascii_of_string.
Qed.

Lemma Split_entryLine (e : ledger.Entry) :
  plainField (Go.time_Format_RFC3339 lib (ledger.Timestamp e)) = true →
  plainField (ledger.Version e) = true → plainField (ledger.InternalID e) = true →
  plainField (ledger.Filename e) = true → plainField (ledger.SHA256 e) = true →
  plainField (ledger.Action e) = true →
  Go.Split (entryLine lib e) Go.TAB =
    [ Go.time_Format_RFC3339 lib (ledger.Timestamp e); ledger.Version e;
      ledger.InternalID e; ledger.Filename e; ledger.SHA256 e; ledger.Action e ] ∧
  has_byte Go.LF (entryLine lib e) = false.
Proof.
  intros [T0 L0]%plainField_inv [T1 L1]%plainField_inv [T2 L2]%plainField_inv
         [T3 L3]%plainField_inv [T4 L4]%plainField_inv [T5 L5]%plainField_inv.
  unfold entryLine, Go.tab. cbn [String.append]. split.
  - rewrite !Split_app by done. by rewrite Split_no_sep.
  - repeat (rewrite has_byte_app; cbn [has_byte]).
    rewrite L0, L1, L2, L3, L4, L5. done.
Qed.

Lemma survives_inv (e : ledger.Entry) :
  survives lib e = true →
  Go.Split (entryLine lib e) Go.TAB =
    [ Go.time_Format_RFC3339 lib (ledger.Timestamp e); ledger.Version e;
      ledger.InternalID e; ledger.Filename e; ledger.SHA256 e; ledger.Action e ] ∧
  has_byte Go.LF (entryLine lib e) = false ∧
  startsSolid (entryLine lib e) = true ∧
  endsSolid (entryLine lib e) = true ∧
  Go.time_Parse_RFC3339 lib (Go.time_Format_RFC3339 lib (ledger.Timestamp e)) =
    Ok (ledger.Timestamp e) ∧
  (Z.of_nat (String.length (entryLine lib e)) <? Go.MaxScanTokenSize) = true.
Proof.
  unfold survives. rewrite !andb_true_iff.
  intros [[[[[[[[[P0 P1] P2] P3] P4] P5] Hs] He] Hp] Hl].
  destruct (Split_entryLine e P0 P1 P2 P3 P4 P5) as [Hsplit Hlf].
  repeat split; try done.
  - unfold entryLine. by destruct (Go.time_Format_RFC3339 lib (ledger.Timestamp e)).
  - unfold entryLine. rewrite <- !sapp_assoc. by apply endsSolid_app.
  - destruct (Go.time_Parse_RFC3339 lib _) as [t|]; [|done]. by apply Z.eqb_eq in Hp as ->.
Qed.

Lemma entryOfLine_entryLine (e : ledger.Entry) :
  survives lib e = true → entryOfLine lib (entryLine lib e) = Some e.
Proof.
  intros (Hsplit & _ & Hs & He & Hp & _)%survives_inv.
  unfold entryOfLine. rewrite (TrimSpace_solid _ Hs He), Hsplit, Hp. by destruct e.
Qed.

(** The file of the lines of [entries] splits back into these lines. *)
Lemma Split_lines (entries : list ledger.Entry) :
  forallb (survives lib) entries = true →
  Go.Split (String.concat "" (map (ledger.formatEntry lib) entries)) Go.LF =
  map (entryLine lib) entries ++ [""].
Proof.
  induction entries as [|e rest IH]; [done |]. cbn [forallb map].
  intros [(_ & Hlf & _)%survives_inv Hr]%andb_true_iff.
  replace (String.concat "" (ledger.formatEntry lib e :: map (ledger.formatEntry lib) rest))
    with (entryLine lib e +:+
          String Go.LF (String.concat "" (map (ledger.formatEntry lib) rest))).
  - rewrite (Split_app _ _ _ Hlf), (IH Hr). done.
  - rewrite formatEntry_line. destruct rest; simpl; rewrite ?sapp_assoc; done.
Qed.

Lemma rawLines_lines (entries : list ledger.Entry) :
  forallb (survives lib) entries = true →
  Go.rawLines (String.concat "" (map (ledger.formatEntry lib) entries)) =
  map (entryLine lib) entries.
Proof.
  intros Hs. unfold Go.rawLines. rewrite (Split_lines _ Hs).
  rewrite last_last. cbn [String.eqb]. by rewrite removelast_last.
Qed.

Lemma lines_fit (entries : list ledger.Entry) :
  forallb (survives lib) entries = true →
  forallb (λ line, Z.of_nat (String.length line) <? Go.MaxScanTokenSize)
    (map (entryLine lib) entries) = true ∧
  map Go.dropCR (map (entryLine lib) entries) = map (entryLine lib) entries ∧
  omap (entryOfLine lib) (map (entryLine lib) entries) = entries.
Proof.
  induction entries as [|e rest IH]; [done |]. cbn [forallb map omap list_omap].
  intros [He Hr]%andb_true_iff. destruct (IH Hr) as (IH1 & IH2 & IH3).
  rewrite (entryOfLine_entryLine _ He).
  apply survives_inv in He as (_ & _ & _ & He & _ & Hl).
  rewrite Hl, IH1, IH2, (dropCR_solid _ He). cbn. by rewrite IH3.
Qed.

(** *** Entries whose timestamp lies between two seconds *)

Lemma survives_readable (e : ledger.Entry) :
  survives lib e = true → readable lib e = true.
Proof.
  unfold survives, readable. rewrite !andb_true_iff.
  intros [[[[[[[[[P0 P1] P2] P3] P4] P5] Hs] He] Hp] Hl].
  repeat split; try done. by destruct (Go.time_Parse_RFC3339 lib _).
Qed.

Lemma readable_inv (e : ledger.Entry) :
  readable lib e = true →
  Go.Split (entryLine lib e) Go.TAB =
    [ Go.time_Format_RFC3339 lib (ledger.Timestamp e); ledger.Version e;
      ledger.InternalID e; ledger.Filename e; ledger.SHA256 e; ledger.Action e ] ∧
  has_byte Go.LF (entryLine lib e) = false ∧
  startsSolid (entryLine lib e) = true ∧
  endsSolid (entryLine lib e) = true ∧
  (∃ t, Go.time_Parse_RFC3339 lib (Go.time_Format_RFC3339 lib (ledger.Timestamp e)) = Ok t) ∧
  (Z.of_nat (String.length (entryLine lib e)) <? Go.MaxScanTokenSize) = true.
Proof.
  unfold readable. rewrite !andb_true_iff.
  intros [[[[[[[[[P0 P1] P2] P3] P4] P5] Hs] He] Hp] Hl].
  destruct (Split_entryLine e P0 P1 P2 P3 P4 P5) as [Hsplit Hlf].
  split; [done |]. split; [done |]. split; [|split; [|split; [|done]]].
  - unfold entryLine. by destruct (Go.time_Format_RFC3339 lib (ledger.Timestamp e)).
  - unfold entryLine. rewrite <- !sapp_assoc. by apply endsSolid_app.
  - destruct (Go.time_Parse_RFC3339 lib _) as [t|]; [by exists t | done].
Qed.

Lemma entryOfLine_readable (e : ledger.Entry) :
  readable lib e = true →
  ∃ r, entryOfLine lib (entryLine lib e) = Some r ∧ readsBackAs lib e r.
Proof.
  intros (Hsplit & _ & Hs & He & [t Hp] & _)%readable_inv.
  unfold entryOfLine. rewrite (TrimSpace_solid _ Hs He), Hsplit, Hp.
  eexists. split; [reflexivity |]. by repeat split.
Qed.

Lemma Split_lines_plain (entries : list ledger.Entry) :
  Forall (λ e, has_byte Go.LF (entryLine lib e) = false) entries →
  Go.Split (String.concat "" (map (ledger.formatEntry lib) entries)) Go.LF =
  map (entryLine lib) entries ++ [""].
Proof.
  induction 1 as [|e rest Hlf _ IH]; [done |]. cbn [map].
  replace (String.concat "" (ledger.formatEntry lib e :: map (ledger.formatEntry lib) rest))
    with (entryLine lib e +:+
          String Go.LF (String.concat "" (map (ledger.formatEntry lib) rest))).
  - by rewrite (Split_app _ _ _ Hlf), IH.
  - rewrite formatEntry_line. destruct rest; simpl; rewrite ?sapp_assoc; done.
Qed.

Lemma rawLines_lines_plain (entries : list ledger.Entry) :
  Forall (λ e, has_byte Go.LF (entryLine lib e) = false) entries →
  Go.rawLines (String.concat "" (map (ledger.formatEntry lib) entries)) =
  map (entryLine lib) entries.
Proof.
  intros Hs. unfold Go.rawLines. rewrite (Split_lines_plain _ Hs).
  rewrite last_last. cbn [String.eqb]. by rewrite removelast_last.
Qed.

Lemma readable_lines (entries : list ledger.Entry) :
  forallb (readable lib) entries = true →
  Forall (λ e, has_byte Go.LF (entryLine lib e) = false) entries ∧
  forallb (λ line, Z.of_nat (String.length line) <? Go.MaxScanTokenSize)
    (map (entryLine lib) entries) = true ∧
  map Go.dropCR (map (entryLine lib) entries) = map (entryLine lib) entries ∧
  ∃ read,
    omap (entryOfLine lib) (map (entryLine lib) entries) = read ∧
    Forall2 (readsBackAs lib) entries read.
Proof.
  induction entries as [|e rest IH].
  - intros _. repeat split; [by constructor |]. exists []. split; [done | constructor].
  - cbn [forallb]. intros [He Hr]%andb_true_iff.
    destruct (IH Hr) as (IH0 & IH1 & IH2 & read & IH3 & IH4).
    destruct (entryOfLine_readable e He) as (r & Hr1 & Hr2).
    apply readable_inv in He as (_ & Hlf & _ & Hend & _ & Hl).
    split; [by constructor |]. cbn [forallb map omap list_omap].
    rewrite Hl, IH1, IH2, (dropCR_solid _ Hend), Hr1, IH3.
    split; [done |]. split; [done |]. exists (r :: read). split; [done | by constructor].
Qed.

End Lines.

(** ** C8: the ledger round trip *)

Section RoundTripFacts.
Import Sim.
Context (lib : Go.Lib).

Lemma ReadAll_lines (l : ledger.Ledger) (fs : gmap string Node) (q : string)
    (entries : list ledger.Entry) :
  forallb (survives lib) entries = true →
  resolve maxLinks "open" (ledger.filepath l) fs =
    Ok (q, File (String.concat "" (map (ledger.formatEntry lib) entries))) →
  ledger.ReadAll lib l fs = Ok entries.
Proof.
  intros Hs Hr. unfold ledger.ReadAll. rewrite Stat_resolve, Open_resolve.
  pose proof (resolve_op fs maxLinks "open" "stat" (ledger.filepath l)) as Hop.
  rewrite Hr in Hop. rewrite Hop, Hr.
  unfold Go.ScanLines. rewrite (rawLines_lines lib _ Hs).
  destruct (lines_fit lib _ Hs) as (Hfit & Hcr & Hread).
  rewrite (scanTokens_fit _ Hfit), readLines_omap, Hcr, Hread. done.
Qed.

Lemma ReadAll_lines_readable (l : ledger.Ledger) (fs : gmap string Node) (q : string)
    (entries : list ledger.Entry) :
  forallb (readable lib) entries = true →
  resolve maxLinks "open" (ledger.filepath l) fs =
    Ok (q, File (String.concat "" (map (ledger.formatEntry lib) entries))) →
  ∃ read, ledger.ReadAll lib l fs = Ok read ∧ Forall2 (readsBackAs lib) entries read.
Proof.
  intros Hs Hr. unfold ledger.ReadAll. rewrite Stat_resolve, Open_resolve.
  pose proof (resolve_op fs maxLinks "open" "stat" (ledger.filepath l)) as Hop.
  rewrite Hr in Hop. rewrite Hop, Hr.
  destruct (readable_lines lib _ Hs) as (Hlf & Hfit & Hcr & read & Hread & H2).
  unfold Go.ScanLines. rewrite (rawLines_lines_plain lib _ Hlf).
  rewrite (scanTokens_fit _ Hfit), readLines_omap, Hcr, Hread. by exists read.
Qed.

(** C8 (as the code has it), in the reference file system.  Each
    successful Append leaves the ledger file with its former content
    followed by one line, the six fields of the entry joined by tabs and
    ended by a line feed, the timestamp in RFC 3339 first and the action
    last; nothing of the former content is changed.  When the ledger is
    absent at first and the line of each entry can be read ([readable]:
    no tab or line feed in a field, a non-empty action ending in an
    ASCII byte that is not white space, a timestamp whose RFC 3339 text
    parses, a line under 64 KiB), appending the entries one by one and
    then calling ReadAll gives as many entries, in the order of the
    appends, each with the five texts of the appended entry and the
    instant that the RFC 3339 text of its timestamp denotes; when the
    timestamps are at whole seconds ([survives]) the entries read are
    the entries appended. *)
Theorem ledger_roundtrip (l : ledger.Ledger) (fs fs' : gmap string Node)
    (entries : list ledger.Entry) :
  (∃ err, os.Stat (ledger.filepath l) fs = Err err ∧ Go.IsNotExist err = true) →
  forallb (readable lib) entries = true →
  appendAll lib l entries fs = (None, fs') →
  (∃ read,
     ledger.ReadAll lib l fs' = Ok read ∧
     length read = length entries ∧
     Forall2 (readsBackAs lib) entries read) ∧
  (forallb (survives lib) entries = true → ledger.ReadAll lib l fs' = Ok entries) ∧
  (entries ≠ [] →
   os.Open (ledger.filepath l) fs' =
   Ok (String.concat "" (map (ledger.formatEntry lib) entries))) ∧
  (∀ e g g' old,
     os.Open (ledger.filepath l) g = Ok old →
     ledger.Append lib l e g = (None, g') →
     os.Open (ledger.filepath l) g' = Ok (old +:+ ledger.formatEntry lib e)) ∧
  (∀ e g g' err,
     os.Stat (ledger.filepath l) g = Err err →
     ledger.Append lib l e g = (None, g') →
     os.Open (ledger.filepath l) g' = Ok (ledger.formatEntry lib e)) ∧
  (∀ e,
     ledger.formatEntry lib e =
     String.concat Go.tab
       [ Go.time_Format_RFC3339 lib (ledger.Timestamp e); ledger.Version e;
         ledger.InternalID e; ledger.Filename e; ledger.SHA256 e; ledger.Action e ] +:+
     Go.nl).
Proof.
  intros (err & Es & En) Hs Happ.
  assert (Hfile : entries ≠ [] →
            resolve maxLinks "open" (ledger.filepath l) fs' =
            Ok (ledger.filepath l,
                File (String.concat "" (map (ledger.formatEntry lib) entries)))).
  { destruct entries as [|e rest]; [done |]. intros _. cbn [appendAll] in Happ.
    destruct (ledger.Append lib l e fs) as [[aerr|] fs1] eqn:Ea; [discriminate |].
    pose proof (Append_missing lib _ _ _ _ _ Es Ea) as Hr1.
    rewrite (appendAll_existing lib _ _ _ _ _ _ Hr1 Happ). do 3 f_equal.
    destruct rest; simpl; [by rewrite sapp_nil_r | done]. }
  split; [|split; [|split; [|split; [|split]]]].
  - destruct entries as [|e rest].
    + injection Happ as <-. exists []. unfold ledger.ReadAll. rewrite Es, En.
      repeat split. constructor.
    + destruct (ReadAll_lines_readable l fs' (ledger.filepath l) (e :: rest) Hs)
        as (read & Hread & H2); [by apply Hfile |].
      exists read. split; [done |]. split; [|done]. symmetry. by eapply Forall2_length.
  - intros Hsv. destruct entries as [|e rest].
    + injection Happ as <-. unfold ledger.ReadAll. by rewrite Es, En.
    + by apply (ReadAll_lines l fs' (ledger.filepath l)), Hfile.
  - intros Hne. rewrite Open_resolve. by rewrite (Hfile Hne).
  - intros e g g' old. rewrite !Open_resolve.
    destruct (resolve maxLinks "open" (ledger.filepath l) g) as [[q [d|t|]]|e'] eqn:Hr;
      try discriminate.
    intros [= ->] Ha. by rewrite (Append_existing lib _ _ _ _ _ _ Hr Ha).
  - intros e g g' err' Es' Ha. rewrite Open_resolve.
    by rewrite (Append_missing lib _ _ _ _ _ Es' Ha).
  - intros e. unfold ledger.formatEntry. cbn [String.concat]. by rewrite !sapp_assoc.
Qed.

End RoundTripFacts.

(** C8 on three entries, the first of them logged half a second past
    the second. *)
Lemma ledger_roundtrip_witness :
  ∃ read,
    ledger.ReadAll Sim.lib Scenario.led
      (appendAll Sim.lib Scenario.led
         [Scenario.entryHalfSecond; Scenario.entry2; Scenario.entry3] Scenario.fresh).2 =
      Ok read ∧
    length read = length [Scenario.entryHalfSecond; Scenario.entry2; Scenario.entry3] ∧
    Forall2 (readsBackAs Sim.lib)
      [Scenario.entryHalfSecond; Scenario.entry2; Scenario.entry3] read.
Proof.
  refine (proj1 (ledger_roundtrip Sim.lib Scenario.led Scenario.fresh _
                   [Scenario.entryHalfSecond; Scenario.entry2; Scenario.entry3] _ _ _)).
  - exists (Sim.ENOENT "stat" "/cfg/cursor-versions.log"). vm_compute. split; reflexivity.
  - vm_compute. reflexivity.
  - vm_compute. reflexivity.
Defined.

Example ledger_roundtrip_run :
  ledger.ReadAll Sim.lib Scenario.led
    (appendAll Sim.lib Scenario.led
       [Scenario.entryHalfSecond; Scenario.entry2; Scenario.entry3] Scenario.fresh).2 =
    Ok [Scenario.entry1; Scenario.entry2; Scenario.entry3] ∧
  ledger.ReadAll Sim.lib Scenario.led
    (appendAll Sim.lib Scenario.led
       [Scenario.entry1; Scenario.entry2; Scenario.entry3] Scenario.fresh).2 =
    Ok [Scenario.entry1; Scenario.entry2; Scenario.entry3].
Proof. vm_compute. split; reflexivity. Qed.

Example Append_file_format :
  os.Open "/cfg/cursor-versions.log"
    (ledger.Append Sim.lib Scenario.led Scenario.entry1 Scenario.fresh).2 =
  Ok ("2024-01-01T12:00:00Z" +:+ Go.tab +:+ "1.0.0" +:+ Go.tab +:+ "12345" +:+ Go.tab +:+
      "Cursor-1.0.0-x86_64.AppImage" +:+ Go.tab +:+ "abc123def456" +:+ Go.tab +:+
      "download" +:+ Go.nl).
Proof. vm_compute. reflexivity. Qed.

(** C8 (as stated) fails: the format has no escaping.  An update
    logged at a whole second (its RFC 3339 text parses back to it),
    under one of the four action tags, with a correlation id that holds
    a tab, is appended to an absent ledger without error; its line has
    seven fields, and ReadAll returns no entry where the claim has one. *)
Lemma ledger_roundtrip_counterexample :
  Go.time_Parse_RFC3339 Sim.lib
    (Go.time_Format_RFC3339 Sim.lib (ledger.Timestamp Scenario.entryTabbedId)) =
    Ok (ledger.Timestamp Scenario.entryTabbedId) ∧
  ledger.Action Scenario.entryTabbedId = "update" ∧
  os.Stat (ledger.filepath Scenario.led) Scenario.fresh =
    Err (Sim.ENOENT "stat" "/cfg/cursor-versions.log") ∧
  (ledger.Append Sim.lib Scenario.led Scenario.entryTabbedId Scenario.fresh).1 = None ∧
  length (Go.Split (entryLine Sim.lib Scenario.entryTabbedId) Go.TAB) = 7%nat ∧
  ledger.ReadAll Sim.lib Scenario.led
    (ledger.Append Sim.lib Scenario.led Scenario.entryTabbedId Scenario.fresh).2 = Ok [].
Proof. vm_compute. repeat split. Qed.
(** * Further properties of the code *)

(** ** The order of versions *)

Lemma triple_lt_irrefl (t : Z * Z * Z) : ¬ triple_lt t t.
Proof. destruct t as [[a b] c]. unfold triple_lt. lia. Qed.

Lemma triple_lt_trans (a b c : Z * Z * Z) : triple_lt a b → triple_lt b c → triple_lt a c.
Proof.
  destruct a as [[a1 a2] a3], b as [[b1 b2] b3], c as [[c1 c2] c3]. unfold triple_lt. lia.
Qed.

Lemma triple_lt_total (a b : Z * Z * Z) : triple_lt a b ∨ a = b ∨ triple_lt b a.
Proof.
  destruct a as [[a1 a2] a3], b as [[b1 b2] b3]. unfold triple_lt.
  destruct (Z.lt_trichotomy a1 b1) as [?|[->|?]]; [lia | | lia].
  destruct (Z.lt_trichotomy a2 b2) as [?|[->|?]]; [lia | | lia].
  destruct (Z.lt_trichotomy a3 b3) as [?|[->|?]]; [lia | | lia].
  right. by left.
Qed.

Lemma LessThan_false (v1 v2 : string) :
  version.LessThan v1 v2 = false ↔
  ¬ ∃ t1 t2, version.ParseSemver v1 = Ok t1 ∧ version.ParseSemver v2 = Ok t2 ∧
             triple_lt t1 t2.
Proof. rewrite <- LessThan_spec. by destruct (version.LessThan v1 v2). Qed.

(** X1.  LessThan is a strict order on version strings: no version is
    below itself, two versions are never below each other, and the
    relation is transitive. *)
Theorem LessThan_strict_order :
  (∀ v, version.LessThan v v = false) ∧
  (∀ v1 v2, version.LessThan v1 v2 = true → version.LessThan v2 v1 = false) ∧
  (∀ v1 v2 v3, version.LessThan v1 v2 = true → version.LessThan v2 v3 = true →
               version.LessThan v1 v3 = true).
Proof.
  split; [|split].
  - intros v. apply LessThan_false. intros (t1 & t2 & E1 & E2 & Hlt).
    rewrite E1 in E2. injection E2 as <-. by apply triple_lt_irrefl in Hlt.
  - intros v1 v2 (t1 & t2 & E1 & E2 & Hlt)%LessThan_spec.
    apply LessThan_false. intros (t2' & t1' & E2' & E1' & Hlt').
    rewrite E1 in E1'. rewrite E2 in E2'. injection E1' as <-. injection E2' as <-.
    eapply triple_lt_irrefl, triple_lt_trans; eassumption.
  - intros v1 v2 v3 (t1 & t2 & E1 & E2 & H12)%LessThan_spec
                    (t2' & t3 & E2' & E3 & H23)%LessThan_spec.
    rewrite E2 in E2'. injection E2' as <-.
    apply LessThan_spec. exists t1, t3. repeat split; try done.
    eapply triple_lt_trans; eassumption.
Qed.

(** X2.  Two versions that both parse are unordered (neither is below
    the other) exactly when they have the same major, minor and patch
    numbers, however they are spelled. *)
Theorem LessThan_unordered_iff_same_numbers (v1 v2 : string) (t1 t2 : Z * Z * Z) :
  version.ParseSemver v1 = Ok t1 → version.ParseSemver v2 = Ok t2 →
  (version.LessThan v1 v2 = false ∧ version.LessThan v2 v1 = false ↔ t1 = t2).
Proof.
  intros E1 E2. rewrite !LessThan_false. split.
  - intros [H12 H21]. destruct (triple_lt_total t1 t2) as [H|[H|H]]; [|done|].
    + destruct H12. by exists t1, t2.
    + destruct H21. by exists t2, t1.
  - intros Heq. subst. split; intros (a & b & Ea & Eb & Hlt);
      assert (a = b) by congruence; subst; by apply triple_lt_irrefl in Hlt.
Qed.

Lemma LessThan_unordered_iff_same_numbers_witness :
  version.LessThan "1.4.5" "+1.04.5" = false ∧ version.LessThan "+1.04.5" "1.4.5" = false ↔
  (1, 4, 5) = (1, 4, 5).
Proof.
  apply (LessThan_unordered_iff_same_numbers "1.4.5" "+1.04.5" (1, 4, 5) (1, 4, 5));
    reflexivity.
Defined.

(** ** File names generated from a pattern *)

Lemma replace_all_length (fuel : nat) (s old new : string) :
  (String.length (Go.replace_all fuel s old new) + occurrences fuel s old * String.length old =
   String.length s + occurrences fuel s old * String.length new)%nat.
Proof.
  revert s. induction fuel as [|fuel IH]; intros s; cbn [Go.replace_all occurrences]; [lia |].
  destruct (Go.CutPrefix s old) as [rest|] eqn:E.
  - apply CutPrefix_spec in E as ->. rewrite !sapp_length. specialize (IH rest). lia.
  - destruct s as [|c s]; [done |]. cbn [String.length]. specialize (IH s). lia.
Qed.

Lemma occurrences_pos (fuel : nat) (s old : string) :
  old ≠ "" → Go.Contains s old = true → (String.length s ≤ fuel)%nat →
  (1 ≤ occurrences fuel s old)%nat.
Proof.
  intros Hold. revert s. induction fuel as [|fuel IH]; intros s Hc Hlen.
  - destruct s; [|simpl in Hlen; lia]. destruct old; [done | cbv in Hc; discriminate Hc].
  - cbn [occurrences]. destruct s as [|c s]; cbn [Go.Contains] in Hc; unfold Go.HasPrefix in Hc.
    + destruct old; [done | cbv in Hc; discriminate Hc].
    + destruct (Go.CutPrefix (String c s) old); [lia |]. cbn [orb] in Hc.
      apply IH; [done | simpl in Hlen; lia].
Qed.

Lemma sapp_inj_length (a b x y : string) :
  String.length a = String.length b → a +:+ x = b +:+ y → a = b.
Proof.
  revert b. induction a as [|c a IH]; intros [|d b]; try discriminate; [done |].
  cbn [String.length String.append]. intros [= Hlen] [= -> Heq]. f_equal. by apply IH.
Qed.

Lemma replace_all_inj (fuel : nat) (s old v1 v2 : string) :
  String.length v1 = String.length v2 → (1 ≤ occurrences fuel s old)%nat →
  Go.replace_all fuel s old v1 = Go.replace_all fuel s old v2 → v1 = v2.
Proof.
  intros Hlen. revert s. induction fuel as [|fuel IH]; intros s; cbn [Go.replace_all occurrences];
    [lia |].
  destruct (Go.CutPrefix s old) as [rest|].
  - intros _ Heq. by apply sapp_inj_length in Heq.
  - destruct s as [|c s]; [lia |]. intros Hk [= Heq]. by apply (IH s).
Qed.

Lemma replace_all_absent (fuel : nat) (s old new : string) :
  Go.Contains s old = false → Go.replace_all fuel s old new = s.
Proof.
  revert s. induction fuel as [|fuel IH]; intros s Hc; cbn [Go.replace_all]; [done |].
  destruct s as [|c s]; cbn [Go.Contains] in Hc; unfold Go.HasPrefix in Hc.
  - by destruct (Go.CutPrefix "" old).
  - destruct (Go.CutPrefix (String c s) old); [discriminate Hc |]. cbn [orb] in Hc.
    by rewrite IH.
Qed.

(** X3.  A configuration that Validate accepts gives distinct versions
    distinct file names. *)
Theorem GenerateFileName_injective (c : config.Config) (v1 v2 : string) :
  config.Validate c = None →
  config.GenerateFileName c v1 = config.GenerateFileName c v2 → v1 = v2.
Proof.
  unfold config.Validate, config.GenerateFileName, Go.ReplaceAll.
  destruct (String.eqb _ ""); [discriminate |]. destruct (String.eqb _ ""); [discriminate |].
  destruct (Go.Contains _ _) eqn:Hc; [|discriminate]. intros _ Heq.
  set (p := config.FileNamePattern c) in *. set (n := String.length p) in *.
  assert (Hk : (1 ≤ occurrences n p "<version>")%nat) by by apply occurrences_pos.
  apply (replace_all_inj n p "<version>"); [|done..].
  pose proof (replace_all_length n p "<version>" v1) as H1.
  pose proof (replace_all_length n p "<version>" v2) as H2.
  rewrite Heq in H1. nia.
Qed.

Lemma GenerateFileName_injective_witness : "1.4.5" = "1.4.5".
Proof.
  apply (GenerateFileName_injective config.NewConfig "1.4.5" "1.4.5"); reflexivity.
Defined.

(** X4.  A pattern without the placeholder gives every version the same
    file name, the pattern itself; Validate does not accept such a
    configuration. *)
Theorem GenerateFileName_without_placeholder (c : config.Config) :
  Go.Contains (config.FileNamePattern c) "<version>" = false →
  (∀ v, config.GenerateFileName c v = config.FileNamePattern c) ∧
  ∃ err, config.Validate c = Some err.
Proof.
  intros Hc. split.
  - intros v. by apply replace_all_absent.
  - unfold config.Validate. rewrite Hc.
    destruct (String.eqb _ ""); [by eexists |]. destruct (String.eqb _ ""); by eexists.
Qed.

Lemma GenerateFileName_without_placeholder_witness :
  (∀ v, config.GenerateFileName
          {| config.DownloadDir := "/d"; config.FileNamePattern := "Cursor.AppImage";
             config.LatestSymlink := "/d/latest"; config.LedgerPath := "/d/log" |} v =
        "Cursor.AppImage") ∧
  ∃ err, config.Validate
           {| config.DownloadDir := "/d"; config.FileNamePattern := "Cursor.AppImage";
              config.LatestSymlink := "/d/latest"; config.LedgerPath := "/d/log" |} = Some err.
Proof.
  apply (GenerateFileName_without_placeholder
           {| config.DownloadDir := "/d"; config.FileNamePattern := "Cursor.AppImage";
              config.LatestSymlink := "/d/latest"; config.LedgerPath := "/d/log" |}).
  reflexivity.
Defined.

(** ** Expanding the paths of a configuration *)

Section Expand.
Context (lib : Go.Lib) (environ : string → string).

(** X5.  ExpandPaths succeeds when $HOME is set or no path starts with a
    tilde: every path that starts with a tilde becomes the join of the
    home directory and what follows the tilde, whatever that is, the
    other paths and the file-name pattern are unchanged.  Otherwise it
    fails, and the first path that starts with a tilde is left empty in
    the configuration. *)
Theorem ExpandPaths_outcome (c : config.Config) :
  let home := environ "HOME" in
  if negb (String.eqb home "") ||
     negb (startsWithTilde (config.DownloadDir c) ||
           startsWithTilde (config.LatestSymlink c) ||
           startsWithTilde (config.LedgerPath c))
  then
    config.ExpandPaths lib environ c =
    (None,
     {| config.DownloadDir := expanded lib home (config.DownloadDir c);
        config.FileNamePattern := config.FileNamePattern c;
        config.LatestSymlink := expanded lib home (config.LatestSymlink c);
        config.LedgerPath := expanded lib home (config.LedgerPath c) |})
  else
    ∃ err c',
      config.ExpandPaths lib environ c = (Some err, c') ∧
      config.FileNamePattern c' = config.FileNamePattern c ∧
      if startsWithTilde (config.DownloadDir c) then config.DownloadDir c' = ""
      else
        config.DownloadDir c' = config.DownloadDir c ∧
        if startsWithTilde (config.LatestSymlink c) then config.LatestSymlink c' = ""
        else config.LatestSymlink c' = config.LatestSymlink c ∧ config.LedgerPath c' = "".
Proof.
  destruct c as [dir pat link log].
  unfold config.ExpandPaths, config.expandHomeDir, Go.UserHomeDir, expanded, startsWithTilde.
  cbn [config.DownloadDir config.FileNamePattern config.LatestSymlink config.LedgerPath].
  cbv zeta. destruct (String.eqb (environ "HOME") ""); cbn [negb orb];
    destruct dir as [|a dir]; [| destruct (Ascii.eqb a "~") | | destruct (Ascii.eqb a "~")];
    destruct link as [|b link]; try destruct (Ascii.eqb b "~");
    destruct log as [|d log]; try destruct (Ascii.eqb d "~");
    cbn [negb orb]; try reflexivity; eexists _, _; (split; [reflexivity |]); done.
Qed.

End Expand.

(** ** The check command and the exit status *)

Section Check.
Context (lib : Go.Lib) (progressText : http.ProgressUpdate → list string).
Context {F N : Type} `{!os.FileSystem F} `{!http.Network N}.

(** X6.  The check command agrees with the decision of the update
    command: when CheckForUpdates answers without error, executeCheck
    ends with exit status 10 if an update is needed and 0 if not, after
    the same single HEAD request and without touching the file system;
    when CheckForUpdates fails, executeCheck fails with exit status 1. *)
Theorem executeCheck_agrees_with_CheckForUpdates (up : updater.Updater) (w : World F N) :
  match updater.CheckForUpdates lib up w with
  | ((needsUpdate, _, None), w1) =>
      ∃ err w',
        cli.executeCheck lib up w = (err, w') ∧
        main.exitStatus err = (if needsUpdate then 10 else 0) ∧
        fs w' = fs w ∧ requests w' = requests w1
  | ((_, _, Some _), _) =>
      ∃ err w', cli.executeCheck lib up w = (err, w') ∧ main.exitStatus err = 1
  end.
Proof.
  unfold updater.CheckForUpdates, cli.executeCheck.
  destruct (updater.GetRemoteVersion up w) as [r w1] eqn:Er.
  destruct (GetRemoteVersion_world _ _ _ _ Er) as (Hfs & _). rewrite Hfs.
  destruct r as [remoteVersion|err].
  - destruct (updater.GetLocalVersion lib up (fs w)) as [localVersion|err].
    + destruct (String.eqb localVersion ""); cbn [orb].
      * eexists _, _. split; [reflexivity |]. by cbn.
      * destruct (version.LessThan localVersion remoteVersion);
          eexists _, _; (split; [reflexivity |]); by cbn.
    + eexists _, _. split; [reflexivity |]. by cbn.
  - destruct (updater.GetLocalVersion lib up (fs w)) as [localVersion|err'];
      eexists _, _; (split; [reflexivity |]); by cbn.
Qed.

(** X7.  Exit status 10 is the check command's alone: whatever the
    world, the update, force and switch commands end with status 0 or
    1. *)
Theorem exitStatus_of_update_force_switch (up : updater.Updater) (led : ledger.Ledger)
    (cfg : config.Config) (ver : string) (w : World F N) :
  (main.exitStatus (cli.executeUpdate lib progressText up led cfg w).1 = 0 ∨
   main.exitStatus (cli.executeUpdate lib progressText up led cfg w).1 = 1) ∧
  (main.exitStatus (cli.executeForce lib progressText up led cfg w).1 = 0 ∨
   main.exitStatus (cli.executeForce lib progressText up led cfg w).1 = 1) ∧
  (main.exitStatus (cli.executeSwitch lib up led ver cfg w).1 = 0 ∨
   main.exitStatus (cli.executeSwitch lib up led ver cfg w).1 = 1).
Proof.
  split; [|split].
  - unfold cli.executeUpdate.
    destruct (updater.CheckForUpdates lib up w) as [[[needsUpdate remoteVersion] [err|]] w1];
      [by right |].
    destruct needsUpdate; cbn [negb]; [|by left].
    destruct (updater.DownloadCursor _ _ _) as [[filename|err] w3]; [|by right].
    destruct (updater.CalculateSHA256 _ _ _) as [sha256|err]; [|by right].
    destruct (on_fs (updater.SwitchToVersion _ _ _) _) as [[err|] w4]; [by right |].
    destruct (Now w4) as [now w5].
    destruct (on_fs (ledger.Append _ _ _) w5) as [err w6]. by left.
  - unfold cli.executeForce.
    destruct (updater.GetRemoteVersion up w) as [[remoteVersion|err] w1]; [|by right].
    cbv zeta.
    destruct (updater.DownloadCursor _ _ _) as [[filename|err] w3]; [|by right].
    destruct (updater.CalculateSHA256 _ _ _) as [sha256|err]; [|by right].
    destruct (on_fs (updater.SwitchToVersion _ _ _) _) as [[err|] w4]; [by right |].
    destruct (Now w4) as [now w5].
    destruct (on_fs (ledger.Append _ _ _) w5) as [err w6]. by left.
  - unfold cli.executeSwitch.
    destruct (String.eqb _ ""); [by right |].
    destruct (on_fs (updater.SwitchToVersion _ _ _) _) as [[err|] w4]; [by right |].
    destruct (Now w4) as [now w5].
    destruct (on_fs (ledger.Append _ _ _) w5) as [err w6]. by left.
Qed.

End Check.

(** ** What a download asks of the remote side *)

Section Download.
Context (lib : Go.Lib) {F N : Type} `{!os.FileSystem F} `{!http.Network N}.

Lemma on_fs_requests {A : Type} (op : F → A * F) (w : World F N) :
  requests (on_fs op w).2 = requests w.
Proof. unfold on_fs. by destruct (op (fs w)). Qed.

Lemma Get_world (url : string) (w : World F N) :
  requests (Get url w).2 = requests w ++ [GET url] ∧ fs (Get url w).2 = fs w.
Proof. unfold Get. by destruct (http.Get url (net w)). Qed.

Lemma copyBody_requests (u : updater.Updater) (file : os.File) (resp : http.Response)
    (w : World F N) :
  requests (updater.copyBody u file resp w).2 = requests w.
Proof.
  unfold updater.copyBody.
  assert (Hfold : ∀ (callback : updater.ProgressCallback) updates (w0 : World F N),
    requests (fold_left
      (λ w update,
         {| fs := fs w; net := net w; requests := requests w; clock := clock w;
            ticks := ticks w; environ := environ w;
            stdout := callback update (stdout w); stderr := stderr w |}) updates w0) =
    requests w0).
  { intros callback updates. induction updates as [|x xs IH]; intros w0; [done |].
    cbn [fold_left]. by rewrite IH. }
  set (w1 := match updater.progressCallback u with Some _ => _ | None => _ end).
  assert (Hw1 : requests w1 = requests w).
  { subst w1. destruct (updater.progressCallback u); [apply Hfold | done]. }
  pose proof (on_fs_requests (os.Write file (http.Body resp)) w1) as Hw.
  destruct (on_fs (os.Write file (http.Body resp)) w1) as [[err|] w2]; cbn [snd] in *;
    congruence.
Qed.

(** X8.  Whatever the remote side answers, DownloadCursor issues one
    HEAD request and then no GET, one GET of the download URL, or that
    GET followed by one GET of the Location it was redirected to, never
    more; and when it issues no GET (the remote version cannot be
    resolved, or a file with the artifact's name is already there) it
    leaves the file system as it was. *)
Theorem DownloadCursor_requests (u : updater.Updater) (w : World F N) :
  ∃ gets : list Request,
    requests (updater.DownloadCursor lib u w).2 =
      requests w ++ HEAD (updater.downloadURL u) :: gets ∧
    (gets = [] ∧ fs (updater.DownloadCursor lib u w).2 = fs w ∨
     gets = [GET (updater.downloadURL u)] ∨
     ∃ location, gets = [GET (updater.downloadURL u); GET location]).
Proof.
  unfold updater.DownloadCursor.
  destruct (updater.GetRemoteVersion u w) as [r w1] eqn:Er.
  destruct (GetRemoteVersion_world _ _ _ _ Er) as (Hfs & Hrq & _).
  destruct r as [remoteVersion|err].
  2: { exists []. cbn [snd]. split; [done | by left]. }
  destruct (os.Stat _ (fs w1)).
  { exists []. cbn [snd]. split; [done | by left]. }
  pose proof (Get_world (updater.downloadURL u) w1) as [Hg1 _].
  destruct (Get (updater.downloadURL u) w1) as [[resp|err] w2]; cbn [snd] in Hg1.
  2: { exists [GET (updater.downloadURL u)]. cbn [snd].
       split; [by rewrite Hg1, Hrq, <- app_assoc | by right; left]. }
  set (redirected := (_ =? http.StatusFound) || _).
  assert (Hfinish : ∀ (resp' : http.Response) (w3 : World F N) (gets : list Request),
    requests w3 = requests w ++ HEAD (updater.downloadURL u) :: gets →
    requests
      (if negb (http.StatusCode resp' =? http.StatusOK)
       then (Err (Go.Errorf ("download failed with status: " +:+
                             pretty (http.StatusCode resp'))), w3)
       else
         let '(err, w) := on_fs (updater.ensureDirectories lib u) w3 in
         match err with
         | Some err =>
             (Err (Go.Errorf ("failed to ensure directories: " +:+ Go.Error err)), w)
         | None =>
             let '(r, w) :=
               on_fs (os.Create
                        (updater.getDownloadPath lib u
                           (updater.GenerateFileName u remoteVersion))) w in
             match r with
             | Err err => (Err (Go.Errorf ("failed to create file: " +:+ Go.Error err)), w)
             | Ok file =>
                 let '(err, w) := updater.copyBody u file resp' w in
                 match err with
                 | Some err =>
                     (Err (Go.Errorf ("failed to write file: " +:+ Go.Error err)), w)
                 | None =>
                     let '(err, w) :=
                       on_fs (os.Chmod
                                (updater.getDownloadPath lib u
                                   (updater.GenerateFileName u remoteVersion))) w in
                     match err with
                     | Some err =>
                         (Err (Go.Errorf ("failed to make file executable: " +:+
                                          Go.Error err)), w)
                     | None => (Ok (updater.GenerateFileName u remoteVersion), w)
                     end
                 end
             end
         end).2 = requests w ++ HEAD (updater.downloadURL u) :: gets).
  { intros resp' w3 gets H3. destruct (negb _); [done |].
    pose proof (on_fs_requests (updater.ensureDirectories lib u) w3) as H4.
    destruct (on_fs (updater.ensureDirectories lib u) w3) as [[err|] w4]; cbn [snd] in H4;
      [cbn [snd]; congruence |].
    pose proof (on_fs_requests (os.Create (updater.getDownloadPath lib u
      (updater.GenerateFileName u remoteVersion))) w4) as H5.
    destruct (on_fs (os.Create _) w4) as [[file|err] w5]; cbn [snd] in H5;
      [|cbn [snd]; congruence].
    pose proof (copyBody_requests u file resp' w5) as H6.
    destruct (updater.copyBody u file resp' w5) as [[err|] w6]; cbn [snd] in H6;
      [cbn [snd]; congruence |].
    pose proof (on_fs_requests (os.Chmod (updater.getDownloadPath lib u
      (updater.GenerateFileName u remoteVersion))) w6) as H7.
    destruct (on_fs (os.Chmod _) w6) as [[err|] w7]; cbn [snd] in H7; cbn [snd]; congruence. }
  destruct redirected.
  - destruct (String.eqb (http.Location resp) "").
    { exists [GET (updater.downloadURL u)]. cbn [snd].
      split; [by rewrite Hg1, Hrq, <- app_assoc | by right; left]. }
    pose proof (Get_world (http.Location resp) w2) as [Hg2 _].
    destruct (Get (http.Location resp) w2) as [[resp'|err] w3]; cbn [snd] in Hg2.
    + exists [GET (updater.downloadURL u); GET (http.Location resp)].
      split; [|right; right; by eexists].
      apply Hfinish. by rewrite Hg2, Hg1, Hrq, <- !app_assoc.
    + exists [GET (updater.downloadURL u); GET (http.Location resp)]. cbn [snd].
      split; [by rewrite Hg2, Hg1, Hrq, <- !app_assoc | right; right; by eexists].
  - exists [GET (updater.downloadURL u)].
    split; [|by right; left]. apply Hfinish. by rewrite Hg1, Hrq, <- app_assoc.
Qed.

End Download.

(** ** Directories and the current reference in the reference file system *)

Section SimDirs.
Import Sim.

Lemma resolve_Folder (fs : gmap string Node) (n : nat) (op p : string) :
  fs !! p = Some Folder → resolve n op p fs = Ok (p, Folder).
Proof. intros Hp. destruct n; simpl; by rewrite Hp. Qed.

Lemma mkdirAll_folder (fuel : nat) (path : string) (fs fs' : gmap string Node) :
  mkdirAll fuel path fs = (None, fs') → isFolder path fs' = true.
Proof.
  unfold isFolder. destruct fuel as [|fuel]; cbn [mkdirAll];
    destruct (resolve maxLinks "stat" path fs) as [[q [d|t|]]|e] eqn:Hr; try discriminate;
    try (intros [= <-]; by rewrite Hr).
  - by destruct (fs !! path).
  - destruct (fs !! path); [discriminate |].
    destruct (String.eqb (Dir path) path).
    + intros [= <-]. by rewrite resolve_Folder by apply lookup_insert_eq.
    + destruct (mkdirAll fuel (Dir path) fs) as [[e'|] fs1]; [discriminate |].
      intros [= <-]. by rewrite resolve_Folder by apply lookup_insert_eq.
Qed.

Lemma isFolder_grows (fs fs' : gmap string Node) (path : string) :
  grows fs fs' → isFolder path fs = true → isFolder path fs' = true.
Proof.
  intros Hg. unfold isFolder.
  destruct (resolve maxLinks "stat" path fs) as [[q [d|t|]]|e] eqn:Hr; try discriminate.
  by rewrite (resolve_grows _ _ _ _ _ _ Hg Hr).
Qed.

(** X9.  In the reference file system ensureDirectories only adds
    directories: every path keeps the node it had, or had none and is a
    directory afterwards.  When it succeeds, the work directory and,
    with a configuration, the download directory and the directories of
    the current reference and of the ledger are directories. *)
Theorem ensureDirectories_only_adds_directories (u : updater.Updater)
    (fs : gmap string Node) :
  grows fs (updater.ensureDirectories lib u fs).2 ∧
  ((updater.ensureDirectories lib u fs).1 = None →
   isFolder (updater.workDir u) (updater.ensureDirectories lib u fs).2 = true ∧
   match updater.config u with
   | None => True
   | Some cfg =>
       isFolder (config.DownloadDir cfg) (updater.ensureDirectories lib u fs).2 = true ∧
       isFolder (Dir (config.LatestSymlink cfg))
         (updater.ensureDirectories lib u fs).2 = true ∧
       isFolder (Dir (config.LedgerPath cfg)) (updater.ensureDirectories lib u fs).2 = true
   end).
Proof.
  unfold updater.ensureDirectories, os.MkdirAll, fileSystem, MkdirAll.
  cbn [Go.filepath_Dir lib].
  destruct (mkdirAll _ (updater.workDir u) fs) as [[e1|] fs1] eqn:E1;
    pose proof (mkdirAll_grows _ _ _ _ _ E1) as G1; [by split |].
  apply mkdirAll_folder in E1.
  destruct (updater.config u) as [cfg|]; [|by split].
  destruct (mkdirAll _ (config.DownloadDir cfg) fs1) as [[e2|] fs2] eqn:E2;
    pose proof (mkdirAll_grows _ _ _ _ _ E2) as G2;
    [split; [by eapply grows_trans | done] |].
  apply mkdirAll_folder in E2.
  destruct (mkdirAll _ (Dir (config.LatestSymlink cfg)) fs2) as [[e3|] fs3] eqn:E3;
    pose proof (mkdirAll_grows _ _ _ _ _ E3) as G3;
    [split; [eauto using grows_trans | done] |].
  apply mkdirAll_folder in E3.
  destruct (mkdirAll _ (Dir (config.LedgerPath cfg)) fs3) as [[e4|] fs4] eqn:E4;
    pose proof (mkdirAll_grows _ _ _ _ _ E4) as G4;
    [split; [eauto using grows_trans | done] |].
  apply mkdirAll_folder in E4. cbn [fst snd].
  split; [eauto using grows_trans |]. intros _.
  repeat split; eauto using isFolder_grows.
Qed.

Lemma SwitchToVersion_success (u : updater.Updater) (version : string)
    (fs fs' : gmap string Node) :
  updater.SwitchToVersion lib u version fs = (None, fs') →
  fs' =
  <[updater.getLatestSymlinkPath u :=
      Link (match Rel (Dir (updater.getLatestSymlinkPath u))
                      (updater.getDownloadPath lib u (updater.GenerateFileName u version)) with
            | Ok relativePath => relativePath
            | Err _ => updater.getDownloadPath lib u (updater.GenerateFileName u version)
            end)]> fs.
Proof.
  unfold updater.SwitchToVersion.
  destruct (match os.Stat _ fs with Ok _ => false | Err err => Go.IsNotExist err end);
    [discriminate |].
  cbn [Go.filepath_Dir Go.filepath_Rel lib].
  set (link := updater.getLatestSymlinkPath u). set (target := match Rel _ _ with Ok _ => _ | Err _ => _ end).
  unfold os.Lstat, os.Remove, os.Symlink, fileSystem, Lstat, Remove, Symlink.
  destruct (fs !! link) as [[d|t|]|] eqn:El.
  - rewrite lookup_delete_eq. destruct (isFolder _ _); [|discriminate].
    intros [= <-]. apply insert_delete_eq.
  - rewrite lookup_delete_eq. destruct (isFolder _ _); [|discriminate].
    intros [= <-]. apply insert_delete_eq.
  - destruct (children link fs); [|discriminate].
    rewrite lookup_delete_eq. destruct (isFolder _ _); [|discriminate].
    intros [= <-]. apply insert_delete_eq.
  - rewrite El. destruct (isFolder _ _); [|discriminate]. by intros [= <-].
Qed.

End SimDirs.

Section SimSwitch.
Import Sim.
Context (golib : Go.Lib).


End SimSwitch.

(** ** The local version after a switch *)

Section SimPaths.
Import Sim.

Lemma Split_app_sep (a b : string) (sep : ascii) :
  Go.Split (a +:+ String sep b) sep = Go.Split a sep ++ Go.Split b sep.
Proof.
  induction a as [|c a IH]; simpl.
  - by rewrite Ascii.eqb_refl.
  - rewrite IH. destruct (Ascii.eqb c sep); [done |].
    pose proof (Split_nonempty a sep). by destruct (Go.Split a sep).
Qed.

Lemma Dir_Join (d name : string) :
  d ≠ "" → has_byte "/" name = false → Dir (Join d name) = d.
Proof.
  intros Hd Hn. unfold Join. destruct (String.eqb_spec d "") as [|_]; [done |].
  destruct (String.eqb_spec d "/") as [->|Hroot]; unfold Dir.
  - simpl. by rewrite (Split_no_sep _ _ Hn).
  - change (d +:+ "/" +:+ name) with (d +:+ String "/" name).
    rewrite Split_app_sep, (Split_no_sep _ _ Hn), removelast_last.
    destruct (Split_inv d "/") as [_ Hc].
    destruct (Go.Split d "/") as [|p [|q ps]] eqn:E.
    + by apply Split_nonempty in E.
    + simpl in Hc. subst p. by destruct d.
    + by destruct p.
Qed.

Lemma Join_nil (d name : string) : d ≠ "" → Join d name = Join d "" +:+ name.
Proof.
  intros Hd. unfold Join. destruct (String.eqb_spec d "") as [|_]; [done |].
  destruct (String.eqb d "/"); [done |]. by rewrite !sapp_assoc.
Qed.

Lemma stripTrailingSlashes_id (s : string) :
  has_byte "/" s = false → Go.stripTrailingSlashes s = s.
Proof.
  induction s as [|c s IH]; simpl; [done |]. intros [Hc Hs]%orb_false_iff.
  by rewrite (IH Hs), Hc, andb_false_r.
Qed.

Lemma Base_no_slash (s : string) : s ≠ "" → has_byte "/" s = false → Go.Base s = s.
Proof.
  intros Hne Hs. unfold Go.Base. destruct (String.eqb_spec s "") as [|_]; [done |].
  rewrite (stripTrailingSlashes_id _ Hs), (Split_no_sep _ _ Hs). simpl.
  by destruct (String.eqb_spec s "").
Qed.

Lemma all_digits_no_slash (s : string) : all_digits s = true → has_byte "/" s = false.
Proof.
  induction s as [|c s IH]; simpl; [done |]. intros [Hc Hs]%andb_true_iff.
  rewrite (IH Hs), orb_false_r. apply Ascii.eqb_neq. intros ->. vm_compute in Hc.
  discriminate Hc.
Qed.

Lemma artifact_no_slash (v : string) :
  DottedDigits v → has_byte "/" ("Cursor-" +:+ v +:+ "-x86_64.AppImage") = false.
Proof.
  intros (parts & _ & HF & ->). rewrite !has_byte_app.
  replace (has_byte "/" (String.concat "." parts)) with false; [done |].
  symmetry. induction HF as [|p ps [_ Hp] _ IH]; [done |].
  rewrite concat_dotted, has_byte_app, (all_digits_no_slash _ Hp). cbn [orb].
  destruct ps as [|q qs]; [done |]. rewrite concat_dotted in IH. simpl. exact IH.
Qed.

Lemma resolve_0 (fs : gmap string Node) (op p : string) :
  resolve 0 op p fs =
  match fs !! p with
  | None => Err (ENOENT op p)
  | Some (Link target) => Err (ELOOP op p)
  | Some node => Ok (p, node)
  end.
Proof. done. Qed.

Lemma resolve_S (fs : gmap string Node) (n : nat) (op p : string) :
  resolve (S n) op p fs =
  match fs !! p with
  | None => Err (ENOENT op p)
  | Some (Link target) => resolve n op (pointsTo p target) fs
  | Some node => Ok (p, node)
  end.
Proof. done. Qed.

Lemma resolve_found_S (fs : gmap string Node) (n : nat) (op p : string) :
  found (resolve (S n) op p fs) = true → found (resolve n op p fs) = true.
Proof.
  revert p. induction n as [|n IH]; intros p; rewrite resolve_S.
  - rewrite resolve_0. by destruct (fs !! p) as [[d|t|]|].
  - rewrite (resolve_S _ n). destruct (fs !! p) as [[d|t|]|]; try done. apply IH.
Qed.

Lemma resolve_found_le (fs : gmap string Node) (n m : nat) (op p : string) :
  (n ≤ m)%nat → found (resolve m op p fs) = true → found (resolve n op p fs) = true.
Proof.
  intros Hle. induction Hle as [|m Hle IH]; [done |].
  intros H. by apply IH, resolve_found_S.
Qed.

(** Pointing a link at a path that is found leaves found what was. *)
Lemma resolve_found_relink (fs : gmap string Node) (link target op : string) (k : nat) :
  found (resolve k op (pointsTo link target) fs) = true →
  ∀ n p, (n ≤ S k)%nat → p = link ∨ found (resolve n op p fs) = true →
         found (resolve n op p (<[link := Link target]> fs)) = true.
Proof.
  intros Hk. induction n as [|n IH]; intros p Hn Hp.
  - rewrite resolve_0. destruct (decide (link = p)) as [<-|Hne].
    + by rewrite lookup_insert_eq.
    + rewrite lookup_insert_ne by done. destruct Hp as [->|Hp]; [done |].
      rewrite resolve_0 in Hp. by destruct (fs !! p) as [[d|t|]|].
  - rewrite resolve_S. destruct (decide (link = p)) as [<-|Hne].
    + rewrite lookup_insert_eq. apply IH; [lia |]. right.
      apply (resolve_found_le _ n k); [lia | done].
    + rewrite lookup_insert_ne by done. destruct Hp as [->|Hp]; [done |].
      rewrite resolve_S in Hp. destruct (fs !! p) as [[d|t|]|]; try done.
      apply IH; [lia | by right].
Qed.

Lemma found_Stat (p : string) (fs : gmap string Node) :
  found (Stat p fs) = found (resolve maxLinks "stat" p fs).
Proof. unfold Stat. by destruct (resolve _ _ _ _) as [[q node]|err]. Qed.

Lemma SwitchToVersion_found (u : updater.Updater) (version : string)
    (fs fs' : gmap string Node) :
  updater.SwitchToVersion lib u version fs = (None, fs') →
  found (Stat (updater.getDownloadPath lib u (updater.GenerateFileName u version)) fs) = true.
Proof.
  unfold updater.SwitchToVersion.
  change (os.Stat ?p fs) with (Stat p fs).
  destruct (Stat _ fs) as [i|err]; [done |]. simpl.
  by destruct (Go.IsNotExist err).
Qed.

(** What the program's defaults give in the standard layout. *)
Lemma standardLayout_paths (url d : string) (cfg : option config.Config) :
  standardLayout d cfg →
  updater.getLatestSymlinkPath (updater.NewUpdater lib url d cfg) = Join d "Cursor.AppImage" ∧
  (∀ v, updater.GenerateFileName (updater.NewUpdater lib url d cfg) v =
        "Cursor-" +:+ v +:+ "-x86_64.AppImage") ∧
  (∀ name, updater.getDownloadPath lib (updater.NewUpdater lib url d cfg) name = Join d name).
Proof.
  destruct cfg as [[dir pat link log]|]; simpl; [|done].
  intros (-> & -> & ->). done.
Qed.

Lemma switch_in_standardLayout (url d v : string) (cfg : option config.Config)
    (fs fs' : gmap string Node) :
  d ≠ "" → standardLayout d cfg → DottedDigits v →
  updater.SwitchToVersion lib (updater.NewUpdater lib url d cfg) v fs = (None, fs') →
  fs' = <[Join d "Cursor.AppImage" := Link ("Cursor-" +:+ v +:+ "-x86_64.AppImage")]> fs ∧
  found (resolve maxLinks "stat" (Join d "Cursor.AppImage") fs') = true.
Proof.
  intros Hd Hcfg Hv Hs.
  destruct (standardLayout_paths url d cfg Hcfg) as (Hlink & Hname & Hpath).
  pose proof (SwitchToVersion_found _ _ _ _ Hs) as Hf.
  apply SwitchToVersion_success in Hs. rewrite Hlink, Hname, Hpath in Hs.
  rewrite Hname, Hpath, found_Stat in Hf.
  pose proof (artifact_no_slash v Hv) as Hslash.
  rewrite Dir_Join in Hs by done.
  unfold Rel in Hs. rewrite (Join_nil d (_ +:+ _)), CutPrefix_app in Hs by done.
  split; [done |]. rewrite Hs.
  apply (resolve_found_relink _ _ _ _ 39); [|done | by left].
  unfold pointsTo. cbn [Go.HasPrefix Go.CutPrefix String.append Ascii.eqb Bool.eqb].
  rewrite Dir_Join by done. by apply resolve_found_S.
Qed.

(** The local version read through a current reference that links to
    an artifact's name. *)
Lemma GetLocalVersion_linked (url d v : string) (cfg : option config.Config)
    (fs : gmap string Node) :
  DottedDigits v →
  fs !! Join d "Cursor.AppImage" = Some (Link ("Cursor-" +:+ v +:+ "-x86_64.AppImage")) →
  found (resolve maxLinks "stat" (Join d "Cursor.AppImage") fs) = true →
  updater.GetLocalVersion lib (updater.NewUpdater lib url d cfg) fs = Ok v.
Proof.
  intros Hv Hl Hf. unfold updater.GetLocalVersion.
  cbn [updater.launchLink updater.NewUpdater Go.filepath_Join lib].
  change (os.Stat ?p fs) with (Stat p fs). change (os.Readlink ?p fs) with (Readlink p fs).
  rewrite <- found_Stat in Hf.
  destruct (Stat _ fs) as [i|err]; simpl in Hf.
  - unfold Readlink. rewrite Hl.
    rewrite Base_no_slash; [by rewrite SemverFromName_generated | by destruct v |].
    by apply artifact_no_slash.
  - apply negb_true_iff in Hf as ->. unfold Readlink. rewrite Hl.
    rewrite Base_no_slash; [by rewrite SemverFromName_generated | by destruct v |].
    by apply artifact_no_slash.
Qed.

(** X11.  In the reference file system, with the layout of the
    program's defaults (no configuration, or the download directory as
    work directory, Cursor.AppImage in it as current reference and the
    default file-name pattern), a successful SwitchToVersion to a
    version of the artifact-name syntax makes GetLocalVersion report
    that version. *)
Theorem GetLocalVersion_after_switch (url d v : string) (cfg : option config.Config)
    (fs fs' : gmap string Node) :
  d ≠ "" → standardLayout d cfg → DottedDigits v →
  updater.SwitchToVersion lib (updater.NewUpdater lib url d cfg) v fs = (None, fs') →
  updater.GetLocalVersion lib (updater.NewUpdater lib url d cfg) fs' = Ok v.
Proof.
  intros Hd Hcfg Hv Hs.
  destruct (switch_in_standardLayout _ _ _ _ _ _ Hd Hcfg Hv Hs) as [-> Hf].
  apply GetLocalVersion_linked; [done | apply lookup_insert_eq | done].
Qed.

End SimPaths.

Lemma DottedDigits_1_4 : DottedDigits "1.4".
Proof. exists ["1"; "4"]. repeat split; [done | by repeat constructor]. Qed.

Lemma GetLocalVersion_after_switch_witness :
  updater.GetLocalVersion Sim.lib Scenario.up
    (updater.SwitchToVersion Sim.lib Scenario.up "1.4" Scenario.twoComponents).2 = Ok "1.4".
Proof.
  apply (GetLocalVersion_after_switch cli.defaultDownloadURL "/d" "1.4" (Some Scenario.cfg)
           Scenario.twoComponents).
  - done.
  - done.
  - exact DottedDigits_1_4.
  - vm_compute. reflexivity.
Defined.

(** ** A successful command leaves the version it installed current *)

Section SimRuns.
Import Sim.
Context (progressText : http.ProgressUpdate → list string).

Lemma keeps_refl (fs : gmap string Node) : keeps fs fs.
Proof. intros p. destruct (fs !! p) as [[d|t|]|]; eauto. Qed.

Lemma keeps_trans (fs1 fs2 fs3 : gmap string Node) :
  keeps fs1 fs2 → keeps fs2 fs3 → keeps fs1 fs3.
Proof.
  intros H12 H23 p. specialize (H12 p). specialize (H23 p).
  destruct (fs1 !! p) as [[d|t|]|]; [destruct H12 as [d' H12] | | |done];
    by rewrite H12 in H23.
Qed.

Lemma grows_keeps (fs fs' : gmap string Node) : grows fs fs' → keeps fs fs'.
Proof.
  intros Hg p. destruct (Hg p) as [->|[-> _]]; [|done].
  destruct (fs !! p) as [[d|t|]|]; eauto.
Qed.

Lemma keeps_insert_file (fs : gmap string Node) (q new : string) :
  fs !! q = None ∨ (∃ d, fs !! q = Some (File d)) → keeps fs (<[q := File new]> fs).
Proof.
  intros Hq p. destruct (decide (q = p)) as [<-|Hne].
  - rewrite lookup_insert_eq. destruct Hq as [->|[d ->]]; eauto.
  - rewrite lookup_insert_ne by done. destruct (fs !! p) as [[d|t|]|]; eauto.
Qed.

Lemma found_keeps (fs fs' : gmap string Node) (n : nat) (op p : string) :
  keeps fs fs' → found (resolve n op p fs) = true → found (resolve n op p fs') = true.
Proof.
  intros Hk. revert p. induction n as [|n IH]; intros p; specialize (Hk p).
  - rewrite !resolve_0. destruct (fs !! p) as [[d|t|]|]; [destruct Hk as [d' Hk] | | |done];
      by rewrite Hk.
  - rewrite !resolve_S. destruct (fs !! p) as [[d|t|]|]; [destruct Hk as [d' Hk] | | |done];
      rewrite Hk; [done | apply IH | done].
Qed.

Lemma Write_keeps (file : os.File) (data : string) (fs : gmap string Node) :
  keeps fs (Write file data fs).2.
Proof.
  unfold Write. destruct (fs !! os.path file) as [[d|t|]|] eqn:E; cbn [snd];
    try apply keeps_refl.
  apply keeps_insert_file. eauto.
Qed.

Lemma OpenFile_keeps (path : string) (flags : os.OpenFlags) (fs : gmap string Node) :
  keeps fs (OpenFile path flags fs).2.
Proof.
  unfold OpenFile.
  destruct (resolve maxLinks "open" path fs) as [[q [d|t|]]|err] eqn:Hr; cbn [snd];
    try apply keeps_refl.
  - destruct (os.O_TRUNC flags); [|apply keeps_refl].
    apply keeps_insert_file. right. exists d. by apply resolve_lookup in Hr as [? _].
  - destruct (_ && _); [|apply keeps_refl].
    destruct (fs !! path) eqn:E; cbn [snd]; [apply keeps_refl |].
    apply keeps_insert_file. by left.
Qed.

Lemma MkdirAll_keeps (path : string) (fs : gmap string Node) :
  keeps fs (MkdirAll path fs).2.
Proof.
  unfold MkdirAll. destruct (mkdirAll _ path fs) as [err fs'] eqn:E.
  by apply mkdirAll_grows, grows_keeps in E.
Qed.

Lemma Append_keeps (l : ledger.Ledger) (e : ledger.Entry) (fs : gmap string Node) :
  keeps fs (ledger.Append lib l e fs).2.
Proof.
  unfold ledger.Append.
  change (os.MkdirAll ?p ?f) with (MkdirAll p f).
  pose proof (MkdirAll_keeps (Go.filepath_Dir lib (ledger.filepath l)) fs) as K1.
  destruct (MkdirAll _ fs) as [[err|] fs1]; cbn [snd] in K1; [done |].
  change (os.OpenFile ?p ?fl ?f) with (OpenFile p fl f).
  match goal with |- context [OpenFile ?p ?fl fs1] =>
    pose proof (OpenFile_keeps p fl fs1) as K2; destruct (OpenFile p fl fs1) as [[file|err] fs2]
  end; cbn [snd] in K2; [|by eapply keeps_trans].
  change (os.Write ?fi ?da ?f) with (Write fi da f).
  match goal with |- context [Write ?fi ?da fs2] =>
    pose proof (Write_keeps fi da fs2) as K3; destruct (Write fi da fs2) as [[err|] fs3]
  end; cbn [snd] in K3; eauto using keeps_trans.
Qed.

Lemma WriteFile_keeps (name data : string) (fs : gmap string Node) :
  keeps fs (os.WriteFile name data fs).2.
Proof.
  unfold os.WriteFile.
  change (os.OpenFile ?p ?fl ?f) with (OpenFile p fl f).
  match goal with |- context [OpenFile ?p ?fl fs] =>
    pose proof (OpenFile_keeps p fl fs) as K1; destruct (OpenFile p fl fs) as [[file|err] fs1]
  end; cbn [snd] in K1; [|done].
  change (os.Write ?fi ?da ?f) with (Write fi da f).
  eapply keeps_trans; [exact K1 | apply Write_keeps].
Qed.

Lemma updateVersionFile_world (v : string) (cfg : config.Config) (w : World FS Net) :
  keeps (fs w) (fs (cli.updateVersionFile lib v cfg w)) ∧
  net (cli.updateVersionFile lib v cfg w) = net w ∧
  requests (cli.updateVersionFile lib v cfg w) = requests w ∧
  stdout (cli.updateVersionFile lib v cfg w) = stdout w.
Proof.
  unfold cli.updateVersionFile, on_fs.
  match goal with |- context [os.WriteFile ?p ?c (fs w)] =>
    pose proof (WriteFile_keeps p c (fs w)) as K; destruct (os.WriteFile p c (fs w)) as [[err|] f]
  end; done.
Qed.

(** After a successful switch command the file system holds what a
    successful SwitchToVersion left, up to files written later. *)
Lemma executeSwitch_run (up : updater.Updater) (led : ledger.Ledger) (ver : string)
    (cfg : config.Config) (w w' : World FS Net) :
  cli.executeSwitch lib up led ver cfg w = (None, w') →
  DottedDigits ver ∧
  ∃ fs1, updater.SwitchToVersion lib up ver (fs w) = (None, fs1) ∧ keeps fs1 (fs w').
Proof.
  unfold cli.executeSwitch. destruct (String.eqb _ "") eqn:Ev; [discriminate |].
  apply valid_format_iff in Ev. unfold on_fs at 1.
  destruct (updater.SwitchToVersion lib up ver (fs w)) as [[e|] fs1]; [discriminate |].
  unfold Now, on_fs. cbn [fs set_fs].
  match goal with |- context [ledger.Append lib led ?e fs1] =>
    pose proof (Append_keeps led e fs1) as K; destruct (ledger.Append lib led e fs1) as [aerr fs2]
  end. cbn [snd] in K.
  intros [= <-]. split; [done |]. exists fs1. split; [done |].
  cbn [fs Printf]. eapply keeps_trans; [exact K |].
  match goal with |- context [cli.updateVersionFile lib ?v ?c ?W] =>
    destruct (updateVersionFile_world v c W) as [K' _]
  end.
  by destruct aerr.
Qed.

(** X12.  In the reference file system, with the layout of the
    program's defaults, a successful switch command leaves the version
    it was given as the local version: the ledger entry and the version
    file it writes afterwards do not disturb the current reference. *)
Theorem executeSwitch_sets_local_version (url d ver : string) (cfg' : option config.Config)
    (led : ledger.Ledger) (cfg : config.Config) (w w' : World FS Net) :
  d ≠ "" → standardLayout d cfg' →
  cli.executeSwitch lib (updater.NewUpdater lib url d cfg') led ver cfg w = (None, w') →
  updater.GetLocalVersion lib (updater.NewUpdater lib url d cfg') (fs w') = Ok ver.
Proof.
  intros Hd Hcfg (Hv & fs1 & Hs & K)%executeSwitch_run.
  destruct (switch_in_standardLayout _ _ _ _ _ _ Hd Hcfg Hv Hs) as [-> Hf].
  apply GetLocalVersion_linked; [done | | by eapply found_keeps].
  specialize (K (Join d "Cursor.AppImage")). by rewrite lookup_insert_eq in K.
Qed.

End SimRuns.

Lemma executeSwitch_sets_local_version_witness :
  updater.GetLocalVersion Sim.lib Scenario.up
    (fs (cli.executeSwitch Sim.lib Scenario.up Scenario.led "1.4" Scenario.cfg
           (Sim.start Scenario.twoComponents (Scenario.serves "1.4") Scenario.time)).2) =
  Ok "1.4".
Proof.
  apply (executeSwitch_sets_local_version cli.defaultDownloadURL "/d" "1.4"
           (Some Scenario.cfg) Scenario.led Scenario.cfg
           (Sim.start Scenario.twoComponents (Scenario.serves "1.4") Scenario.time)).
  - done.
  - done.
  - vm_compute. reflexivity.
Defined.

(** ** Updating twice *)

Section SimUpdate.
Import Sim.
Context (progressText : http.ProgressUpdate → list string).

Lemma net_on_fs {A : Type} (op : FS → A * FS) (w : World FS Net) :
  net (on_fs op w).2 = net w.
Proof. unfold on_fs. by destruct (op (fs w)). Qed.

Lemma Get_net (url : string) (w : World FS Net) : net (Get url w).2 = net w.
Proof. done. Qed.

(** The remote side of the reference environment answers by the URL
    alone. *)
Lemma GetRemoteVersion_net (u : updater.Updater) (w : World FS Net) :
  net (updater.GetRemoteVersion u w).2 = net w ∧
  ∀ w0 : World FS Net, net w0 = net w →
    (updater.GetRemoteVersion u w0).1 = (updater.GetRemoteVersion u w).1.
Proof.
  unfold updater.GetRemoteVersion, Head. cbn [http.Head network]. split.
  - destruct (finalURL (net w) !! updater.downloadURL u) as [final|]; [|done].
    by destruct (String.eqb _ "").
  - intros w0 ->. destruct (finalURL (net w) !! updater.downloadURL u) as [final|]; [|done].
    by destruct (String.eqb _ "").
Qed.

Lemma copyBody_net (u : updater.Updater) (file : os.File) (resp : http.Response)
    (w : World FS Net) :
  net (updater.copyBody u file resp w).2 = net w.
Proof.
  unfold updater.copyBody.
  assert (Hfold : ∀ (callback : updater.ProgressCallback) updates (w0 : World FS Net),
    net (fold_left
      (λ w update,
         {| fs := fs w; net := net w; requests := requests w; clock := clock w;
            ticks := ticks w; environ := environ w;
            stdout := callback update (stdout w); stderr := stderr w |}) updates w0) =
    net w0).
  { intros callback updates. induction updates as [|x xs IH]; intros w0; [done |].
    cbn [fold_left]. by rewrite IH. }
  set (w1 := match updater.progressCallback u with Some _ => _ | None => _ end).
  assert (Hw1 : net w1 = net w).
  { subst w1. destruct (updater.progressCallback u); [apply Hfold | done]. }
  pose proof (net_on_fs (os.Write file (http.Body resp)) w1) as Hw.
  destruct (on_fs (os.Write file (http.Body resp)) w1) as [[err|] w2]; cbn [snd] in *;
    congruence.
Qed.

Ltac net_step :=
  match goal with
  | |- context [updater.GetRemoteVersion ?u ?w] =>
      let H := fresh "Hn" in
      pose proof (proj1 (GetRemoteVersion_net u w)) as H;
      destruct (updater.GetRemoteVersion u w) as [? ?]; cbn [snd] in H
  | |- context [Get ?url ?w] =>
      let H := fresh "Hn" in
      pose proof (Get_net url w) as H;
      destruct (Get url w) as [? ?]; cbn [snd] in H
  | |- context [updater.copyBody ?u ?f ?r ?w] =>
      let H := fresh "Hn" in
      pose proof (copyBody_net u f r w) as H;
      destruct (updater.copyBody u f r w) as [? ?]; cbn [snd] in H
  | |- context [on_fs ?op ?w] =>
      let H := fresh "Hn" in
      pose proof (net_on_fs op w) as H;
      destruct (on_fs op w) as [? ?]; cbn [snd] in H
  | |- context [if ?b then _ else _] => destruct b
  | |- context [match ?x with Ok _ => _ | Err _ => _ end] => destruct x
  | |- context [match ?x with Some _ => _ | None => _ end] => destruct x
  end.

Lemma DownloadCursor_net (u : updater.Updater) (w : World FS Net) :
  net (updater.DownloadCursor lib u w).2 = net w.
Proof.
  unfold updater.DownloadCursor. repeat net_step; cbn [snd]; congruence.
Qed.

Lemma CheckForUpdates_sim (u : updater.Updater) (w w0 : World FS Net) :
  net w0 = net w → fs w0 = fs w →
  (updater.CheckForUpdates lib u w0).1 = (updater.CheckForUpdates lib u w).1.
Proof.
  intros Hn Hf. unfold updater.CheckForUpdates.
  pose proof (proj2 (GetRemoteVersion_net u w) w0 Hn) as Hr.
  destruct (updater.GetRemoteVersion u w0) as [r0 w0'] eqn:E0.
  destruct (updater.GetRemoteVersion u w) as [r w1] eqn:E1.
  cbn [fst] in Hr. subst r0.
  apply GetRemoteVersion_world in E0 as (F0 & _). apply GetRemoteVersion_world in E1 as (F1 & _).
  destruct r as [remoteVersion|err]; [|done]. rewrite F0, F1, Hf.
  destruct (updater.GetLocalVersion lib u (fs w)) as [localVersion|err]; [|done].
  by destruct (String.eqb localVersion "").
Qed.

Lemma CheckForUpdates_remote (u : updater.Updater) (w w1 : World FS Net)
    (needsUpdate : bool) (remoteVersion : string) :
  updater.CheckForUpdates lib u w = ((needsUpdate, remoteVersion, None), w1) →
  updater.GetRemoteVersion u w = (Ok remoteVersion, w1) ∧ DottedDigits remoteVersion.
Proof.
  unfold updater.CheckForUpdates.
  destruct (updater.GetRemoteVersion u w) as [[rv|err] w0] eqn:Er; [|discriminate].
  assert (Hv : DottedDigits rv).
  { revert Er. unfold updater.GetRemoteVersion.
    destruct (Head _ w) as [[finalURL|err] w2]; [|discriminate].
    destruct (String.eqb_spec (version.SemverFromName (Go.Base finalURL)) "") as [|Hne];
      [discriminate |].
    intros [= <- _]. by apply (SemverFromName_nonempty (Go.Base finalURL)). }
  destruct (updater.GetLocalVersion lib u (fs w0)) as [localVersion|err]; [|discriminate].
  destruct (String.eqb localVersion ""); intros [= _ <- <-]; done.
Qed.

Lemma LessThan_irrefl (v : string) : version.LessThan v v = false.
Proof.
  apply LessThan_false. intros (t1 & t2 & E1 & E2 & Hlt).
  rewrite E1 in E2. injection E2 as <-. by apply triple_lt_irrefl in Hlt.
Qed.

(** What a successful update command leaves: either nothing was to do,
    or the file system holds what a successful SwitchToVersion to the
    remote version left, up to files written later. *)
Lemma executeUpdate_run (up : updater.Updater) (led : ledger.Ledger) (cfg : config.Config)
    (w w' : World FS Net) :
  cli.executeUpdate lib progressText up led cfg w = (None, w') →
  net w' = net w ∧
  ∃ (needsUpdate : bool) remoteVersion w1,
    updater.CheckForUpdates lib up w = ((needsUpdate, remoteVersion, None), w1) ∧
    if needsUpdate
    then ∃ fs3 fs4,
           updater.SwitchToVersion lib up remoteVersion fs3 = (None, fs4) ∧
           keeps fs4 (fs w')
    else fs w' = fs w.
Proof.
  unfold cli.executeUpdate.
  destruct (updater.CheckForUpdates lib up w) as [[[needs rv] [cerr|]] w1] eqn:Ec;
    [discriminate |].
  assert (Hn1 : net w1 = net w).
  { revert Ec. unfold updater.CheckForUpdates.
    pose proof (proj1 (GetRemoteVersion_net up w)) as Hn.
    destruct (updater.GetRemoteVersion up w) as [[rv0|err] w0]; [|discriminate].
    destruct (updater.GetLocalVersion lib up (fs w0)) as [lv|err]; [|discriminate].
    destruct (String.eqb lv ""); by intros [= _ _ <-]. }
  destruct needs; cbn [negb].
  - cbv zeta.
    match goal with |- context [updater.DownloadCursor lib ?u ?W] =>
      pose proof (DownloadCursor_net u W) as Hd;
      destruct (updater.DownloadCursor lib u W) as [[filename|e] w3]
    end; [|discriminate]. cbn [snd] in Hd.
    destruct (updater.CalculateSHA256 _ _ _) as [sha256|e]; [|discriminate].
    unfold on_fs at 1.
    change (updater.SwitchToVersion lib (updater.SetProgressCallback up ?cb))
      with (updater.SwitchToVersion lib up).
    cbn [fs Printf].
    destruct (updater.SwitchToVersion lib up rv (fs w3)) as [[e|] fs4] eqn:Es; [discriminate |].
    unfold Now, on_fs. cbn [fs set_fs Printf].
    match goal with |- context [ledger.Append lib led ?e fs4] =>
      pose proof (Append_keeps led e fs4) as K;
      destruct (ledger.Append lib led e fs4) as [aerr fs5]
    end. cbn [snd] in K.
    intros [= <-].
    match goal with |- context [cli.updateVersionFile lib ?v ?c ?W] =>
      destruct (updateVersionFile_world v c W) as (K' & Hn' & _)
    end.
    split.
    + cbn [net Printf]. rewrite Hn'. destruct aerr; cbn [net Eprintf set_fs]; rewrite Hd;
        by destruct (String.eqb _ "true").
    + exists true, rv, w1. split; [done |]. exists (fs w3), fs4. split; [done |].
      cbn [fs Printf]. eapply keeps_trans; [exact K |]. by destruct aerr.
  - intros [= <-]. split; [done |]. exists false, rv, w1. split; [done |].
    cbn [fs Printf]. by apply CheckForUpdates_world in Ec as (-> & _).
Qed.

(** X13.  In the reference environment, with the layout of the
    program's defaults, the update command is idempotent: after a
    successful run, whether it installed a version or found nothing to
    do, a second run finds nothing to do; it issues one HEAD request and
    no GET, prints "Already up to date" and leaves the file system as
    the first run left it. *)
Theorem executeUpdate_twice (url d : string) (cfg' : option config.Config)
    (led : ledger.Ledger) (cfg : config.Config) (w w' : World FS Net) :
  d ≠ "" → standardLayout d cfg' →
  cli.executeUpdate lib progressText (updater.NewUpdater lib url d cfg') led cfg w =
    (None, w') →
  ∃ localVersion w'',
    cli.executeUpdate lib progressText (updater.NewUpdater lib url d cfg') led cfg w' =
      (None, w'') ∧
    fs w'' = fs w' ∧
    requests w'' = requests w' ++ [HEAD url] ∧
    stdout w'' = stdout w' ++ ["✅ Already up to date (" +:+ localVersion +:+ ")." +:+ Go.nl].
Proof.
  intros Hd Hcfg Hrun. set (up := updater.NewUpdater lib url d cfg') in *.
  destruct (executeUpdate_run _ _ _ _ _ Hrun) as (Hnet & needs & rv & w1 & Hc & Hcase).
  assert (Hsecond : ∃ rv', (updater.CheckForUpdates lib up w').1 = (false, rv', None)).
  { destruct needs.
    - destruct Hcase as (fs3 & fs4 & Hs & K).
      destruct (CheckForUpdates_remote _ _ _ _ _ Hc) as [Hr Hv].
      destruct (switch_in_standardLayout _ _ _ _ _ _ Hd Hcfg Hv Hs) as [-> Hf].
      assert (Hl : updater.GetLocalVersion lib up (fs w') = Ok rv).
      { apply GetLocalVersion_linked; [done | | by eapply found_keeps].
        specialize (K (Join d "Cursor.AppImage")). by rewrite lookup_insert_eq in K. }
      exists rv. unfold updater.CheckForUpdates.
      pose proof (proj2 (GetRemoteVersion_net up w) w' Hnet) as Hr'. rewrite Hr in Hr'.
      destruct (updater.GetRemoteVersion up w') as [r w2] eqn:E2. cbn [fst] in Hr'. subst r.
      apply GetRemoteVersion_world in E2 as (-> & _). rewrite Hl.
      destruct (String.eqb_spec rv "") as [->|_]; [by apply DottedDigits_nonempty in Hv |].
      by rewrite LessThan_irrefl.
    - exists rv. rewrite (CheckForUpdates_sim up w w' Hnet Hcase). by rewrite Hc. }
  destruct Hsecond as [rv' Hsecond]. unfold cli.executeUpdate.
  destruct (updater.CheckForUpdates lib up w') as [[[n r] e] w2] eqn:Ec'.
  cbn [fst] in Hsecond. injection Hsecond as -> -> ->. cbn [negb].
  apply CheckForUpdates_world in Ec' as (Hfs & Hrq & Hout & _).
  eexists _, _. split; [reflexivity |]. cbn [fs requests stdout Printf].
  by rewrite Hfs, Hrq, Hout.
Qed.

End SimUpdate.

Lemma executeUpdate_twice_witness :
  ∃ localVersion w'',
    cli.executeUpdate Sim.lib Scenario.noProgressText Scenario.up Scenario.led Scenario.cfg
      (cli.executeUpdate Sim.lib Scenario.noProgressText Scenario.up Scenario.led Scenario.cfg
         (Sim.start Scenario.fresh (Scenario.serves "1.1.0") Scenario.time)).2 =
      (None, w'') ∧
    fs w'' =
      fs (cli.executeUpdate Sim.lib Scenario.noProgressText Scenario.up Scenario.led
            Scenario.cfg
            (Sim.start Scenario.fresh (Scenario.serves "1.1.0") Scenario.time)).2 ∧
    requests w'' =
      requests
        (cli.executeUpdate Sim.lib Scenario.noProgressText Scenario.up Scenario.led
           Scenario.cfg
           (Sim.start Scenario.fresh (Scenario.serves "1.1.0") Scenario.time)).2 ++
      [HEAD cli.defaultDownloadURL] ∧
    stdout w'' =
      stdout
        (cli.executeUpdate Sim.lib Scenario.noProgressText Scenario.up Scenario.led
           Scenario.cfg
           (Sim.start Scenario.fresh (Scenario.serves "1.1.0") Scenario.time)).2 ++
      ["✅ Already up to date (" +:+ localVersion +:+ ")." +:+ Go.nl].
Proof.
  apply (executeUpdate_twice Scenario.noProgressText cli.defaultDownloadURL "/d"
           (Some Scenario.cfg) Scenario.led Scenario.cfg
           (Sim.start Scenario.fresh (Scenario.serves "1.1.0") Scenario.time)).
  - done.
  - done.
  - vm_compute. reflexivity.
Defined.

(** ** Appending to a ledger that holds entries *)

Section SimLedger.
Import Sim.
Context (lib : Go.Lib).

Lemma rawLines_append (content line : string) :
  content = "" ∨ (∃ c0, content = c0 +:+ Go.nl) → has_byte Go.LF line = false →
  Go.rawLines (content +:+ line +:+ Go.nl) = Go.rawLines content ++ [line].
Proof.
  intros Hc Hl. unfold Go.rawLines. destruct Hc as [->|[c0 ->]].
  - cbn [String.append]. unfold Go.nl. rewrite (Split_app _ _ _ Hl). done.
  - unfold Go.nl. rewrite sapp_assoc. cbn [String.append].
    rewrite !Split_app_sep, (Split_no_sep _ _ Hl). cbn [Go.Split].
    rewrite (app_assoc _ [line] [""]), !last_last. cbn [String.eqb].
    by rewrite !removelast_last.
Qed.

Lemma scanTokens_snoc (lines tokens : list string) (line : string) :
  Go.scanTokens lines = (tokens, None) →
  (Z.of_nat (String.length line) <? Go.MaxScanTokenSize) = true →
  Go.scanTokens (lines ++ [line]) = (tokens ++ [Go.dropCR line], None).
Proof.
  intros Hs Hl. revert tokens Hs. induction lines as [|x rest IH]; intros tokens.
  - intros [= <-]. cbn [app Go.scanTokens]. apply Z.ltb_lt in Hl.
    by destruct (Z.leb_spec Go.MaxScanTokenSize (Z.of_nat (String.length line))); [lia |].
  - cbn [app Go.scanTokens]. destruct (Go.MaxScanTokenSize <=? _); [discriminate |].
    destruct (Go.scanTokens rest) as [t [e|]]; [discriminate |].
    intros [= <-]. by rewrite (IH t).
Qed.

Lemma readLines_snoc (lines : list string) (e : ledger.Entry) :
  survives lib e = true →
  ledger.readLines lib (lines ++ [Go.dropCR (entryLine lib e)]) =
  ledger.readLines lib lines ++ [e].
Proof.
  intros He. rewrite !readLines_omap, omap_app. f_equal.
  pose proof (entryOfLine_entryLine lib e He) as Hline.
  apply survives_inv in He as (_ & _ & _ & He & _).
  rewrite (dropCR_solid _ He). cbn [omap list_omap]. by rewrite Hline.
Qed.

(** X14.  In the reference file system, appending an entry that can be
    read back from its line to a ledger file that is empty or ends with
    a line feed adds exactly that entry at the end of what ReadAll
    returns: the entries read before, from whatever lines the file
    holds, are returned as before, in the same order. *)
Theorem Append_adds_one_entry (l : ledger.Ledger) (e : ledger.Entry)
    (fs fs' : gmap string Node) (content : string) (entries : list ledger.Entry) :
  os.Open (ledger.filepath l) fs = Ok content →
  content = "" ∨ (∃ c0, content = c0 +:+ Go.nl) →
  survives lib e = true →
  ledger.ReadAll lib l fs = Ok entries →
  ledger.Append lib l e fs = (None, fs') →
  ledger.ReadAll lib l fs' = Ok (entries ++ [e]).
Proof.
  rewrite Open_resolve. intros Ho Hc He Hread Ha.
  destruct (resolve maxLinks "open" (ledger.filepath l) fs) as [[q [d|t|]]|err] eqn:Hr;
    try discriminate.
  injection Ho as ->.
  pose proof (Append_existing lib _ _ _ _ _ _ Hr Ha) as Hr'.
  revert Hread. unfold ledger.ReadAll. rewrite !Stat_resolve, !Open_resolve.
  pose proof (resolve_op fs maxLinks "open" "stat" (ledger.filepath l)) as Hop.
  pose proof (resolve_op fs' maxLinks "open" "stat" (ledger.filepath l)) as Hop'.
  rewrite Hr in Hop. rewrite Hr' in Hop'. rewrite Hop, Hop', Hr, Hr'.
  unfold Go.ScanLines. rewrite formatEntry_line.
  destruct (survives_inv lib e He) as (_ & Hlf & _ & _ & _ & Hfit).
  rewrite (rawLines_append _ _ Hc Hlf).
  destruct (Go.scanTokens (Go.rawLines content)) as [tokens [serr|]] eqn:Es; [discriminate |].
  intros [= <-]. rewrite (scanTokens_snoc _ _ _ Es Hfit). by rewrite readLines_snoc.
Qed.

Lemma ReadAll_appendAll (l : ledger.Ledger) (fs fs' : gmap string Node)
    (entries : list ledger.Entry) :
  (∃ err, os.Stat (ledger.filepath l) fs = Err err ∧ Go.IsNotExist err = true) →
  forallb (survives lib) entries = true →
  appendAll lib l entries fs = (None, fs') →
  ledger.ReadAll lib l fs' = Ok entries.
Proof.
  intros (err & Es & En) Hs Happ. destruct entries as [|e rest].
  - injection Happ as <-. unfold ledger.ReadAll. by rewrite Es, En.
  - apply (ReadAll_lines lib l fs' (ledger.filepath l)); [done |].
    cbn [appendAll] in Happ.
    destruct (ledger.Append lib l e fs) as [[aerr|] fs1] eqn:Ea; [discriminate |].
    pose proof (Append_missing lib _ _ _ _ _ Es Ea) as Hr1.
    rewrite (appendAll_existing lib _ _ _ _ _ _ Hr1 Happ). do 3 f_equal.
    destruct rest; simpl; [by rewrite sapp_nil_r | done].
Qed.

(** X15.  In the reference file system, after entries that can be read
    back from their lines were appended one by one to a ledger that was
    absent, FindByInternalID returns exactly the appended entries with
    the given internal ID, in the order of the appends. *)
Theorem FindByInternalID_after_appends (l : ledger.Ledger) (fs fs' : gmap string Node)
    (entries : list ledger.Entry) (id : string) :
  (∃ err, os.Stat (ledger.filepath l) fs = Err err ∧ Go.IsNotExist err = true) →
  forallb (survives lib) entries = true →
  appendAll lib l entries fs = (None, fs') →
  ledger.FindByInternalID lib l id fs' =
  Ok (List.filter (λ entry, String.eqb (ledger.InternalID entry) id) entries).
Proof.
  intros Hmissing Hs Happ. unfold ledger.FindByInternalID.
  by rewrite (ReadAll_appendAll _ _ _ _ Hmissing Hs Happ).
Qed.

End SimLedger.

Lemma Append_adds_one_entry_witness :
  ledger.ReadAll Sim.lib Scenario.led
    (ledger.Append Sim.lib Scenario.led Scenario.entry3
       (Scenario.ledgerWith Scenario.corrupted)).2 =
  Ok ([Scenario.entry1; Scenario.entry2] ++ [Scenario.entry3]).
Proof.
  apply (Append_adds_one_entry Sim.lib Scenario.led Scenario.entry3
           (Scenario.ledgerWith Scenario.corrupted) _ Scenario.corrupted).
  - vm_compute. reflexivity.
  - right.
    exists (String.substring 0 (String.length Scenario.corrupted - 1) Scenario.corrupted).
    vm_compute. reflexivity.
  - vm_compute. reflexivity.
  - vm_compute. reflexivity.
  - vm_compute. reflexivity.
Defined.

Lemma FindByInternalID_after_appends_witness :
  ledger.FindByInternalID Sim.lib Scenario.led "67890"
    (appendAll Sim.lib Scenario.led
       [Scenario.entry1; Scenario.entry2; Scenario.entry3] Scenario.fresh).2 =
  Ok (List.filter (λ entry, String.eqb (ledger.InternalID entry) "67890")
        [Scenario.entry1; Scenario.entry2; Scenario.entry3]).
Proof.
  apply (FindByInternalID_after_appends Sim.lib Scenario.led Scenario.fresh _
           [Scenario.entry1; Scenario.entry2; Scenario.entry3] "67890").
  - exists (Sim.ENOENT "stat" "/cfg/cursor-versions.log"). vm_compute. split; reflexivity.
  - vm_compute. reflexivity.
  - vm_compute. reflexivity.
Defined.

(** ** A download that breaks off *)

Section SimDownload.
Import Sim.

Lemma OpenFile_Ok (path : string) (flags : os.OpenFlags) (fs fs' : gmap string Node)
    (file : os.File) :
  OpenFile path flags fs = (Ok file, fs') →
  ∃ d, resolve maxLinks "open" path fs' = Ok (os.path file, File d).
Proof.
  unfold OpenFile.
  destruct (resolve maxLinks "open" path fs) as [[q [d|t|]]|err] eqn:Hr; try discriminate.
  - intros [= <- <-]. cbn [os.path]. destruct (os.O_TRUNC flags).
    + exists "". by apply resolve_write with (old := d).
    + by exists d.
  - destruct (_ && _); [|discriminate]. destruct (fs !! path) eqn:E; [discriminate |].
    intros [= <- <-]. exists "". cbn [os.path]. change maxLinks with (S 39).
    by rewrite resolve_S, lookup_insert_eq.
Qed.

Lemma Write_resolve (file : os.File) (data op path d : string) (fs : gmap string Node) :
  resolve maxLinks op path fs = Ok (os.path file, File d) →
  ∃ d', resolve maxLinks op path (Write file data fs).2 = Ok (os.path file, File d').
Proof.
  intros Hr. destruct (resolve_lookup _ _ _ _ _ _ Hr) as [Hq _].
  unfold Write. rewrite Hq. cbn [snd]. eexists. by apply resolve_write with (old := d).
Qed.

Lemma copyBody_fs (u : updater.Updater) (file : os.File) (resp : http.Response)
    (w : World FS Net) :
  fs (updater.copyBody u file resp w).2 = (Write file (http.Body resp) (fs w)).2.
Proof.
  unfold updater.copyBody.
  assert (Hfold : ∀ (callback : updater.ProgressCallback) updates (w0 : World FS Net),
    fs (fold_left
      (λ w update,
         {| fs := fs w; net := net w; requests := requests w; clock := clock w;
            ticks := ticks w; environ := environ w;
            stdout := callback update (stdout w); stderr := stderr w |}) updates w0) =
    fs w0).
  { intros callback updates. induction updates as [|x xs IH]; intros w0; [done |].
    cbn [fold_left]. by rewrite IH. }
  set (w1 := match updater.progressCallback u with Some _ => _ | None => _ end).
  assert (Hw1 : fs w1 = fs w).
  { subst w1. destruct (updater.progressCallback u); [apply Hfold | done]. }
  unfold on_fs. change (os.Write ?fi ?da ?f) with (Write fi da f). rewrite Hw1.
  by destruct (Write file (http.Body resp) (fs w)) as [[err|] f].
Qed.

Lemma Stat_of_open (path q d : string) (fs : gmap string Node) :
  resolve maxLinks "open" path fs = Ok (q, File d) → Stat path fs = Ok (info (File d)).
Proof.
  intros Hr. pose proof (resolve_op fs maxLinks "open" "stat" path) as Hop.
  rewrite Hr in Hop. unfold Stat. by rewrite Hop.
Qed.

Ltac wrong_error := intros [= <- <-] Hp; vm_compute in Hp; discriminate Hp.

(** Once the artifact file is created it is there, whatever happens to
    the transfer. *)
Lemma after_create (u : updater.Updater) (path filename : string) (file : os.File)
    (resp : http.Response) (w4 w' : World FS Net) (fs5 : gmap string Node)
    (err : Go.error) :
  os.Create path (fs w4) = (Ok file, fs5) →
  (let '(err, w) := updater.copyBody u file resp (set_fs w4 fs5) in
   match err with
   | Some err => (Err (Go.Errorf ("failed to write file: " +:+ Go.Error err)), w)
   | None =>
       let '(err, w) := on_fs (os.Chmod path) w in
       match err with
       | Some err =>
           (Err (Go.Errorf ("failed to make file executable: " +:+ Go.Error err)), w)
       | None => (Ok filename, w)
       end
   end) = (Err err, w') →
  ∃ info, os.Stat path (fs w') = Ok info.
Proof.
  unfold os.Create. change (os.OpenFile ?p ?fl ?f) with (OpenFile p fl f).
  intros [d Hres]%OpenFile_Ok.
  pose proof (copyBody_fs u file resp (set_fs w4 fs5)) as Hfs.
  destruct (updater.copyBody u file resp (set_fs w4 fs5)) as [[e|] w6];
    cbn [snd fs set_fs] in Hfs.
  - intros [= _ <-]. rewrite Hfs.
    destruct (Write_resolve file (http.Body resp) _ _ _ _ Hres) as [d' Hres'].
    eexists. change (os.Stat ?p ?f) with (Stat p f). by apply (Stat_of_open _ _ _ _ Hres').
  - unfold on_fs. change (os.Chmod ?p ?f) with (Chmod p f). unfold Chmod.
    destruct (resolve maxLinks "chmod" _ _); [discriminate |]. intros [= _ <-].
    cbn [fs set_fs]. rewrite Hfs.
    destruct (Write_resolve file (http.Body resp) _ _ _ _ Hres) as [d' Hres'].
    eexists. change (os.Stat ?p ?f) with (Stat p f). by apply (Stat_of_open _ _ _ _ Hres').
Qed.

Ltac finish_download :=
  cbv beta iota zeta; destruct (negb _); [wrong_error |];
  destruct (on_fs (updater.ensureDirectories lib _) _) as [[?|] ?]; [wrong_error |];
  unfold on_fs at 1;
  match goal with |- context [os.Create ?p ?f] =>
    let Ec := fresh "Ec" in let H := fresh "H" in
    let i := fresh "i" in let Hi := fresh "Hi" in
    destruct (os.Create p f) as [[?|?] ?] eqn:Ec; [|wrong_error];
    intros H _; destruct (after_create _ _ _ _ _ _ _ _ _ Ec H) as [i Hi];
    exists i; split; [reflexivity | exact Hi]
  end.

Lemma DownloadCursor_left_behind (u : updater.Updater) (w w' : World FS Net)
    (err : Go.error) :
  updater.DownloadCursor lib u w = (Err err, w') →
  Go.HasPrefix (Go.Error err) "failed to write file: " = true →
  ∃ remoteVersion info,
    (updater.GetRemoteVersion u w).1 = Ok remoteVersion ∧
    os.Stat (updater.getDownloadPath lib u (updater.GenerateFileName u remoteVersion))
      (fs w') = Ok info.
Proof.
  unfold updater.DownloadCursor.
  destruct (updater.GetRemoteVersion u w) as [[rv|?] w1]; [|wrong_error].
  destruct (os.Stat _ (fs w1)); [discriminate |].
  destruct (Get (updater.downloadURL u) w1) as [[resp|?] w2]; [|wrong_error].
  intros H Hp. exists rv. cbn [fst]. revert H Hp.
  destruct ((_ =? http.StatusFound) || _).
  - destruct (String.eqb (http.Location resp) ""); [wrong_error |].
    destruct (Get (http.Location resp) w2) as [[resp'|?] w3]; [|wrong_error].
    finish_download.
  - finish_download.
Qed.

(** X16.  In the reference environment, when DownloadCursor fails
    while the body is copied to the artifact file (the transfer breaks
    off), the file stays where it is with what was received, and the
    next DownloadCursor takes it for the artifact: it succeeds after
    one HEAD request, without any GET and without touching the file
    system. *)
Theorem interrupted_download_is_taken_for_complete (u : updater.Updater)
    (w w' : World FS Net) (err : Go.error) :
  updater.DownloadCursor lib u w = (Err err, w') →
  Go.HasPrefix (Go.Error err) "failed to write file: " = true →
  ∃ filename w'',
    updater.DownloadCursor lib u w' = (Ok filename, w'') ∧
    fs w'' = fs w' ∧
    requests w'' = requests w' ++ [HEAD (updater.downloadURL u)].
Proof.
  intros Hd Hp. destruct (DownloadCursor_left_behind _ _ _ _ Hd Hp) as (rv & i & Hr & Hs).
  pose proof (DownloadCursor_net u w) as Hn. rewrite Hd in Hn. cbn [snd] in Hn.
  pose proof (proj2 (GetRemoteVersion_net u w) w' Hn) as Hr'. rewrite Hr in Hr'.
  unfold updater.DownloadCursor.
  destruct (updater.GetRemoteVersion u w') as [r w1] eqn:E1. cbn [fst] in Hr'. subst r.
  apply GetRemoteVersion_world in E1 as (Hfs & Hrq & _). rewrite Hfs, Hs.
  by eexists _, _.
Qed.

End SimDownload.

Lemma interrupted_download_is_taken_for_complete_witness :
  ∃ filename w'',
    updater.DownloadCursor Sim.lib Scenario.up
      (updater.DownloadCursor Sim.lib Scenario.up
         (Sim.start Scenario.fresh (Incident.breaksOff "1.1.0") Scenario.time)).2 =
      (Ok filename, w'') ∧
    fs w'' =
      fs (updater.DownloadCursor Sim.lib Scenario.up
            (Sim.start Scenario.fresh (Incident.breaksOff "1.1.0") Scenario.time)).2 ∧
    requests w'' =
      requests
        (updater.DownloadCursor Sim.lib Scenario.up
           (Sim.start Scenario.fresh (Incident.breaksOff "1.1.0") Scenario.time)).2 ++
      [HEAD (updater.downloadURL Scenario.up)].
Proof.
  apply (interrupted_download_is_taken_for_complete Scenario.up
           (Sim.start Scenario.fresh (Incident.breaksOff "1.1.0") Scenario.time) _
           (Go.Errorf "failed to write file: unexpected EOF")).
  - vm_compute. reflexivity.
  - vm_compute. reflexivity.
Defined.

Example interrupted_download_run :
  (updater.DownloadCursor Sim.lib Scenario.up
     (Sim.start Scenario.fresh (Incident.breaksOff "1.1.0") Scenario.time)).1 =
    Err (Go.Errorf "failed to write file: unexpected EOF") ∧
  os.Open "/d/Cursor-1.1.0-x86_64.AppImage"
    (fs (updater.DownloadCursor Sim.lib Scenario.up
           (Sim.start Scenario.fresh (Incident.breaksOff "1.1.0") Scenario.time)).2) =
    Ok "mock cur".
Proof. vm_compute. split; reflexivity. Qed.

(** ** What the force command installs *)

Section SimForce.
Import Sim.
Context (progressText : http.ProgressUpdate → list string).

Lemma GetRemoteVersion_DottedDigits (u : updater.Updater) (w w1 : World FS Net)
    (remoteVersion : string) :
  updater.GetRemoteVersion u w = (Ok remoteVersion, w1) → DottedDigits remoteVersion.
Proof.
  unfold updater.GetRemoteVersion.
  destruct (Head _ w) as [[finalURL|err] w2]; [|discriminate].
  destruct (String.eqb_spec (version.SemverFromName (Go.Base finalURL)) "") as [|Hne];
    [discriminate |].
  intros [= <- _]. by apply (SemverFromName_nonempty (Go.Base finalURL)).
Qed.

Lemma executeForce_run (up : updater.Updater) (led : ledger.Ledger) (cfg : config.Config)
    (w w' : World FS Net) :
  cli.executeForce lib progressText up led cfg w = (None, w') →
  ∃ remoteVersion w1 fs3 fs4,
    updater.GetRemoteVersion up w = (Ok remoteVersion, w1) ∧
    updater.SwitchToVersion lib up remoteVersion fs3 = (None, fs4) ∧
    keeps fs4 (fs w').
Proof.
  unfold cli.executeForce.
  destruct (updater.GetRemoteVersion up w) as [[rv|err] w1] eqn:Er; [|discriminate].
  cbv zeta.
  match goal with |- context [updater.DownloadCursor lib ?u ?W] =>
    destruct (updater.DownloadCursor lib u W) as [[filename|e] w3]
  end; [|discriminate].
  destruct (updater.CalculateSHA256 _ _ _) as [sha256|e]; [|discriminate].
  unfold on_fs at 1.
  change (updater.SwitchToVersion lib (updater.SetProgressCallback up ?cb))
    with (updater.SwitchToVersion lib up).
  cbn [fs Printf].
  destruct (updater.SwitchToVersion lib up rv (fs w3)) as [[e|] fs4] eqn:Es; [discriminate |].
  unfold Now, on_fs. cbn [fs set_fs Printf].
  match goal with |- context [ledger.Append lib led ?e fs4] =>
    pose proof (Append_keeps led e fs4) as K;
    destruct (ledger.Append lib led e fs4) as [aerr fs5]
  end. cbn [snd] in K.
  intros [= <-].
  match goal with |- context [cli.updateVersionFile lib ?v ?c ?W] =>
    destruct (updateVersionFile_world v c W) as (K' & _)
  end.
  exists rv, w1, (fs w3), fs4. split; [done |]. split; [done |].
  cbn [fs Printf]. eapply keeps_trans; [exact K |]. by destruct aerr.
Qed.

(** X17.  In the reference environment, with the layout of the
    program's defaults, a successful force command leaves the remote
    version as the local version. *)
Theorem executeForce_installs_remote_version (url d : string)
    (cfg' : option config.Config) (led : ledger.Ledger) (cfg : config.Config)
    (w w' : World FS Net) :
  d ≠ "" → standardLayout d cfg' →
  cli.executeForce lib progressText (updater.NewUpdater lib url d cfg') led cfg w =
    (None, w') →
  ∃ remoteVersion,
    (updater.GetRemoteVersion (updater.NewUpdater lib url d cfg') w).1 = Ok remoteVersion ∧
    updater.GetLocalVersion lib (updater.NewUpdater lib url d cfg') (fs w') =
      Ok remoteVersion.
Proof.
  intros Hd Hcfg (rv & w1 & fs3 & fs4 & Hr & Hs & K)%executeForce_run.
  exists rv. rewrite Hr. split; [done |].
  pose proof (GetRemoteVersion_DottedDigits _ _ _ _ Hr) as Hv.
  destruct (switch_in_standardLayout _ _ _ _ _ _ Hd Hcfg Hv Hs) as [-> Hf].
  apply GetLocalVersion_linked; [done | | by eapply found_keeps].
  specialize (K (Join d "Cursor.AppImage")). by rewrite lookup_insert_eq in K.
Qed.

End SimForce.

Lemma executeForce_installs_remote_version_witness :
  ∃ remoteVersion,
    (updater.GetRemoteVersion Scenario.up
       (Sim.start Scenario.installed (Scenario.serves "1.1.0") Scenario.time)).1 =
      Ok remoteVersion ∧
    updater.GetLocalVersion Sim.lib Scenario.up
      (fs (cli.executeForce Sim.lib Scenario.noProgressText Scenario.up Scenario.led
             Scenario.cfg
             (Sim.start Scenario.installed (Scenario.serves "1.1.0") Scenario.time)).2) =
      Ok remoteVersion.
Proof.
  apply (executeForce_installs_remote_version Scenario.noProgressText
           cli.defaultDownloadURL "/d" (Some Scenario.cfg) Scenario.led Scenario.cfg
           (Sim.start Scenario.installed (Scenario.serves "1.1.0") Scenario.time)).
  - done.
  - done.
  - vm_compute. reflexivity.
Defined.

(** ** The remote version and the stored artifact *)

Section Remote.
Context {F N : Type} `{!os.FileSystem F} `{!http.Network N}.

(** X18.  GetRemoteVersion fails with "failed to check redirect" when
    the HEAD request fails.  Otherwise it returns [v] exactly when the
    last element of the final URL is Cursor-[v]-x86_64.AppImage with [v]
    one or more runs of decimal digits separated by dots, and when the
    last element has no such form it fails with "could not extract
    version from URL". *)
Theorem GetRemoteVersion_outcome (u : updater.Updater) (w : World F N) :
  match (Head (updater.downloadURL u) w).1 with
  | Err err =>
      (updater.GetRemoteVersion u w).1 =
      Err (Go.Errorf ("failed to check redirect: " +:+ Go.Error err))
  | Ok finalURL =>
      (∀ v, (updater.GetRemoteVersion u w).1 = Ok v ↔
            Go.Base finalURL = "Cursor-" +:+ v +:+ "-x86_64.AppImage" ∧ DottedDigits v) ∧
      ((∀ v, ¬ (Go.Base finalURL = "Cursor-" +:+ v +:+ "-x86_64.AppImage" ∧ DottedDigits v)) →
       (updater.GetRemoteVersion u w).1 =
       Err (Go.Errorf ("could not extract version from URL: " +:+ finalURL)))
  end.
Proof.
  unfold updater.GetRemoteVersion.
  destruct (Head (updater.downloadURL u) w) as [[finalURL|err] w1]; cbn [fst]; [|done].
  destruct (String.eqb_spec (version.SemverFromName (Go.Base finalURL)) "") as [He|Hne];
    cbn [fst].
  - split; [|done]. intros v. split; [discriminate |]. intros [Hb Hv].
    rewrite Hb, (SemverFromName_generated v Hv) in He.
    by apply DottedDigits_nonempty in Hv.
  - split.
    + intros v. split.
      * intros [= <-]. by apply SemverFromName_nonempty.
      * intros [Hb Hv]. by rewrite Hb, (SemverFromName_generated v Hv).
    + intros Hno. destruct (Hno (version.SemverFromName (Go.Base finalURL))).
      by apply SemverFromName_nonempty.
Qed.

End Remote.

Section SimStore.
Import Sim.

Lemma OpenFile_truncated (path : string) (flags : os.OpenFlags) (fs fs' : gmap string Node)
    (file : os.File) :
  os.O_TRUNC flags = true →
  OpenFile path flags fs = (Ok file, fs') →
  resolve maxLinks "open" path fs' = Ok (os.path file, File "").
Proof.
  intros Ht. unfold OpenFile. rewrite Ht.
  destruct (resolve maxLinks "open" path fs) as [[q [d|t|]]|err] eqn:Hr; try discriminate.
  - intros [= <- <-]. cbn [os.path]. by apply resolve_write with (old := d).
  - destruct (_ && _); [|discriminate]. destruct (fs !! path) eqn:E; [discriminate |].
    intros [= <- <-]. cbn [os.path]. change maxLinks with (S 39).
    by rewrite resolve_S, lookup_insert_eq.
Qed.

Lemma substring_nil (n m : nat) : String.substring n m "" = "".
Proof. by destruct n, m. Qed.

(** Writing to a file that was just created or truncated leaves the
    data as its content. *)
Lemma Write_truncated (file : os.File) (data path : string) (fs : gmap string Node) :
  os.O_APPEND (os.flags file) = false →
  resolve maxLinks "open" path fs = Ok (os.path file, File "") →
  (Write file data fs).1 = None ∧
  resolve maxLinks "open" path (Write file data fs).2 = Ok (os.path file, File data).
Proof.
  intros Ha Hr. destruct (resolve_lookup _ _ _ _ _ _ Hr) as [Hq _].
  unfold Write. rewrite Hq, Ha. cbn [fst snd]. split; [done |].
  rewrite substring_nil, sapp_nil_r. by apply resolve_write with (old := "").
Qed.

Lemma copyBody_result (u : updater.Updater) (file : os.File) (resp : http.Response)
    (w : World FS Net) :
  (Write file (http.Body resp) (fs w)).1 = None →
  (updater.copyBody u file resp w).1 = http.BodyErr resp.
Proof.
  unfold updater.copyBody.
  assert (Hfold : ∀ (callback : updater.ProgressCallback) updates (w0 : World FS Net),
    fs (fold_left
      (λ w update,
         {| fs := fs w; net := net w; requests := requests w; clock := clock w;
            ticks := ticks w; environ := environ w;
            stdout := callback update (stdout w); stderr := stderr w |}) updates w0) =
    fs w0).
  { intros callback updates. induction updates as [|x xs IH]; intros w0; [done |].
    cbn [fold_left]. by rewrite IH. }
  set (w1 := match updater.progressCallback u with Some _ => _ | None => _ end).
  assert (Hw1 : fs w1 = fs w).
  { subst w1. destruct (updater.progressCallback u); [apply Hfold | done]. }
  unfold on_fs. change (os.Write ?fi ?da ?f) with (Write fi da f). rewrite Hw1.
  destruct (Write file (http.Body resp) (fs w)) as [[err|] f]; [discriminate | done].
Qed.

(** The tail of DownloadCursor, from the creation of the file on. *)
Lemma stored_after_create (u : updater.Updater) (path filename : string) (file : os.File)
    (resp : http.Response) (w4 w' : World FS Net) (fs5 : gmap string Node) :
  os.Create path (fs w4) = (Ok file, fs5) →
  (let '(err, w) := updater.copyBody u file resp (set_fs w4 fs5) in
   match err with
   | Some err => (Err (Go.Errorf ("failed to write file: " +:+ Go.Error err)), w)
   | None =>
       let '(err, w) := on_fs (os.Chmod path) w in
       match err with
       | Some err =>
           (Err (Go.Errorf ("failed to make file executable: " +:+ Go.Error err)), w)
       | None => (Ok filename, w)
       end
   end) = (Ok filename, w') →
  http.BodyErr resp = None ∧ os.Open path (fs w') = Ok (http.Body resp).
Proof.
  unfold os.Create. change (os.OpenFile ?p ?fl ?f) with (OpenFile p fl f).
  intros Hc. pose proof Hc as Hfile. apply OpenFile_truncated in Hc; [|done].
  assert (Hflags : os.O_APPEND (os.flags file) = false).
  { revert Hfile. unfold OpenFile.
    destruct (resolve maxLinks "open" path (fs w4)) as [[q [d|t|]]|err]; try discriminate.
    - by intros [= <- _].
    - destruct (_ && _); [|discriminate]. destruct (fs w4 !! path); [discriminate |].
      by intros [= <- _]. }
  destruct (Write_truncated file (http.Body resp) path fs5 Hflags Hc) as [Hw Hres].
  pose proof (copyBody_fs u file resp (set_fs w4 fs5)) as Hfs.
  pose proof (copyBody_result u file resp (set_fs w4 fs5) Hw) as Hb.
  destruct (updater.copyBody u file resp (set_fs w4 fs5)) as [[e|] w6];
    cbn [fst snd fs set_fs] in Hfs, Hb; [discriminate |].
  unfold on_fs. change (os.Chmod ?p ?f) with (Chmod p f). unfold Chmod.
  destruct (resolve maxLinks "chmod" _ _); [|discriminate]. intros [= <-].
  split; [done |]. cbn [fs set_fs]. rewrite Hfs.
  change (os.Open ?p ?f) with (Open p f). rewrite Open_resolve. by rewrite Hres.
Qed.

(** X19.  In the reference environment, when DownloadCursor succeeds
    and no file with the artifact's name was there before, the artifact
    file holds exactly the body of a response with status 200 whose
    transfer ended without error: the one served at the download URL,
    or, when that one is a redirect (301 or 302), the one served at its
    Location. *)
Theorem DownloadCursor_stores_the_body (u : updater.Updater) (w w' : World FS Net)
    (filename : string) :
  updater.DownloadCursor lib u w = (Ok filename, w') →
  found (os.Stat (updater.getDownloadPath lib u filename) (fs w)) = false →
  ∃ resp,
    (pages (net w) !! updater.downloadURL u = Some resp ∨
     ∃ first,
       pages (net w) !! updater.downloadURL u = Some first ∧
       ((http.StatusCode first =? http.StatusFound) ||
        (http.StatusCode first =? http.StatusMovedPermanently)) = true ∧
       pages (net w) !! http.Location first = Some resp) ∧
    http.StatusCode resp = http.StatusOK ∧
    http.BodyErr resp = None ∧
    os.Open (updater.getDownloadPath lib u filename) (fs w') = Ok (http.Body resp).
Proof.
  unfold updater.DownloadCursor.
  pose proof (proj1 (GetRemoteVersion_net u w)) as Hn1.
  destruct (updater.GetRemoteVersion u w) as [[rv|?] w1] eqn:Er; [|discriminate].
  cbn [snd] in Hn1. apply GetRemoteVersion_world in Er as (Hfs1 & _).
  destruct (os.Stat _ (fs w1)) as [i|e] eqn:Es.
  { intros [= <- <-]. rewrite Hfs1 in Es. by rewrite Es. }
  unfold Get at 1. cbn [http.Get network]. rewrite Hn1.
  destruct (pages (net w) !! updater.downloadURL u) as [first|] eqn:E1; [|discriminate].
  destruct ((_ =? http.StatusFound) || _) eqn:Hredirect.
  - destruct (String.eqb (http.Location first) ""); [discriminate |].
    unfold Get at 1. cbn [http.Get network net].
    destruct (pages (net w) !! http.Location first) as [resp|] eqn:E2; [|discriminate].
    cbv beta iota zeta. destruct (http.StatusCode resp =? http.StatusOK) eqn:Hok;
      [|discriminate]. cbn [negb].
    destruct (on_fs (updater.ensureDirectories lib _) _) as [[?|] w4]; [discriminate |].
    unfold on_fs at 1. destruct (os.Create _ (fs w4)) as [[file|?] fs5] eqn:Ec; [|discriminate].
    intros H _. assert (Hname : filename = updater.GenerateFileName u rv).
    { revert H. destruct (updater.copyBody _ _ _ _) as [[?|] ?]; [discriminate |].
      destruct (on_fs _ _) as [[?|] ?]; [discriminate |]. by intros [= <- _]. }
    subst filename. destruct (stored_after_create _ _ _ _ _ _ _ _ Ec H) as [Hb Ho].
    exists resp. split; [right; by exists first |]. by apply Z.eqb_eq in Hok.
  - cbv beta iota zeta. destruct (http.StatusCode first =? http.StatusOK) eqn:Hok;
      [|discriminate]. cbn [negb].
    destruct (on_fs (updater.ensureDirectories lib _) _) as [[?|] w4]; [discriminate |].
    unfold on_fs at 1. destruct (os.Create _ (fs w4)) as [[file|?] fs5] eqn:Ec; [|discriminate].
    intros H _. assert (Hname : filename = updater.GenerateFileName u rv).
    { revert H. destruct (updater.copyBody _ _ _ _) as [[?|] ?]; [discriminate |].
      destruct (on_fs _ _) as [[?|] ?]; [discriminate |]. by intros [= <- _]. }
    subst filename. destruct (stored_after_create _ _ _ _ _ _ _ _ Ec H) as [Hb Ho].
    exists first. split; [by left |]. by apply Z.eqb_eq in Hok.
Qed.

End SimStore.

Lemma DownloadCursor_stores_the_body_witness :
  ∃ resp,
    (Sim.pages (Scenario.serves "1.1.0") !! updater.downloadURL Scenario.up = Some resp ∨
     ∃ first,
       Sim.pages (Scenario.serves "1.1.0") !! updater.downloadURL Scenario.up = Some first ∧
       ((http.StatusCode first =? http.StatusFound) ||
        (http.StatusCode first =? http.StatusMovedPermanently)) = true ∧
       Sim.pages (Scenario.serves "1.1.0") !! http.Location first = Some resp) ∧
    http.StatusCode resp = http.StatusOK ∧
    http.BodyErr resp = None ∧
    os.Open (updater.getDownloadPath Sim.lib Scenario.up "Cursor-1.1.0-x86_64.AppImage")
      (fs (updater.DownloadCursor Sim.lib Scenario.up
             (Sim.start Scenario.installed (Scenario.serves "1.1.0") Scenario.time)).2) =
    Ok (http.Body resp).
Proof.
  apply (DownloadCursor_stores_the_body Scenario.up
           (Sim.start Scenario.installed (Scenario.serves "1.1.0") Scenario.time) _
           "Cursor-1.1.0-x86_64.AppImage").
  - vm_compute. reflexivity.
  - vm_compute. reflexivity.
Defined.
